(** * MULTI001 wireless MQTT sensor node: configuration store and publish scheduler

    A shallow embedding of the firmware sketches of the MULTI001 repository
    (Wemos D1 mini / ESP8266, Arduino C++).  The repository holds several
    near-duplicate sketches; the ones modelled here are

    - [MultiHTT]   : the AM2320 + DS18B20 + four switch sketch with the
                     soft/hard publish deadlines (compile-time intervals);
    - [Multi001]   : the AM2320 + two switch sketch whose intervals are part
                     of the stored user configuration;
    - [MotionNode] : the DS18B20 + PIR + lux sketch with the interrupt latch
                     [MOTION_DETECTED] and one publish interval;
    - [LuxNode]    : the DS18B20 + PIR + lux + four switch sketch gated on
                     [DETECTED_MOTION].

    Part I holds the definitions, Part II the lemmas and theorems. *)

From Stdlib Require Import String Ascii.
From Stdlib Require Import Strings.Byte.
From Stdlib Require Import ZArith List Lia Bool.
From coqutil Require Import Byte Word.LittleEndianList.
Import ListNotations.
Local Open Scope Z_scope.

(* ===================================================================== *)
(** * Part I: definitions *)
(* ===================================================================== *)

(** ** Machine integers

    On the ESP8266 both [int] and [long] are 32-bit two's-complement
    integers.  Values are kept in [Z]; [wrap_long] is the wrap-around of a
    32-bit signed result. *)

Definition LONG_MIN : Z := - 2 ^ 31.
Definition LONG_MAX : Z := 2 ^ 31 - 1.

Definition wrap_long (z : Z) : Z := (z + 2 ^ 31) mod 2 ^ 32 - 2 ^ 31.

Definition in_long (z : Z) : Prop := LONG_MIN <= z <= LONG_MAX.

(** [a + b] on two [long] operands. *)
Definition long_add (a b : Z) : Z := wrap_long (a + b).

(** ** C strings held in fixed [char] arrays *)

Definition NUL : byte := x00.

(** The characters of the C string that starts at the head of [a]: all
    bytes before the first NUL. *)
Fixpoint cstr (a : list byte) : list byte :=
  match a with
  | [] => []
  | c :: r => if Byte.eqb c NUL then [] else c :: cstr r
  end.

Definition strlen (a : list byte) : nat := length (cstr a).

(** [strcpy(dst, src)]: the characters of [src] and the terminating NUL
    overwrite the head of [dst]; the tail of [dst] keeps its bytes.  Writing
    past the end of the array is undefined behaviour and yields [None]. *)
Definition strcpy (dst src : list byte) : option (list byte) :=
  let s := cstr src in
  if (length s + 1 <=? length dst)%nat
  then Some (s ++ NUL :: skipn (length s + 1) dst)
  else None.

(** The text [v] and its NUL fit an array of [n] bytes. *)
Definition fits (n : nat) (v : list byte) : Prop := (strlen v < n)%nat.

(** [atoi]: optional white space, optional sign, then decimal digits. *)
Definition isspace (c : byte) : bool :=
  match c with
  | x20 | x09 | x0a | x0b | x0c | x0d => true
  | _ => false
  end.

Definition digit_of (c : byte) : option Z :=
  let n := byte.unsigned c in
  if (48 <=? n) && (n <=? 57) then Some (n - 48) else None.

Fixpoint atoi_digits (acc : Z) (s : list byte) : Z :=
  match s with
  | [] => acc
  | c :: r =>
      match digit_of c with
      | Some d => atoi_digits (10 * acc + d) r
      | None => acc
      end
  end.

Fixpoint atoi_skip (s : list byte) : list byte :=
  match s with
  | c :: r => if isspace c then atoi_skip r else s
  | [] => []
  end.

Definition atoi (s : list byte) : Z :=
  match atoi_skip (cstr s) with
  | x2d :: r => wrap_long (- atoi_digits 0 r)
  | x2b :: r => wrap_long (atoi_digits 0 r)
  | r => wrap_long (atoi_digits 0 r)
  end.

(** ** The EEPROM object of the ESP8266 core

    The sketches use the platform's [EEPROM] object: [begin(size)] copies
    the flash sector into a RAM buffer, [read]/[write]/[get]/[put] work on
    the buffer with a bounds check, [commit] copies the buffer back to flash
    in one step and [end] commits and releases the buffer.  The flash sector
    is a total map from addresses to bytes; the library's dirty flag only
    avoids rewriting identical contents and is left out, and a flash write
    is taken to succeed.  The map is meant on the [size] bytes that [begin]
    opens: a commit of the core erases the whole 4096-byte sector and writes
    back the buffer only, so the map says nothing about the device at the
    addresses beyond the buffer. *)

Record EEPROMClass := mkEEPROM {
  _sector : nat -> byte;     (* flash contents, what survives a reboot *)
  _data   : list byte        (* RAM buffer, empty outside begin .. end  *)
}.

Definition splice (addr : nat) (bs data : list byte) : list byte :=
  firstn addr data ++ bs ++ skipn (addr + length bs) data.

Definition overlay (data : list byte) (sector : nat -> byte) : nat -> byte :=
  fun i => match nth_error data i with Some b => b | None => sector i end.

Module EEPROM.

Definition begin (size : nat) (e : EEPROMClass) : EEPROMClass :=
  mkEEPROM (_sector e) (map (_sector e) (seq 0 size)).

Definition read (addr : nat) (e : EEPROMClass) : byte :=
  if (addr <? length (_data e))%nat then nth addr (_data e) x00 else x00.

Definition write (addr : nat) (v : byte) (e : EEPROMClass) : EEPROMClass :=
  if (addr <? length (_data e))%nat
  then mkEEPROM (_sector e) (splice addr [v] (_data e))
  else e.

(** [put] and [get] move [sizeof(T)] raw bytes. *)
Definition put_bytes (addr : nat) (bs : list byte) (e : EEPROMClass)
  : EEPROMClass :=
  if (addr + length bs <=? length (_data e))%nat
  then mkEEPROM (_sector e) (splice addr bs (_data e))
  else e.

Definition get_bytes (addr size : nat) (e : EEPROMClass)
  : option (list byte) :=
  if (addr + size <=? length (_data e))%nat
  then Some (firstn size (skipn addr (_data e)))
  else None.

Definition commit (e : EEPROMClass) : EEPROMClass :=
  mkEEPROM (overlay (_data e) (_sector e)) (_data e).

Definition end_ (e : EEPROMClass) : EEPROMClass :=
  mkEEPROM (overlay (_data e) (_sector e)) [].

End EEPROM.

(** A structure that [EEPROM.put] / [EEPROM.get] can move: its size and its
    byte image.  [struct_ok] says that the arrays have their declared
    lengths and the integers fit their type. *)
Class Storable (T : Type) := {
  sizeof    : nat;
  to_bytes  : T -> list byte;
  of_bytes  : list byte -> T;
  struct_ok : T -> Prop
}.

Definition EEPROM_put {T} `{Storable T} (addr : nat) (t : T)
  (e : EEPROMClass) : EEPROMClass :=
  EEPROM.put_bytes addr (to_bytes t) e.

Definition EEPROM_get {T} `{Storable T} (addr : nat) (t : T)
  (e : EEPROMClass) : T :=
  match EEPROM.get_bytes addr sizeof e with
  | Some bs => of_bytes bs
  | None => t
  end.

(** The structure round-trips through its byte image and fits the EEPROM
    behind the marker byte. *)
Class StorableOk (T : Type) `{Storable T} : Prop := {
  length_to_bytes : forall t, struct_ok t -> length (to_bytes t) = sizeof;
  of_to_bytes     : forall t, struct_ok t -> of_bytes (to_bytes t) = t;
  fits_eeprom     : (1 + sizeof <= 512)%nat
}.

(** ** Loading and saving the configuration

    The three constants and the two functions are the same in every sketch
    (the EEPROM_IS_CONFIGURED_TOKEN, PS_IS_CONFIGURED_TOKEN and STORAGE_TEST
    families of macros); only the structure type differs. *)

Definition EEPROM_IS_CONFIGURED_TOKEN_STORAGE_ADDRESS : nat := 0.
Definition EEPROM_IS_CONFIGURED_TOKEN_VALUE : byte := xae.
Definition MQTT_CONFIG_STORAGE_ADDRESS : nat := 1.
Definition EEPROM_SIZE : nat := 512.

Section LoadSave.
Context {T : Type} `{Storable T}.

(** [boolean loadConfig(MQTT_CONFIG &config)]: the result is the return
    value, the configuration as the call leaves it, and the EEPROM. *)
Definition loadConfig (config : T) (e : EEPROMClass)
  : bool * T * EEPROMClass :=
  let retval := false in
  let e := EEPROM.begin EEPROM_SIZE e in
  let '(retval, config) :=
    if Byte.eqb (EEPROM.read EEPROM_IS_CONFIGURED_TOKEN_STORAGE_ADDRESS e)
                EEPROM_IS_CONFIGURED_TOKEN_VALUE
    then (true, EEPROM_get MQTT_CONFIG_STORAGE_ADDRESS config e)
    else (retval, config) in
  let e := EEPROM.end_ e in
  (retval, config, e).

(** [void loadConfig(MQTT_CONFIG &config)] of the single-interval
    sketches: the same body without a return value. *)
Definition loadConfig_void (config : T) (e : EEPROMClass)
  : T * EEPROMClass :=
  let e := EEPROM.begin EEPROM_SIZE e in
  let config :=
    if Byte.eqb (EEPROM.read 0 e) EEPROM_IS_CONFIGURED_TOKEN_VALUE
    then EEPROM_get MQTT_CONFIG_STORAGE_ADDRESS config e
    else config in
  let e := EEPROM.end_ e in
  (config, e).

(** [saveConfig] is straight-line code; its statements are kept as a list
    so that the EEPROM can be observed between them. *)
Inductive eeprom_stmt :=
| Sbegin (size : nat)
| Swrite (addr : nat) (v : byte)
| Sput (addr : nat) (t : T)
| Scommit
| Send.

Definition exec (e : EEPROMClass) (s : eeprom_stmt) : EEPROMClass :=
  match s with
  | Sbegin size => EEPROM.begin size e
  | Swrite addr v => EEPROM.write addr v e
  | Sput addr t => EEPROM_put addr t e
  | Scommit => EEPROM.commit e
  | Send => EEPROM.end_ e
  end.

Definition saveConfig_body (config : T) : list eeprom_stmt :=
  [ Sbegin EEPROM_SIZE;
    Swrite EEPROM_IS_CONFIGURED_TOKEN_STORAGE_ADDRESS
           EEPROM_IS_CONFIGURED_TOKEN_VALUE;
    Sput MQTT_CONFIG_STORAGE_ADDRESS config;
    Scommit;
    Send ].

Definition saveConfig (config : T) (e : EEPROMClass) : EEPROMClass :=
  fold_left exec (saveConfig_body config) e.

(** The EEPROM after each statement of a body, in order. *)
Fixpoint trace (e : EEPROMClass) (body : list eeprom_stmt)
  : list EEPROMClass :=
  match body with
  | [] => []
  | s :: r => exec e s :: trace (exec e s) r
  end.

(** What a reader of the flash would see: is the marker set, and is the
    body of [config] there? *)
Definition marker_set (sector : nat -> byte) : bool :=
  Byte.eqb (sector EEPROM_IS_CONFIGURED_TOKEN_STORAGE_ADDRESS)
           EEPROM_IS_CONFIGURED_TOKEN_VALUE.

Definition body_of (sector : nat -> byte) : list byte :=
  map sector (seq MQTT_CONFIG_STORAGE_ADDRESS sizeof).

Definition buffer_marker_set (e : EEPROMClass) : bool :=
  Byte.eqb (EEPROM.read EEPROM_IS_CONFIGURED_TOKEN_STORAGE_ADDRESS e)
           EEPROM_IS_CONFIGURED_TOKEN_VALUE.

Definition buffer_body (e : EEPROMClass) : list byte :=
  firstn sizeof (skipn MQTT_CONFIG_STORAGE_ADDRESS (_data e)).

(** The ordering the store contract asks for, on the buffer that the
    statements of [saveConfig] work on: at no point between two statements
    is the marker set while the body is not yet the one being saved. *)
Definition marker_only_above_written_body (config : T) (e : EEPROMClass)
  : Prop :=
  forall st, In st (trace e (saveConfig_body config)) ->
    buffer_marker_set st = true -> buffer_body st = to_bytes config.

(** The RAM buffer of [saveConfig] when it reaches [commit]. *)
Definition saved_image (config : T) (e : EEPROMClass) : list byte :=
  splice MQTT_CONFIG_STORAGE_ADDRESS (to_bytes config)
    (splice EEPROM_IS_CONFIGURED_TOKEN_STORAGE_ADDRESS
            [EEPROM_IS_CONFIGURED_TOKEN_VALUE]
            (_data (EEPROM.begin EEPROM_SIZE e))).

End LoadSave.

(** ** Integers and arrays as raw bytes *)

Definition bytes_of_int (z : Z) : list byte := le_split 4 z.
Definition int_of_bytes (bs : list byte) : Z := wrap_long (le_combine bs).

(** ** The JSON document

    [StaticJsonDocument] holds an object whose members keep their insertion
    order; every value the sketches store is an [int].  Reading a missing
    member as [int] gives 0; comparing a missing member with an [int] finds
    them different (ArduinoJson 6.15 and later).  The capacity limit of the
    static document is not modelled, and the message that [serializeJson]
    prints for [publish] is kept as the document itself. *)

Definition JsonDocument := list (string * Z).

Fixpoint json_get (doc : JsonDocument) (k : string) : option Z :=
  match doc with
  | [] => None
  | (k', v) :: r => if String.eqb k' k then Some v else json_get r k
  end.

(** [(int) doc[k]] *)
Definition json_as_int (doc : JsonDocument) (k : string) : Z :=
  match json_get doc k with Some v => v | None => 0 end.

(** [doc[k] != v] *)
Definition json_differs (doc : JsonDocument) (k : string) (v : Z) : bool :=
  match json_get doc k with Some x => negb (x =? v) | None => true end.

(** [doc[k] = v] *)
Fixpoint json_set (doc : JsonDocument) (k : string) (v : Z) : JsonDocument :=
  match doc with
  | [] => [(k, v)]
  | (k', x) :: r =>
      if String.eqb k' k then (k', v) :: r else (k', x) :: json_set r k v
  end.

Definition json_keys (doc : JsonDocument) : list string := map fst doc.

(** The property name held in a [char] array. *)
Definition key_of (a : list byte) : string := string_of_list_byte (cstr a).

Definition SENSOR_UNDEFINED_VALUE : Z := 999.

(** ** What one pass of [loop] sees of the outside world

    Sensor values are what the sketch obtains after its own conversion:
    [dallas i] is [getAddress(addr, i)] together with
    [(int) round(getTempC(addr))], [humidity] and [temperature] are
    [(int) round(AM2322.getHumidity())] and the like.  [mqtt_publish] is the
    value [mqttClient.publish] returns. *)

Record world := mkWorld {
  millis       : Z;
  dallas       : nat -> option (list byte * Z);
  am_connected : bool;
  am_read_ok   : bool;
  humidity     : Z;
  temperature  : Z;
  digitalRead  : Z -> Z;
  mqtt_publish : string -> JsonDocument -> bool
}.

(** A call of [mqttClient.publish]: topic, message and returned value. *)
Record publication (M : Type) := mkPublication {
  pub_topic   : string;
  pub_message : M;
  pub_result  : bool
}.
Arguments mkPublication {M} _ _ _.
Arguments pub_topic {M} _.
Arguments pub_message {M} _.
Arguments pub_result {M} _.

(** The polling state carried through the body of [loop]: the document,
    the [dirty] flag and the GPIO pins read so far. *)
Record polling := mkPolling {
  doc   : JsonDocument;
  dirty : bool;
  reads : list Z
}.

(** [if ((int) jsonBuffer[k] != v) { jsonBuffer[k] = v; dirty = true; }] *)
Definition update_int (k : string) (v : Z) (p : polling) : polling :=
  if negb (json_as_int (doc p) k =? v)
  then mkPolling (json_set (doc p) k v) true (reads p)
  else p.

(** [if (jsonBuffer[k] != digitalRead(pin))
       { jsonBuffer[k] = digitalRead(pin); dirty = true; }] *)
Definition update_switch (w : world) (k : string) (pin : Z) (p : polling)
  : polling :=
  if json_differs (doc p) k (digitalRead w pin)
  then mkPolling (json_set (doc p) k (digitalRead w pin)) true
                 (reads p ++ [pin; pin])
  else mkPolling (doc p) (dirty p) (reads p ++ [pin]).

(** The AM2322 block, the same in both two-timer sketches. *)
Definition poll_am2322 (w : world) (p : polling) : polling :=
  if am_connected w then
    if am_read_ok w then
      update_int "temperature" (temperature w)
        (update_int "humidity" (humidity w) p)
    else
      update_int "temperature" SENSOR_UNDEFINED_VALUE
        (update_int "humidity" SENSOR_UNDEFINED_VALUE p)
  else p.

(** Option sequencing for code that may run into undefined behaviour. *)
Notation "x <- c ;; k" :=
  (match c with Some x => k | None => None end)
  (at level 61, c at next level, right associativity).

(** [%02x] of one byte, and of a sequence of bytes. *)
Definition hex_digit (n : Z) : ascii :=
  if n <? 10 then ascii_of_nat (Z.to_nat (48 + n))
  else ascii_of_nat (Z.to_nat (87 + n)).

Definition hex2 (b : byte) : string :=
  String (hex_digit (byte.unsigned b / 16))
    (String (hex_digit (byte.unsigned b mod 16)) EmptyString).

Fixpoint hex_of (bs : list byte) : string :=
  match bs with
  | [] => EmptyString
  | b :: r => hex2 b ++ hex_of r
  end.

(* --------------------------------------------------------------------- *)
(** ** The four-switch sketch with compile-time intervals *)
(* --------------------------------------------------------------------- *)

Module MultiHTT.

Definition GPIO_SW0 : Z := 5.
Definition GPIO_SW1 : Z := 6.
Definition GPIO_SW2 : Z := 7.
Definition GPIO_SW3 : Z := 8.

Definition MQTT_PUBLISH_SOFT_INTERVAL : Z := 3000.
Definition MQTT_PUBLISH_HARD_INTERVAL : Z := 30000.

(** [sprintf(dallasAddressString, DALLAS_ADDRESS_FORMAT, ...)] *)
Definition dallas_name (addr : list byte) : string := "DST" ++ hex_of addr.

Record MQTT_CONFIG := mkConfig {
  servername      : list byte;   (* char[40] *)
  serverport      : Z;           (* int      *)
  username        : list byte;   (* char[20] *)
  password        : list byte;   (* char[20] *)
  topic           : list byte;   (* char[60] *)
  sw0propertyname : list byte;   (* char[20] *)
  sw1propertyname : list byte;   (* char[20] *)
  sw2propertyname : list byte;   (* char[20] *)
  sw3propertyname : list byte    (* char[20] *)
}.

Definition config_ok (c : MQTT_CONFIG) : Prop :=
  length (servername c) = 40%nat /\ in_long (serverport c) /\
  length (username c) = 20%nat /\ length (password c) = 20%nat /\
  length (topic c) = 60%nat /\
  length (sw0propertyname c) = 20%nat /\ length (sw1propertyname c) = 20%nat /\
  length (sw2propertyname c) = 20%nat /\ length (sw3propertyname c) = 20%nat.

Definition config_bytes (c : MQTT_CONFIG) : list byte :=
  servername c ++ bytes_of_int (serverport c) ++ username c ++ password c ++
  topic c ++ sw0propertyname c ++ sw1propertyname c ++ sw2propertyname c ++
  sw3propertyname c.

Definition config_of_bytes (bs : list byte) : MQTT_CONFIG :=
  let f (off len : nat) := firstn len (skipn off bs) in
  (mkConfig (f 0 40) (int_of_bytes (f 40 4)) (f 44 20) (f 64 20) (f 84 60)
            (f 144 20) (f 164 20) (f 184 20) (f 204 20))%nat.

#[global] Instance MQTT_CONFIG_storable : Storable MQTT_CONFIG := {
  sizeof := 224%nat;
  to_bytes := config_bytes;
  of_bytes := config_of_bytes;
  struct_ok := config_ok
}.

(** What the captive portal hands back: the result of [autoConnect],
    whether the save callback ran, and the value of each custom parameter. *)
Record portal := mkPortal {
  res                         : bool;
  shouldSaveConfig            : bool;
  custom_mqtt_servername      : list byte;
  custom_mqtt_serverport      : list byte;
  custom_mqtt_username        : list byte;
  custom_mqtt_password        : list byte;
  custom_mqtt_topic           : list byte;
  custom_mqtt_property_name_0 : list byte;
  custom_mqtt_property_name_1 : list byte;
  custom_mqtt_property_name_2 : list byte;
  custom_mqtt_property_name_3 : list byte
}.

(** Every submitted text fits the array it is copied to. *)
Definition portal_fits (p : portal) : Prop :=
  fits 40 (custom_mqtt_servername p) /\
  fits 20 (custom_mqtt_username p) /\ fits 20 (custom_mqtt_password p) /\
  fits 60 (custom_mqtt_topic p) /\
  fits 20 (custom_mqtt_property_name_0 p) /\
  fits 20 (custom_mqtt_property_name_1 p) /\
  fits 20 (custom_mqtt_property_name_2 p) /\
  fits 20 (custom_mqtt_property_name_3 p).

(** The part of [setup] that follows [autoConnect]: "If the configuration
    data has changed, then get it and save it". *)
Definition setup_save (p : portal) (mqttConfig : MQTT_CONFIG)
  (e : EEPROMClass) : option (MQTT_CONFIG * EEPROMClass) :=
  if shouldSaveConfig p then
    sn <- strcpy (servername mqttConfig) (custom_mqtt_servername p) ;;
    let sp := atoi (custom_mqtt_serverport p) in
    un <- strcpy (username mqttConfig) (custom_mqtt_username p) ;;
    pw <- strcpy (password mqttConfig) (custom_mqtt_password p) ;;
    tp <- strcpy (topic mqttConfig) (custom_mqtt_topic p) ;;
    p0 <- strcpy (sw0propertyname mqttConfig) (custom_mqtt_property_name_0 p) ;;
    p1 <- strcpy (sw1propertyname mqttConfig) (custom_mqtt_property_name_1 p) ;;
    p2 <- strcpy (sw2propertyname mqttConfig) (custom_mqtt_property_name_2 p) ;;
    p3 <- strcpy (sw3propertyname mqttConfig) (custom_mqtt_property_name_3 p) ;;
    let mqttConfig := mkConfig sn sp un pw tp p0 p1 p2 p3 in
    Some (mqttConfig, saveConfig mqttConfig e)
  else Some (mqttConfig, e).

(** The globals and function statics that [loop] reads and writes. *)
Record sketch := mkSketch {
  mqttConfig              : MQTT_CONFIG;
  dallasDeviceCount       : nat;
  jsonBuffer              : JsonDocument;
  mqttPublishSoftDeadline : Z;
  mqttPublishHardDeadline : Z
}.

(** What one pass of [loop] did. *)
Record pass := mkPass {
  after     : sketch;
  polled    : list Z;                 (* GPIO pins read, in order *)
  published : option (publication JsonDocument)
}.

(** One iteration of the DS18B20 [for] loop. *)
Definition poll_dallas_device (w : world) (p : polling) (i : nat) : polling :=
  match dallas w i with
  | Some (addr, t) => update_int (dallas_name addr) t p
  | None => p
  end.

Definition poll_dallas (w : world) (count : nat) (p : polling) : polling :=
  if (0 <? count)%nat
  then fold_left (poll_dallas_device w) (seq 0 count) p
  else p.

(** [if (strlen(name)) { ... }] around one switch. *)
Definition poll_switch (w : world) (name : list byte) (pin : Z) (p : polling)
  : polling :=
  if (0 <? strlen name)%nat then update_switch w (key_of name) pin p else p.

Definition poll_all (w : world) (s : sketch) : polling :=
  let c := mqttConfig s in
  let p := mkPolling (jsonBuffer s) false [] in
  let p := poll_dallas w (dallasDeviceCount s) p in
  let p := poll_am2322 w p in
  let p := poll_switch w (sw0propertyname c) GPIO_SW0 p in
  let p := poll_switch w (sw1propertyname c) GPIO_SW1 p in
  let p := poll_switch w (sw2propertyname c) GPIO_SW2 p in
  let p := poll_switch w (sw3propertyname c) GPIO_SW3 p in
  p.

(** [void loop()], after the connection to the broker has been made. *)
Definition loop (w : world) (s : sketch) : pass :=
  let now := millis w in
  if now >? mqttPublishSoftDeadline s then
    let p := poll_all w s in
    let topic_ := key_of (topic (mqttConfig s)) in
    if dirty p || (now >? mqttPublishHardDeadline s) then
      mkPass
        (mkSketch (mqttConfig s) (dallasDeviceCount s) (doc p)
                  (long_add now MQTT_PUBLISH_SOFT_INTERVAL)
                  (long_add now MQTT_PUBLISH_HARD_INTERVAL))
        (reads p)
        (Some (mkPublication topic_ (doc p) (mqtt_publish w topic_ (doc p))))
    else
      mkPass
        (mkSketch (mqttConfig s) (dallasDeviceCount s) (doc p)
                  (long_add now MQTT_PUBLISH_SOFT_INTERVAL)
                  (mqttPublishHardDeadline s))
        (reads p)
        None
  else mkPass s [] None.

(** The sketch as [setup] leaves it. *)
Definition boot (c : MQTT_CONFIG) (count : nat) : sketch :=
  mkSketch c count [] 0 0.

(** A run: the passes of [loop] over successive views of the world. *)
Fixpoint run (ws : list world) (s : sketch) : list pass :=
  match ws with
  | [] => []
  | w :: r => loop w s :: run r (after (loop w s))
  end.

End MultiHTT.

(* --------------------------------------------------------------------- *)
(** ** The two-switch sketch with configured intervals *)
(* --------------------------------------------------------------------- *)

Module Multi001.

Definition GPIO_SW0 : Z := 14.
Definition GPIO_SW1 : Z := 12.

Definition CF_DEFAULT_MQTT_PUBLISH_SOFT_INTERVAL : Z := 3000.
Definition CF_DEFAULT_MQTT_PUBLISH_HARD_INTERVAL : Z := 30000.

Record USER_CONFIGURATION := mkConfig {
  servername              : list byte;   (* char[40] *)
  serverport              : Z;           (* int      *)
  username                : list byte;   (* char[20] *)
  password                : list byte;   (* char[20] *)
  topic                   : list byte;   (* char[60] *)
  softpublicationinterval : Z;           (* int      *)
  hardpublicationinterval : Z;           (* int      *)
  sw0propertyname         : list byte;   (* char[20] *)
  sw1propertyname         : list byte    (* char[20] *)
}.

Definition config_ok (c : USER_CONFIGURATION) : Prop :=
  length (servername c) = 40%nat /\ in_long (serverport c) /\
  length (username c) = 20%nat /\ length (password c) = 20%nat /\
  length (topic c) = 60%nat /\
  in_long (softpublicationinterval c) /\
  in_long (hardpublicationinterval c) /\
  length (sw0propertyname c) = 20%nat /\ length (sw1propertyname c) = 20%nat.

Definition config_bytes (c : USER_CONFIGURATION) : list byte :=
  servername c ++ bytes_of_int (serverport c) ++ username c ++ password c ++
  topic c ++ bytes_of_int (softpublicationinterval c) ++
  bytes_of_int (hardpublicationinterval c) ++
  sw0propertyname c ++ sw1propertyname c.

Definition config_of_bytes (bs : list byte) : USER_CONFIGURATION :=
  let f (off len : nat) := firstn len (skipn off bs) in
  (mkConfig (f 0 40) (int_of_bytes (f 40 4)) (f 44 20) (f 64 20) (f 84 60)
            (int_of_bytes (f 144 4)) (int_of_bytes (f 148 4))
            (f 152 20) (f 172 20))%nat.

#[global] Instance USER_CONFIGURATION_storable : Storable USER_CONFIGURATION := {
  sizeof := 192%nat;
  to_bytes := config_bytes;
  of_bytes := config_of_bytes;
  struct_ok := config_ok
}.

Record portal := mkPortal {
  res                      : bool;
  shouldSaveConfig         : bool;
  custom_mqtt_servername   : list byte;
  custom_mqtt_serverport   : list byte;
  custom_mqtt_username     : list byte;
  custom_mqtt_password     : list byte;
  custom_mqtt_topic        : list byte;
  custom_mqtt_softinterval : list byte;
  custom_mqtt_hardinterval : list byte;
  custom_mqtt_sw0_alias    : list byte;
  custom_mqtt_sw1_alias    : list byte
}.

Definition portal_fits (p : portal) : Prop :=
  fits 40 (custom_mqtt_servername p) /\
  fits 20 (custom_mqtt_username p) /\ fits 20 (custom_mqtt_password p) /\
  fits 60 (custom_mqtt_topic p) /\
  fits 20 (custom_mqtt_sw0_alias p) /\ fits 20 (custom_mqtt_sw1_alias p).

(** The [if (shouldSaveConfig) { ... }] block of [setup]. *)
Definition setup_save (p : portal) (mqttConfig : USER_CONFIGURATION)
  (e : EEPROMClass) : option (USER_CONFIGURATION * EEPROMClass) :=
  if shouldSaveConfig p then
    sn <- strcpy (servername mqttConfig) (custom_mqtt_servername p) ;;
    let sp := atoi (custom_mqtt_serverport p) in
    un <- strcpy (username mqttConfig) (custom_mqtt_username p) ;;
    pw <- strcpy (password mqttConfig) (custom_mqtt_password p) ;;
    tp <- strcpy (topic mqttConfig) (custom_mqtt_topic p) ;;
    let si := atoi (custom_mqtt_softinterval p) in
    let hi := atoi (custom_mqtt_hardinterval p) in
    a0 <- strcpy (sw0propertyname mqttConfig) (custom_mqtt_sw0_alias p) ;;
    a1 <- strcpy (sw1propertyname mqttConfig) (custom_mqtt_sw1_alias p) ;;
    let mqttConfig := mkConfig sn sp un pw tp si hi a0 a1 in
    Some (mqttConfig, saveConfig mqttConfig e)
  else Some (mqttConfig, e).

Record sketch := mkSketch {
  mqttConfig              : USER_CONFIGURATION;
  jsonBuffer              : JsonDocument;
  mqttPublishSoftDeadline : Z;
  mqttPublishHardDeadline : Z
}.

Record pass := mkPass {
  after     : sketch;
  polled    : list Z;
  published : option (publication JsonDocument)
}.

(** The DS18B20 block is commented out in this sketch; both switches are
    read without a test on their property names. *)
Definition poll_all (w : world) (s : sketch) : polling :=
  let c := mqttConfig s in
  let p := mkPolling (jsonBuffer s) false [] in
  let p := poll_am2322 w p in
  let p := update_switch w (key_of (sw0propertyname c)) GPIO_SW0 p in
  let p := update_switch w (key_of (sw1propertyname c)) GPIO_SW1 p in
  p.

(** [void loop()]: the hard deadline is advanced by the soft interval of the
    configuration and the soft deadline by the hard interval, as written in
    the source. *)
Definition loop (w : world) (s : sketch) : pass :=
  let now := millis w in
  let c := mqttConfig s in
  if now >? mqttPublishSoftDeadline s then
    let p := poll_all w s in
    let topic_ := key_of (topic c) in
    if dirty p || (now >? mqttPublishHardDeadline s) then
      mkPass
        (mkSketch c (doc p)
                  (long_add now (hardpublicationinterval c))
                  (long_add now (softpublicationinterval c)))
        (reads p)
        (Some (mkPublication topic_ (doc p) (mqtt_publish w topic_ (doc p))))
    else
      mkPass
        (mkSketch c (doc p)
                  (long_add now (hardpublicationinterval c))
                  (mqttPublishHardDeadline s))
        (reads p)
        None
  else mkPass s [] None.

Definition boot (c : USER_CONFIGURATION) : sketch := mkSketch c [] 0 0.

End Multi001.

(* --------------------------------------------------------------------- *)
(** ** The single-interval sketches with a motion input

    These sketches print the message with [sprintf]; the message is kept as
    the tuple of printed values.  A DS18B20 temperature is the raw reading
    in 1/128 degree Celsius, which fixes the [float] that
    [getTempCByIndex] returns. *)
(* --------------------------------------------------------------------- *)

Record analog_world (M : Type) := mkAnalogWorld {
  a_millis      : Z;
  a_tempC       : Z;                (* getTempCByIndex(0), raw *)
  a_digitalRead : Z -> Z;
  a_analogRead  : Z;                (* analogRead(A0), 0..1023 *)
  a_publish     : string -> M -> bool
}.
Arguments a_millis {M} _.
Arguments a_tempC {M} _.
Arguments a_digitalRead {M} _ _.
Arguments a_analogRead {M} _.
Arguments a_publish {M} _ _ _.

Module MotionNode.

Definition GPIO_PIR_SENSOR : Z := 14.
Definition MQTT_PUBLISH_INTERVAL : Z := 30000.

(** The values printed into MQTT_STATUS_MESSAGE. *)
Record message := mkMessage {
  msg_temperature : Z;
  msg_motion      : Z;
  msg_lux         : Z
}.

Record sketch := mkSketch {
  mqttStatusTopic      : string;
  MOTION_DETECTED      : bool;
  DETECTED_TEMPERATURE : Z;
  DETECTED_MOTION      : Z;
  DETECTED_LUX         : Z;
  mqttPublishDeadline  : Z
}.

(** The interrupt service routine attached to the PIR pin; it is taken
    between two passes of [loop]. *)
Definition motionDetectionHandler (s : sketch) : sketch :=
  mkSketch (mqttStatusTopic s) true (DETECTED_TEMPERATURE s)
           (DETECTED_MOTION s) (DETECTED_LUX s) (mqttPublishDeadline s).

Record pass := mkPass {
  after     : sketch;
  polled    : list Z;
  published : option (publication message)
}.

Definition loop (w : analog_world message) (s : sketch) : pass :=
  let now := a_millis w in
  if MOTION_DETECTED s || (now >? mqttPublishDeadline s) then
    let t := a_tempC w in
    let m := a_digitalRead w GPIO_PIR_SENSOR in
    let l := a_analogRead w in
    let msg := mkMessage t m l in
    mkPass
      (mkSketch (mqttStatusTopic s) false t m l
                (long_add now MQTT_PUBLISH_INTERVAL))
      [GPIO_PIR_SENSOR]
      (Some (mkPublication (mqttStatusTopic s) msg
                           (a_publish w (mqttStatusTopic s) msg)))
  else mkPass s [] None.

End MotionNode.

Module LuxNode.

Definition GPIO_PIR_SENSOR : Z := 16.
Definition GPIO_SW0 : Z := 14.
Definition GPIO_SW1 : Z := 12.
Definition GPIO_SW2 : Z := 13.
Definition GPIO_SW3 : Z := 15.
Definition MQTT_PUBLISH_INTERVAL : Z := 30000.

Record message := mkMessage {
  msg_temperature : Z;
  msg_motion      : Z;
  msg_lux         : Z;
  msg_sw0         : Z;
  msg_sw1         : Z;
  msg_sw2         : Z;
  msg_sw3         : Z
}.

Record sketch := mkSketch {
  topic                : string;     (* mqttConfig.topic *)
  DETECTED_TEMPERATURE : Z;
  DETECTED_MOTION      : Z;
  DETECTED_LUX         : Z;
  DETECTED_SW0_STATE   : Z;
  DETECTED_SW1_STATE   : Z;
  DETECTED_SW2_STATE   : Z;
  DETECTED_SW3_STATE   : Z;
  mqttPublishDeadline  : Z
}.

Record pass := mkPass {
  after     : sketch;
  polled    : list Z;
  published : option (publication message)
}.

(** [(analogRead(A0) * LUX_FACTOR)] stored in an [int], LUX_FACTOR = 2.7,
    then clamped to 1023. *)
Definition scaled_lux (raw : Z) : Z :=
  let l := Z.quot (raw * 27) 10 in
  if l >? 1023 then 1023 else l.

Definition loop (w : analog_world message) (s : sketch) : pass :=
  let now := a_millis w in
  if negb (DETECTED_MOTION s =? 0) || (now >? mqttPublishDeadline s) then
    let t := a_tempC w in
    let m := a_digitalRead w GPIO_PIR_SENSOR in
    let s0 := a_digitalRead w GPIO_SW0 in
    let s1 := a_digitalRead w GPIO_SW1 in
    let s2 := a_digitalRead w GPIO_SW2 in
    let s3 := a_digitalRead w GPIO_SW3 in
    let l := scaled_lux (a_analogRead w) in
    let msg := mkMessage t m l s0 s1 s2 s3 in
    mkPass
      (mkSketch (topic s) t m l s0 s1 s2 s3
                (long_add now MQTT_PUBLISH_INTERVAL))
      [GPIO_PIR_SENSOR; GPIO_SW0; GPIO_SW1; GPIO_SW2; GPIO_SW3]
      (Some (mkPublication (topic s) msg (a_publish w (topic s) msg)))
  else mkPass s [] None.

End LuxNode.

(* --------------------------------------------------------------------- *)
(** ** Sample values used by the examples *)
(* --------------------------------------------------------------------- *)

(** An erased flash sector. *)
Definition blank_flash : EEPROMClass := mkEEPROM (fun _ => xff) [].

(** A [char] array of [n] bytes holding the text [s], NUL padded. *)
Definition char_array (n : nat) (s : string) : list byte :=
  firstn n (list_byte_of_string s ++ repeat NUL n).

Definition sample_config : MultiHTT.MQTT_CONFIG :=
  MultiHTT.mkConfig
    (char_array 40 "broker.lan") 1883 (char_array 20 "node")
    (char_array 20 "secret") (char_array 60 "home/attic/status")
    (char_array 20 "door") (char_array 20 "") (char_array 20 "window")
    (char_array 20 "").

(** The zero-initialised global [mqttConfig] before anything is loaded. *)
Definition zero_config : MultiHTT.MQTT_CONFIG :=
  MultiHTT.mkConfig
    (char_array 40 "") 0 (char_array 20 "") (char_array 20 "")
    (char_array 60 "") (char_array 20 "") (char_array 20 "")
    (char_array 20 "") (char_array 20 "").

(** A portal submission that leaves the broker host empty. *)
Definition empty_host_submission : MultiHTT.portal :=
  MultiHTT.mkPortal true true
    (list_byte_of_string "") (list_byte_of_string "1883")
    (list_byte_of_string "node") (list_byte_of_string "secret")
    (list_byte_of_string "home/attic/status")
    (list_byte_of_string "door") (list_byte_of_string "")
    (list_byte_of_string "") (list_byte_of_string "").

Definition zero_user_configuration : Multi001.USER_CONFIGURATION :=
  Multi001.mkConfig
    (char_array 40 "") 0 (char_array 20 "") (char_array 20 "")
    (char_array 60 "") 0 0 (char_array 20 "") (char_array 20 "").

Definition empty_host_submission_001 : Multi001.portal :=
  Multi001.mkPortal true true
    (list_byte_of_string "") (list_byte_of_string "1886")
    (list_byte_of_string "node") (list_byte_of_string "secret")
    (list_byte_of_string "multisensor/attic")
    (list_byte_of_string "3000") (list_byte_of_string "30000")
    (list_byte_of_string "sw0") (list_byte_of_string "sw1").

(** The default configuration of the sketch with configured intervals:
    soft interval 3000 ms, hard interval 30000 ms. *)
Definition sample_user_configuration : Multi001.USER_CONFIGURATION :=
  Multi001.mkConfig
    (char_array 40 "broker.lan") 1886 (char_array 20 "node")
    (char_array 20 "secret") (char_array 60 "multisensor/attic")
    Multi001.CF_DEFAULT_MQTT_PUBLISH_SOFT_INTERVAL
    Multi001.CF_DEFAULT_MQTT_PUBLISH_HARD_INTERVAL
    (char_array 20 "sw0") (char_array 20 "sw1").

(** A world whose sensors never change: AM2322 connected and readable at
    40 percent and 21 degrees, no DS18B20, every switch input high, the
    broker accepting every message. *)
Definition steady (t : Z) : world :=
  mkWorld t (fun _ => None) true true 40 21 (fun _ => 1) (fun _ _ => true).


(** The same view of the world at another time. *)
Definition at_time (t : Z) (w : world) : world :=
  mkWorld t (dallas w) (am_connected w) (am_read_ok w) (humidity w)
          (temperature w) (digitalRead w) (mqtt_publish w).

(** The steady world with another humidity and a broker that refuses. *)
Definition refused (h : Z) (t : Z) : world :=
  mkWorld t (fun _ => None) true true h 21 (fun _ => 1) (fun _ _ => false).

(** The clock readings of the passes of a run of the four-switch sketch
    that publish.  The reading is [now], which [loop] takes at its start,
    before [connect_to_mqtt] and before the sensors are polled: the call of
    [publish] comes later by however long the pass blocks there. *)
Fixpoint publish_times (ws : list world) (s : MultiHTT.sketch) : list Z :=
  match ws with
  | [] => []
  | w :: r =>
      let p := MultiHTT.loop w s in
      match MultiHTT.published p with
      | Some _ => millis w :: publish_times r (MultiHTT.after p)
      | None => publish_times r (MultiHTT.after p)
      end
  end.

(** [n] passes of [loop], one per millisecond from [from] on, over the
    steady world. *)
Fixpoint steady_from (from : Z) (n : nat) : list world :=
  match n with
  | O => []
  | S k => steady from :: steady_from (from + 1) k
  end.

Definition every_millisecond (from n : Z) : list world :=
  steady_from from (Z.to_nat n).

(** The switch channels of the four-switch sketch: property name and pin. *)
Definition switches (c : MultiHTT.MQTT_CONFIG) : list (list byte * Z) :=
  [ (MultiHTT.sw0propertyname c, MultiHTT.GPIO_SW0);
    (MultiHTT.sw1propertyname c, MultiHTT.GPIO_SW1);
    (MultiHTT.sw2propertyname c, MultiHTT.GPIO_SW2);
    (MultiHTT.sw3propertyname c, MultiHTT.GPIO_SW3) ].

(** No switch property name is the key [k]. *)
Definition no_alias_is (c : MultiHTT.MQTT_CONFIG) (k : string) : Prop :=
  forall name pin, In (name, pin) (switches c) -> key_of name <> k.

(** A user configuration whose first switch has no property name. *)
Definition unnamed_switch_configuration : Multi001.USER_CONFIGURATION :=
  Multi001.mkConfig
    (char_array 40 "broker.lan") 1886 (char_array 20 "node")
    (char_array 20 "secret") (char_array 60 "multisensor/attic")
    3000 30000 (char_array 20 "") (char_array 20 "sw1").

(** The AM2322 has dropped off the bus. *)
Definition disconnected (t : Z) : world :=
  mkWorld t (fun _ => None) false false 0 0 (fun _ => 1) (fun _ _ => true).

(** The AM2322 answers on the bus but its read fails. *)
Definition unreadable (t : Z) : world :=
  mkWorld t (fun _ => None) true false 0 0 (fun _ => 1) (fun _ _ => true).

Definition sample_analog_world {M : Type} (t : Z) : analog_world M :=
  mkAnalogWorld M t 2688 (fun _ => 1) 512 (fun _ _ => true).


Definition moving_lux_node : LuxNode.sketch :=
  LuxNode.mkSketch "attic/status" 2688 1 512 1 1 1 1 30000.

(** A flash whose marker is set above a body nobody wrote. *)
Definition garbage_flash : EEPROMClass :=
  mkEEPROM (fun i => if (i =? 0)%nat then xae else x55) [].

(* --------------------------------------------------------------------- *)
(** ** [setup] of the four-switch sketch *)
(* --------------------------------------------------------------------- *)

Module MultiHTTBoot.
Import MultiHTT.

(** How [setup] ends: with [ESP.restart()], or ready for [loop] with the
    pins it has made inputs. *)
Inductive outcome :=
| Restart (e : EEPROMClass)
| Production (s : sketch) (inputs : list Z) (e : EEPROMClass).


(** [if (strlen(name)) { ...; pinMode(pin, INPUT_PULLUP); }] *)
Definition detect_switch (name : list byte) (pin : Z) (inputs : list Z)
  : list Z :=
  if (0 <? strlen name)%nat then inputs ++ [pin] else inputs.

(** [void setup()].  The global [mqttConfig] starts zeroed; [p] is what the
    WiFi manager reports and [deviceCount] what
    [temperatureSensors.getDeviceCount()] returns. *)
Definition setup (p : portal) (deviceCount : nat) (e : EEPROMClass)
  : option outcome :=
  let '(_, mqttConfig, e) := loadConfig zero_config e in
  saved <- setup_save p mqttConfig e ;;
  let '(mqttConfig, e) := saved in
  if negb (res p) then Some (Restart e)
  else
    let inputs := detect_switch (sw0propertyname mqttConfig) GPIO_SW0 [] in
    let inputs := detect_switch (sw1propertyname mqttConfig) GPIO_SW1 inputs in
    let inputs := detect_switch (sw2propertyname mqttConfig) GPIO_SW2 inputs in
    let inputs := detect_switch (sw3propertyname mqttConfig) GPIO_SW3 inputs in
    Some (Production (mkSketch mqttConfig deviceCount [] 0 0) inputs e).

End MultiHTTBoot.

(* --------------------------------------------------------------------- *)
(** ** [connect_to_mqtt]

    [while (!mqttClient.connected()) { if (mqttClient.connect(...)) ...
    else delay(5000); }].  The broker is the list of answers it will give to
    the successive calls of [connect]; the loop is still running when the
    list is used up without a connection. *)
(* --------------------------------------------------------------------- *)

Record connect_log := mkConnectLog {
  attempts : nat;       (* calls of mqttClient.connect *)
  delayed  : Z          (* milliseconds spent in delay() *)
}.

Definition MQTT_RETRY_DELAY : Z := 5000.

Fixpoint connect_to_mqtt (answers : list bool) (connected : bool)
  (log : connect_log) : option (connect_log * list bool) :=
  if connected then Some (log, answers)
  else
    match answers with
    | [] => None
    | true :: rest =>
        connect_to_mqtt rest true
          (mkConnectLog (S (attempts log)) (delayed log))
    | false :: rest =>
        connect_to_mqtt rest false
          (mkConnectLog (S (attempts log)) (delayed log + MQTT_RETRY_DELAY))
    end.

(* --------------------------------------------------------------------- *)
(** ** The first sketches: one interval, an interrupt that sets
    [DETECTED_MOTION] *)
(* --------------------------------------------------------------------- *)

Module Legacy.

Definition GPIO_PIR_SENSOR : Z := 14.
Definition MQTT_PUBLISH_INTERVAL : Z := 30000.

Record sketch := mkSketch {
  mqttStatusTopic      : string;
  DETECTED_TEMPERATURE : Z;
  DETECTED_MOTION      : Z;
  DETECTED_LUX         : Z;
  mqttDeadline         : Z
}.

(** [IRAM_ATTR void motionDetectionHandler() { DETECTED_MOTION = 1; }] *)
Definition motionDetectionHandler (s : sketch) : sketch :=
  mkSketch (mqttStatusTopic s) (DETECTED_TEMPERATURE s) 1 (DETECTED_LUX s)
           (mqttDeadline s).

Record pass := mkPass {
  after     : sketch;
  polled    : list Z;
  published : option (publication MotionNode.message)
}.

Definition loop (w : analog_world MotionNode.message) (s : sketch) : pass :=
  let now := a_millis w in
  if now >? mqttDeadline s then
    let t := a_tempC w in
    let m := a_digitalRead w GPIO_PIR_SENSOR in
    let l := a_analogRead w in
    let msg := MotionNode.mkMessage t m l in
    mkPass
      (mkSketch (mqttStatusTopic s) t 0 0 (long_add now MQTT_PUBLISH_INTERVAL))
      [GPIO_PIR_SENSOR]
      (Some (mkPublication (mqttStatusTopic s) msg
                           (a_publish w (mqttStatusTopic s) msg)))
  else mkPass s [] None.

End Legacy.

(* --------------------------------------------------------------------- *)
(** ** The Wemos sketch: defaults in [loadConfig], texts in [saveConfig] *)
(* --------------------------------------------------------------------- *)

Module Wemos.

Record MQTT_CONFIG := mkConfig {
  serverName : list byte;   (* char[40] *)
  serverPort : Z;           (* int      *)
  userName   : list byte;   (* char[20] *)
  password   : list byte    (* char[20] *)
}.

Definition config_ok (c : MQTT_CONFIG) : Prop :=
  length (serverName c) = 40%nat /\ in_long (serverPort c) /\
  length (userName c) = 20%nat /\ length (password c) = 20%nat.

Definition config_bytes (c : MQTT_CONFIG) : list byte :=
  serverName c ++ bytes_of_int (serverPort c) ++ userName c ++ password c.

Definition config_of_bytes (bs : list byte) : MQTT_CONFIG :=
  let f (off len : nat) := firstn len (skipn off bs) in
  (mkConfig (f 0 40) (int_of_bytes (f 40 4)) (f 44 20) (f 64 20))%nat.

#[global] Instance MQTT_CONFIG_storable : Storable MQTT_CONFIG := {
  sizeof := 84%nat;
  to_bytes := config_bytes;
  of_bytes := config_of_bytes;
  struct_ok := config_ok
}.

Definition MQTT_DEFAULT_SERVER_NAME : list byte :=
  list_byte_of_string "192.168.1.206".
Definition MQTT_DEFAULT_SERVER_PORT : Z := 1883.
Definition MQTT_DEFAULT_USERNAME : list byte :=
  list_byte_of_string "preeve9534".
Definition MQTT_DEFAULT_PASSWORD : list byte :=
  list_byte_of_string "samsam".

(** [void loadConfig(MQTT_CONFIG &config)]: the stored record when the
    marker is set, the compiled-in defaults otherwise. *)
Definition loadConfig (config : MQTT_CONFIG) (e : EEPROMClass)
  : option (MQTT_CONFIG * EEPROMClass) :=
  let e := EEPROM.begin EEPROM_SIZE e in
  if Byte.eqb (EEPROM.read 0 e) EEPROM_IS_CONFIGURED_TOKEN_VALUE
  then
    let config := EEPROM_get MQTT_CONFIG_STORAGE_ADDRESS config e in
    Some (config, EEPROM.end_ e)
  else
    sn <- strcpy (serverName config) MQTT_DEFAULT_SERVER_NAME ;;
    let sp := MQTT_DEFAULT_SERVER_PORT in
    un <- strcpy (userName config) MQTT_DEFAULT_USERNAME ;;
    pw <- strcpy (password config) MQTT_DEFAULT_PASSWORD ;;
    Some (mkConfig sn sp un pw, EEPROM.end_ e).

(** [void saveConfig(MQTT_CONFIG &config, const char *server,
    const char *port, const char *username, const char *password)] *)
Definition saveConfig (config : MQTT_CONFIG)
  (server port username password_ : list byte) (e : EEPROMClass)
  : option (MQTT_CONFIG * EEPROMClass) :=
  sn <- strcpy (serverName config) server ;;
  let sp := atoi port in
  un <- strcpy (userName config) username ;;
  pw <- strcpy (password config) password_ ;;
  let config := mkConfig sn sp un pw in
  Some (config, fold_left exec (saveConfig_body config) e).

End Wemos.


Definition quiet_portal (joined : bool) : MultiHTT.portal :=
  MultiHTT.mkPortal joined false [] [] [] [] [] [] [] [] [].

(* --------------------------------------------------------------------- *)
(** ** Vocabulary for runs of the two-timer scheduler *)
(* --------------------------------------------------------------------- *)

(** The clock value is a [long] and adding the hard interval to it does not
    overflow. *)
Definition no_overflow (w : world) : Prop :=
  LONG_MIN <= millis w /\
  millis w + MultiHTT.MQTT_PUBLISH_HARD_INTERVAL <= LONG_MAX.

(** Successive elements of [l] are more than [d] apart. *)
Fixpoint spaced (d : Z) (l : list Z) : Prop :=
  match l with
  | a :: r =>
      match r with
      | b :: _ => a + d < b /\ spaced d r
      | [] => True
      end
  | [] => True
  end.

(** Along a run that starts in [s] with the latest publish at [last]: every
    pass that gets past the soft gate without publishing comes at most one
    hard interval after the latest publish. *)
Fixpoint heartbeat_kept (ws : list world) (s : MultiHTT.sketch)
  (last : option Z) : Prop :=
  match ws with
  | [] => True
  | w :: r =>
      let p := MultiHTT.loop w s in
      match MultiHTT.published p with
      | Some _ => heartbeat_kept r (MultiHTT.after p) (Some (millis w))
      | None =>
          (millis w > MultiHTT.mqttPublishSoftDeadline s ->
           exists t, last = Some t /\
                     millis w <= t + MultiHTT.MQTT_PUBLISH_HARD_INTERVAL) /\
          heartbeat_kept r (MultiHTT.after p) last
      end
  end.

(** A short run with a change of humidity at 2000 ms. *)
Definition changing_run : list world :=
  [steady 1000; refused 55 2000; refused 55 4500; refused 55 9000].

(** ** The polling block as a list of member updates

    Each statement of the polling block of [loop] updates one member of the
    document, either with a converted sensor value or with the level of a
    pin.  [actions] lists the updates that the four-switch sketch makes on
    one pass, in the order of the source. *)

Inductive action :=
| SetInt (k : string) (v : Z)         (* the (int) comparison, then store *)
| SetLevel (k : string) (pin : Z).    (* the digitalRead comparison, then store *)

Definition action_key (a : action) : string :=
  match a with SetInt k _ => k | SetLevel k _ => k end.

Definition apply_action (w : world) (p : polling) (a : action) : polling :=
  match a with
  | SetInt k v => update_int k v p
  | SetLevel k pin => update_switch w k pin p
  end.

Definition dallas_action (w : world) (i : nat) : list action :=
  match dallas w i with
  | Some (addr, t) => [SetInt (MultiHTT.dallas_name addr) t]
  | None => []
  end.

Definition am2322_actions (w : world) : list action :=
  if am_connected w then
    if am_read_ok w then
      [SetInt "humidity" (humidity w); SetInt "temperature" (temperature w)]
    else
      [SetInt "humidity" SENSOR_UNDEFINED_VALUE;
       SetInt "temperature" SENSOR_UNDEFINED_VALUE]
  else [].

Definition switch_action (name : list byte) (pin : Z) : list action :=
  if (0 <? strlen name)%nat then [SetLevel (key_of name) pin] else [].

Definition actions (w : world) (s : MultiHTT.sketch) : list action :=
  let c := MultiHTT.mqttConfig s in
  flat_map (dallas_action w) (seq 0 (MultiHTT.dallasDeviceCount s)) ++
  am2322_actions w ++
  switch_action (MultiHTT.sw0propertyname c) MultiHTT.GPIO_SW0 ++
  switch_action (MultiHTT.sw1propertyname c) MultiHTT.GPIO_SW1 ++
  switch_action (MultiHTT.sw2propertyname c) MultiHTT.GPIO_SW2 ++
  switch_action (MultiHTT.sw3propertyname c) MultiHTT.GPIO_SW3.

(** The member that [a] addresses already holds what [a] would store. *)
Definition settled (w : world) (d : JsonDocument) (a : action) : Prop :=
  match a with
  | SetInt k v => json_as_int d k = v
  | SetLevel k pin => json_get d k = Some (digitalRead w pin)
  end.

(* --------------------------------------------------------------------- *)
(** ** Runs of the sketch with configured intervals *)
(* --------------------------------------------------------------------- *)



(* --------------------------------------------------------------------- *)
(** ** Reading back what [sprintf] printed *)
(* --------------------------------------------------------------------- *)

(** The value of a lower-case hexadecimal digit. *)
Definition unhex_digit (c : ascii) : Z :=
  let n := Z.of_nat (nat_of_ascii c) in
  if n <? 58 then n - 48 else n - 87.

Definition unhex2 (hi lo : ascii) : byte :=
  byte.of_Z (16 * unhex_digit hi + unhex_digit lo).

(** The port text holds no number: it is empty or starts with something
    that is neither white space, a sign nor a digit. *)
Definition no_number (s : list byte) : Prop :=
  match cstr s with
  | [] => True
  | c :: _ =>
      isspace c = false /\ c <> x2d /\ c <> x2b /\ digit_of c = None
  end.

Definition zero_wemos_config : Wemos.MQTT_CONFIG :=
  Wemos.mkConfig (char_array 40 "") 0 (char_array 20 "") (char_array 20 "").

(** A submission whose port field holds a word. *)
Definition wordy_port_submission : MultiHTT.portal :=
  MultiHTT.mkPortal true true
    (list_byte_of_string "broker.lan") (list_byte_of_string "mqtt")
    (list_byte_of_string "node") (list_byte_of_string "secret")
    (list_byte_of_string "home/attic/status")
    (list_byte_of_string "door") (list_byte_of_string "")
    (list_byte_of_string "window") (list_byte_of_string "").

(** A submission whose host fills all forty characters of the form field. *)
Definition long_host_submission : MultiHTT.portal :=
  MultiHTT.mkPortal true true
    (list_byte_of_string "broker-with-a-fully-qualified.example.io")
    (list_byte_of_string "1883")
    (list_byte_of_string "node") (list_byte_of_string "secret")
    (list_byte_of_string "home/attic/status")
    (list_byte_of_string "door") (list_byte_of_string "")
    (list_byte_of_string "window") (list_byte_of_string "").

Definition sample_probe : list byte := [x28; xff; x4b; x1c; x02; x17; x04; x9e].

(* ===================================================================== *)
(** * Part II: lemmas and theorems *)
(* ===================================================================== *)

(** ** Lists, buffers and flash *)

Lemma length_splice (addr : nat) (bs data : list byte) :
  (addr + length bs <= length data)%nat ->
  length (splice addr bs data) = length data.
Proof.
  intros Hle. unfold splice.
  rewrite !length_app, length_firstn, length_skipn. lia.
Qed.

Lemma splice_get (addr : nat) (bs data : list byte) :
  (addr + length bs <= length data)%nat ->
  firstn (length bs) (skipn addr (splice addr bs data)) = bs.
Proof.
  intros Hle. unfold splice.
  assert (Hlen : length (firstn addr data) = addr)
    by (rewrite length_firstn; lia).
  rewrite skipn_app, Hlen, Nat.sub_diag. simpl skipn at 2.
  rewrite skipn_all2 by lia. simpl.
  rewrite firstn_app, Nat.sub_diag, firstn_all. simpl.
  now rewrite app_nil_r.
Qed.

Lemma splice_head (v : byte) (bs data : list byte) (d : byte) :
  nth 0 (splice 1 bs (v :: data)) d = v.
Proof. reflexivity. Qed.

Lemma map_overlay (data : list byte) (sector : nat -> byte) :
  map (overlay data sector) (seq 0 (length data)) = data.
Proof.
  apply nth_error_ext. intros i.
  destruct (Nat.lt_ge_cases i (length data)) as [Hlt | Hge].
  - rewrite nth_error_map, nth_error_seq.
    destruct (Nat.ltb_spec i (length data)) as [_ | Hc]; [| lia].
    simpl. unfold overlay.
    destruct (nth_error data i) eqn:E; [reflexivity |].
    apply nth_error_None in E. lia.
  - transitivity (@None byte).
    + apply nth_error_None. rewrite length_map, length_seq. exact Hge.
    + symmetry. apply nth_error_None. exact Hge.
Qed.

Lemma overlay_map (sector : nat -> byte) (n i : nat) :
  overlay (map sector (seq 0 n)) sector i = sector i.
Proof.
  unfold overlay. rewrite nth_error_map, nth_error_seq.
  destruct (Nat.ltb_spec i n); reflexivity.
Qed.

Lemma length_begin (size : nat) (e : EEPROMClass) :
  length (_data (EEPROM.begin size e)) = size.
Proof. simpl. now rewrite length_map, length_seq. Qed.

Lemma read_begin (size addr : nat) (e : EEPROMClass) :
  (addr < size)%nat ->
  EEPROM.read addr (EEPROM.begin size e) = _sector e addr.
Proof.
  intros Hlt. unfold EEPROM.read. rewrite length_begin.
  destruct (Nat.ltb_spec addr size) as [_ | Hc]; [| lia].
  simpl. rewrite (nth_indep _ x00 (_sector e 0)).
  - now rewrite map_nth, seq_nth.
  - now rewrite length_map, length_seq.
Qed.

Lemma byte_eqb_false (a b : byte) : a <> b -> Byte.eqb a b = false.
Proof.
  intros Hne. destruct (Byte.eqb a b) eqn:E; [| reflexivity].
  apply Byte.byte_dec_bl in E. contradiction.
Qed.

Lemma byte_eqb_refl (a : byte) : Byte.eqb a a = true.
Proof. apply Byte.byte_dec_lb. reflexivity. Qed.

(** ** The configuration store *)

Section StoreFacts.
Context {T : Type} `{Storable T}.

Lemma sector_end_begin (size : nat) (e : EEPROMClass) (i : nat) :
  _sector (EEPROM.end_ (EEPROM.begin size e)) i = _sector e i.
Proof. simpl. apply overlay_map. Qed.

Lemma loadConfig_unset (config : T) (e : EEPROMClass) :
  _sector e EEPROM_IS_CONFIGURED_TOKEN_STORAGE_ADDRESS
    <> EEPROM_IS_CONFIGURED_TOKEN_VALUE ->
  loadConfig config e = (false, config, EEPROM.end_ (EEPROM.begin EEPROM_SIZE e)).
Proof.
  intros Hm. unfold loadConfig.
  rewrite read_begin by (unfold EEPROM_SIZE, EEPROM_IS_CONFIGURED_TOKEN_STORAGE_ADDRESS; lia).
  now rewrite byte_eqb_false.
Qed.

Lemma loadConfig_void_unset (config : T) (e : EEPROMClass) :
  _sector e 0%nat <> EEPROM_IS_CONFIGURED_TOKEN_VALUE ->
  loadConfig_void config e = (config, EEPROM.end_ (EEPROM.begin EEPROM_SIZE e)).
Proof.
  intros Hm. unfold loadConfig_void.
  rewrite read_begin by (unfold EEPROM_SIZE; lia).
  now rewrite byte_eqb_false.
Qed.

End StoreFacts.

(** C5.  When the byte at the marker address of the flash is not the token
    0xAE, [loadConfig] returns [false] and hands back the caller's record
    untouched, whatever the rest of the flash holds; the flash itself is not
    changed.  The [void] variant of the single-interval sketches likewise
    leaves the record untouched. *)
Theorem loadConfig_absent_when_marker_unset
  {T : Type} `{Storable T} (config : T) (e : EEPROMClass) :
  _sector e EEPROM_IS_CONFIGURED_TOKEN_STORAGE_ADDRESS
    <> EEPROM_IS_CONFIGURED_TOKEN_VALUE ->
  (exists e', loadConfig config e = (false, config, e') /\
              forall i, _sector e' i = _sector e i) /\
  (exists e', loadConfig_void config e = (config, e') /\
              forall i, _sector e' i = _sector e i).
Proof.
  intros Hm. split.
  - eexists. split; [apply loadConfig_unset; exact Hm |].
    intros i. apply sector_end_begin.
  - eexists. split; [apply loadConfig_void_unset; exact Hm |].
    intros i. apply sector_end_begin.
Qed.

(** ** Byte images of the configuration structures *)

Lemma wrap_long_id (z : Z) : in_long z -> wrap_long z = z.
Proof.
  unfold in_long, LONG_MIN, LONG_MAX, wrap_long. intros Hz.
  rewrite Z.mod_small; lia.
Qed.

Lemma wrap_long_mod (z : Z) : wrap_long (z mod 2 ^ 32) = wrap_long z.
Proof.
  unfold wrap_long.
  rewrite <- (Zplus_mod_idemp_l z). reflexivity.
Qed.

Lemma int_of_bytes_of_int (z : Z) : in_long z -> int_of_bytes (bytes_of_int z) = z.
Proof.
  intros Hz. unfold int_of_bytes, bytes_of_int.
  rewrite le_combine_split. change (Z.of_nat 4 * 8) with 32.
  rewrite wrap_long_mod. now apply wrap_long_id.
Qed.

Lemma length_bytes_of_int (z : Z) : length (bytes_of_int z) = 4%nat.
Proof. apply length_le_split. Qed.

Lemma skipn_plus_app (a r : list byte) (n m : nat) :
  length a = n -> skipn (n + m) (a ++ r) = skipn m r.
Proof.
  intros <-. rewrite skipn_app.
  rewrite skipn_all2 by lia. simpl. f_equal. lia.
Qed.

Lemma firstn_exact_app (a r : list byte) (n : nat) :
  length a = n -> firstn n (a ++ r) = a.
Proof.
  intros <-. rewrite firstn_app, Nat.sub_diag, firstn_all. simpl.
  apply app_nil_r.
Qed.

Lemma firstn_exact (a : list byte) (n : nat) : length a = n -> firstn n a = a.
Proof. intros <-. apply firstn_all. Qed.

Ltac field_len := first [ assumption | apply length_bytes_of_int ].

(** Peel the fields in front of the one looked at, then read it. *)
Ltac read_field :=
  repeat (rewrite skipn_plus_app by field_len);
  rewrite ?skipn_O;
  first [ rewrite firstn_exact_app by field_len
        | rewrite firstn_exact by field_len ];
  try reflexivity.

Module MultiHTTFacts.
Import MultiHTT.

Lemma length_config_bytes (c : MQTT_CONFIG) :
  config_ok c -> length (config_bytes c) = 224%nat.
Proof.
  intros (H1 & _ & H3 & H4 & H5 & H6 & H7 & H8 & H9).
  unfold config_bytes. rewrite !length_app, length_bytes_of_int. lia.
Qed.

Lemma config_of_bytes_bytes (c : MQTT_CONFIG) :
  config_ok c -> config_of_bytes (config_bytes c) = c.
Proof.
  destruct c as [sn sp un pw tp p0 p1 p2 p3].
  intros (H1 & H2 & H3 & H4 & H5 & H6 & H7 & H8 & H9). simpl in *.
  unfold config_of_bytes, config_bytes.
  cbn [servername serverport username password topic sw0propertyname
       sw1propertyname sw2propertyname sw3propertyname].
  f_equal.
  - rewrite skipn_O. now rewrite firstn_exact_app.
  - change 40%nat with (40 + 0)%nat. read_field.
    now apply int_of_bytes_of_int.
  - change 44%nat with (40 + (4 + 0))%nat. read_field.
  - change 64%nat with (40 + (4 + (20 + 0)))%nat. read_field.
  - change 84%nat with (40 + (4 + (20 + (20 + 0))))%nat. read_field.
  - change 144%nat with (40 + (4 + (20 + (20 + (60 + 0)))))%nat. read_field.
  - change 164%nat with (40 + (4 + (20 + (20 + (60 + (20 + 0))))))%nat.
    read_field.
  - change 184%nat with (40 + (4 + (20 + (20 + (60 + (20 + (20 + 0)))))))%nat.
    read_field.
  - change 204%nat
      with (40 + (4 + (20 + (20 + (60 + (20 + (20 + (20 + 0))))))))%nat.
    read_field.
Qed.

End MultiHTTFacts.

#[global] Instance MQTT_CONFIG_storable_ok : StorableOk MultiHTT.MQTT_CONFIG.
Proof.
  split.
  - exact MultiHTTFacts.length_config_bytes.
  - exact MultiHTTFacts.config_of_bytes_bytes.
  - simpl. lia.
Qed.

(** ** Saving, then loading *)

Section RoundTrip.
Context {T : Type} `{StorableOk T}.

Lemma length_marked (e : EEPROMClass) :
  length (splice 0 [EEPROM_IS_CONFIGURED_TOKEN_VALUE]
            (_data (EEPROM.begin EEPROM_SIZE e))) = EEPROM_SIZE.
Proof.
  rewrite length_splice; rewrite length_begin; unfold EEPROM_SIZE; simpl; lia.
Qed.

Lemma length_saved_image (config : T) (e : EEPROMClass) :
  struct_ok config -> length (saved_image config e) = EEPROM_SIZE.
Proof.
  intros Hok. unfold saved_image, EEPROM_IS_CONFIGURED_TOKEN_STORAGE_ADDRESS.
  pose proof fits_eeprom as Hfit.
  rewrite length_splice; rewrite length_marked;
    rewrite ?length_to_bytes by exact Hok;
    unfold MQTT_CONFIG_STORAGE_ADDRESS, EEPROM_SIZE; lia.
Qed.

Lemma saved_image_body (config : T) (e : EEPROMClass) :
  struct_ok config ->
  firstn sizeof (skipn MQTT_CONFIG_STORAGE_ADDRESS (saved_image config e))
  = to_bytes config.
Proof.
  intros Hok. unfold saved_image, EEPROM_IS_CONFIGURED_TOKEN_STORAGE_ADDRESS.
  pose proof fits_eeprom as Hfit.
  rewrite <- (length_to_bytes config Hok) at 1.
  apply splice_get. rewrite length_marked, length_to_bytes by exact Hok.
  unfold MQTT_CONFIG_STORAGE_ADDRESS, EEPROM_SIZE. lia.
Qed.

Lemma saved_image_marker (config : T) (e : EEPROMClass) :
  nth 0 (saved_image config e) x00 = EEPROM_IS_CONFIGURED_TOKEN_VALUE.
Proof.
  unfold saved_image, EEPROM_IS_CONFIGURED_TOKEN_STORAGE_ADDRESS,
    MQTT_CONFIG_STORAGE_ADDRESS.
  unfold splice at 2. rewrite firstn_O. cbn [app].
  apply splice_head.
Qed.

Lemma saveConfig_unfold (config : T) (e : EEPROMClass) :
  struct_ok config ->
  saveConfig config e =
  mkEEPROM (overlay (saved_image config e)
             (overlay (saved_image config e) (_sector e))) [].
Proof.
  intros Hok. pose proof fits_eeprom as Hfit.
  unfold saveConfig, saveConfig_body. cbn [fold_left exec].
  unfold EEPROM.write at 1. rewrite length_begin.
  destruct (Nat.ltb_spec EEPROM_IS_CONFIGURED_TOKEN_STORAGE_ADDRESS EEPROM_SIZE)
    as [_ | Hc];
    [| unfold EEPROM_IS_CONFIGURED_TOKEN_STORAGE_ADDRESS, EEPROM_SIZE in Hc; lia].
  unfold EEPROM_put, EEPROM.put_bytes. cbn [_data _sector].
  unfold EEPROM_IS_CONFIGURED_TOKEN_STORAGE_ADDRESS at 1.
  rewrite length_marked, length_to_bytes by exact Hok.
  destruct (Nat.leb_spec (MQTT_CONFIG_STORAGE_ADDRESS + sizeof) EEPROM_SIZE)
    as [_ | Hc];
    [| unfold MQTT_CONFIG_STORAGE_ADDRESS, EEPROM_SIZE in Hc; lia].
  reflexivity.
Qed.

Lemma begin_after_save (config : T) (e : EEPROMClass) :
  struct_ok config ->
  _data (EEPROM.begin EEPROM_SIZE (saveConfig config e)) = saved_image config e.
Proof.
  intros Hok. rewrite saveConfig_unfold by exact Hok.
  unfold EEPROM.begin. cbn [_data _sector].
  rewrite <- (length_saved_image config e Hok).
  apply map_overlay.
Qed.

Lemma loadConfig_after_save (config config0 : T) (e : EEPROMClass) :
  struct_ok config ->
  loadConfig config0 (saveConfig config e)
  = (true, config, EEPROM.end_ (EEPROM.begin EEPROM_SIZE (saveConfig config e))).
Proof.
  intros Hok. pose proof fits_eeprom as Hfit. unfold loadConfig.
  assert (Hread : EEPROM.read EEPROM_IS_CONFIGURED_TOKEN_STORAGE_ADDRESS
            (EEPROM.begin EEPROM_SIZE (saveConfig config e))
          = EEPROM_IS_CONFIGURED_TOKEN_VALUE).
  { unfold EEPROM.read. rewrite begin_after_save by exact Hok.
    rewrite length_saved_image by exact Hok.
    unfold EEPROM_IS_CONFIGURED_TOKEN_STORAGE_ADDRESS, EEPROM_SIZE.
    cbn [Nat.ltb Nat.leb]. apply saved_image_marker. }
  rewrite Hread, byte_eqb_refl.
  unfold EEPROM_get, EEPROM.get_bytes.
  rewrite begin_after_save by exact Hok.
  rewrite length_saved_image by exact Hok.
  destruct (Nat.leb_spec (MQTT_CONFIG_STORAGE_ADDRESS + sizeof) EEPROM_SIZE)
    as [_ | Hc];
    [| unfold MQTT_CONFIG_STORAGE_ADDRESS, EEPROM_SIZE in Hc; lia].
  rewrite saved_image_body by exact Hok.
  now rewrite of_to_bytes.
Qed.

End RoundTrip.

(** C4.  For every configuration record of the four-switch sketch whose
    arrays and integers have their declared C sizes, [saveConfig] followed
    by [loadConfig] on the same EEPROM returns [true] and fills the caller's
    record with exactly the record that was saved, whatever the EEPROM and
    the caller's record held before. *)
Theorem saveConfig_then_loadConfig
  (config config0 : MultiHTT.MQTT_CONFIG) (e : EEPROMClass) :
  MultiHTT.config_ok config ->
  exists e', loadConfig config0 (saveConfig config e) = (true, config, e').
Proof.
  intros Hok. eexists.
  apply (loadConfig_after_save config config0 e). exact Hok.
Qed.

Lemma saveConfig_then_loadConfig_witness :
  MultiHTT.config_ok sample_config /\
  exists e', loadConfig zero_config (saveConfig sample_config blank_flash)
             = (true, sample_config, e').
Proof.
  split.
  - unfold MultiHTT.config_ok, in_long, LONG_MIN, LONG_MAX. simpl.
    repeat split; lia.
  - apply (saveConfig_then_loadConfig sample_config zero_config blank_flash).
    unfold MultiHTT.config_ok, in_long, LONG_MIN, LONG_MAX. simpl.
    repeat split; lia.
Defined.

Lemma loadConfig_absent_when_marker_unset_witness :
  _sector blank_flash EEPROM_IS_CONFIGURED_TOKEN_STORAGE_ADDRESS
    <> EEPROM_IS_CONFIGURED_TOKEN_VALUE /\
  (exists e', loadConfig sample_config blank_flash = (false, sample_config, e') /\
              forall i, _sector e' i = _sector blank_flash i) /\
  (exists e', loadConfig_void sample_config blank_flash = (sample_config, e') /\
              forall i, _sector e' i = _sector blank_flash i).
Proof.
  split.
  - simpl. discriminate.
  - apply (loadConfig_absent_when_marker_unset sample_config blank_flash).
    simpl. discriminate.
Defined.

(** ** The order of the writes in [saveConfig] *)

Lemma firstn_seq (n start len : nat) :
  firstn n (seq start len) = seq start (Nat.min n len).
Proof.
  revert start len. induction n as [| n IH]; intros start [| len]; simpl;
    try reflexivity.
  now rewrite IH.
Qed.

Lemma body_of_overlay {T : Type} `{Storable T}
  (data : list byte) (sector : nat -> byte) :
  (MQTT_CONFIG_STORAGE_ADDRESS + sizeof <= length data)%nat ->
  body_of (overlay data sector)
  = firstn sizeof (skipn MQTT_CONFIG_STORAGE_ADDRESS data).
Proof.
  intros Hle. unfold body_of.
  rewrite <- (map_overlay data sector) at 2.
  rewrite skipn_map, firstn_map, skipn_seq, firstn_seq.
  f_equal. f_equal; lia.
Qed.

Lemma marker_set_overlay (data : list byte) (sector : nat -> byte) :
  (0 < length data)%nat ->
  marker_set (overlay data sector)
  = Byte.eqb (nth 0 data x00) EEPROM_IS_CONFIGURED_TOKEN_VALUE.
Proof.
  intros Hlen. unfold marker_set, overlay,
    EEPROM_IS_CONFIGURED_TOKEN_STORAGE_ADDRESS.
  destruct data as [| b r]; [simpl in Hlen; lia | reflexivity].
Qed.

Section SaveOrder.
Context {T : Type} `{StorableOk T}.

Lemma write_marker (e : EEPROMClass) :
  EEPROM.write EEPROM_IS_CONFIGURED_TOKEN_STORAGE_ADDRESS
    EEPROM_IS_CONFIGURED_TOKEN_VALUE (EEPROM.begin EEPROM_SIZE e)
  = mkEEPROM (_sector e)
      (splice 0 [EEPROM_IS_CONFIGURED_TOKEN_VALUE]
         (_data (EEPROM.begin EEPROM_SIZE e))).
Proof.
  unfold EEPROM.write. rewrite length_begin.
  destruct (Nat.ltb_spec EEPROM_IS_CONFIGURED_TOKEN_STORAGE_ADDRESS EEPROM_SIZE)
    as [_ | Hc];
    [| unfold EEPROM_IS_CONFIGURED_TOKEN_STORAGE_ADDRESS, EEPROM_SIZE in Hc; lia].
  reflexivity.
Qed.

Lemma put_body (config : T) (e : EEPROMClass) :
  struct_ok config ->
  EEPROM_put MQTT_CONFIG_STORAGE_ADDRESS config
    (mkEEPROM (_sector e)
       (splice 0 [EEPROM_IS_CONFIGURED_TOKEN_VALUE]
          (_data (EEPROM.begin EEPROM_SIZE e))))
  = mkEEPROM (_sector e) (saved_image config e).
Proof.
  intros Hok. pose proof fits_eeprom as Hfit.
  unfold EEPROM_put, EEPROM.put_bytes. cbn [_data _sector].
  rewrite length_marked, length_to_bytes by exact Hok.
  destruct (Nat.leb_spec (MQTT_CONFIG_STORAGE_ADDRESS + sizeof) EEPROM_SIZE)
    as [_ | Hc];
    [| unfold MQTT_CONFIG_STORAGE_ADDRESS, EEPROM_SIZE in Hc; lia].
  reflexivity.
Qed.

Lemma trace_saveConfig (config : T) (e : EEPROMClass) :
  struct_ok config ->
  trace e (saveConfig_body config) =
  let b := EEPROM.begin EEPROM_SIZE e in
  let m := splice 0 [EEPROM_IS_CONFIGURED_TOKEN_VALUE] (_data b) in
  let d := saved_image config e in
  [ b;
    mkEEPROM (_sector e) m;
    mkEEPROM (_sector e) d;
    mkEEPROM (overlay d (_sector e)) d;
    mkEEPROM (overlay d (overlay d (_sector e))) [] ].
Proof.
  intros Hok.
  unfold saveConfig_body. cbn [trace exec].
  rewrite write_marker, put_body by exact Hok.
  reflexivity.
Qed.

End SaveOrder.

(** C6 (as the code has it).  [saveConfig] writes the marker token first and
    the configuration body second, both into the RAM buffer of the EEPROM
    object, and then commits the buffer once; it never clears the marker.
    After the first write the buffer holds the set marker above whatever
    body the flash had; the flash itself stays as it was until the commit
    and from the commit on holds the marker together with the complete new
    body. *)
Theorem saveConfig_marker_then_body_then_commit
  {T : Type} `{StorableOk T} (config : T) (e : EEPROMClass) :
  struct_ok config ->
  exists s_begin s_marker s_body s_commit s_end,
    trace e (saveConfig_body config)
      = [s_begin; s_marker; s_body; s_commit; s_end] /\
    saveConfig config e = s_end /\
    (* the marker goes into the buffer first, the body is still the old one *)
    buffer_marker_set s_marker = true /\
    buffer_body (T:=T) s_marker = body_of (T:=T) (_sector e) /\
    (* then the body *)
    buffer_marker_set s_body = true /\
    buffer_body (T:=T) s_body = to_bytes config /\
    (* the flash is untouched before the commit *)
    (forall i, _sector s_begin i = _sector e i) /\
    (forall i, _sector s_marker i = _sector e i) /\
    (forall i, _sector s_body i = _sector e i) /\
    (* and complete from the commit on *)
    marker_set (_sector s_commit) = true /\
    body_of (T:=T) (_sector s_commit) = to_bytes config /\
    marker_set (_sector s_end) = true /\
    body_of (T:=T) (_sector s_end) = to_bytes config.
Proof.
  intros Hok. pose proof fits_eeprom as Hfit.
  pose proof (length_saved_image config e Hok) as Hlen.
  pose proof (saved_image_body config e Hok) as Hbody.
  pose proof (saved_image_marker config e) as Hmark.
  rewrite (trace_saveConfig config e Hok). cbv zeta.
  do 5 eexists. split; [reflexivity |].
  split; [apply saveConfig_unfold; exact Hok |].
  assert (Hpos : (0 < length (saved_image config e))%nat)
    by (rewrite Hlen; unfold EEPROM_SIZE; lia).
  assert (Hfits : (MQTT_CONFIG_STORAGE_ADDRESS + sizeof
                   <= length (saved_image config e))%nat)
    by (rewrite Hlen; unfold MQTT_CONFIG_STORAGE_ADDRESS, EEPROM_SIZE; lia).
  repeat apply conj.
  - unfold buffer_marker_set, EEPROM.read. cbn [_data].
    rewrite length_marked.
    unfold EEPROM_IS_CONFIGURED_TOKEN_STORAGE_ADDRESS, EEPROM_SIZE.
    cbn [Nat.ltb Nat.leb]. unfold splice. rewrite firstn_O. cbn [app nth].
    apply byte_eqb_refl.
  - unfold buffer_body, body_of, MQTT_CONFIG_STORAGE_ADDRESS, EEPROM.begin.
    cbn [_data _sector]. unfold splice. rewrite firstn_O. cbn [app length Nat.add].
    rewrite skipn_map, skipn_seq. cbn [skipn].
    rewrite firstn_map, firstn_seq. f_equal. f_equal.
    unfold EEPROM_SIZE. lia.
  - unfold buffer_marker_set, EEPROM.read. cbn [_data]. rewrite Hlen.
    unfold EEPROM_IS_CONFIGURED_TOKEN_STORAGE_ADDRESS, EEPROM_SIZE.
    cbn [Nat.ltb Nat.leb]. rewrite Hmark. apply byte_eqb_refl.
  - exact Hbody.
  - intros i. reflexivity.
  - intros i. reflexivity.
  - intros i. reflexivity.
  - cbn [_sector]. rewrite marker_set_overlay by exact Hpos.
    rewrite Hmark. apply byte_eqb_refl.
  - cbn [_sector]. rewrite body_of_overlay by exact Hfits. exact Hbody.
  - cbn [_sector]. rewrite marker_set_overlay by exact Hpos.
    rewrite Hmark. apply byte_eqb_refl.
  - cbn [_sector]. rewrite body_of_overlay by exact Hfits. exact Hbody.
Qed.

(** C6, counterexample.  Saving the sample configuration to an erased
    EEPROM: the first write of [saveConfig] stores the token 0xAE at the
    marker address (nothing clears it), and after that write the marker is
    set while the body is still the erased one. *)
Lemma saveConfig_sets_marker_before_body :
  nth_error (saveConfig_body sample_config) 1
    = Some (Swrite EEPROM_IS_CONFIGURED_TOKEN_STORAGE_ADDRESS
                   EEPROM_IS_CONFIGURED_TOKEN_VALUE) /\
  nth_error (saveConfig_body sample_config) 2
    = Some (Sput MQTT_CONFIG_STORAGE_ADDRESS sample_config) /\
  ~ marker_only_above_written_body sample_config blank_flash.
Proof.
  split; [reflexivity |]. split; [reflexivity |].
  intros Hc.
  specialize (Hc (EEPROM.write 0 xae (EEPROM.begin EEPROM_SIZE blank_flash))).
  assert (Hin : In (EEPROM.write 0 xae (EEPROM.begin EEPROM_SIZE blank_flash))
                   (trace blank_flash (saveConfig_body sample_config)))
    by (right; left; reflexivity).
  specialize (Hc Hin eq_refl).
  apply (f_equal (fun l => nth 0 l x00)) in Hc.
  vm_compute in Hc. discriminate Hc.
Qed.

Lemma saveConfig_marker_then_body_then_commit_witness :
  struct_ok sample_config /\
  exists s_begin s_marker s_body s_commit s_end,
    trace blank_flash (saveConfig_body sample_config)
      = [s_begin; s_marker; s_body; s_commit; s_end] /\
    saveConfig sample_config blank_flash = s_end /\
    buffer_marker_set s_marker = true /\
    buffer_body (T:=MultiHTT.MQTT_CONFIG) s_marker = body_of (T:=MultiHTT.MQTT_CONFIG) (_sector blank_flash) /\
    buffer_marker_set s_body = true /\
    buffer_body (T:=MultiHTT.MQTT_CONFIG) s_body = to_bytes sample_config /\
    (forall i, _sector s_begin i = _sector blank_flash i) /\
    (forall i, _sector s_marker i = _sector blank_flash i) /\
    (forall i, _sector s_body i = _sector blank_flash i) /\
    marker_set (_sector s_commit) = true /\
    body_of (T:=MultiHTT.MQTT_CONFIG) (_sector s_commit) = to_bytes sample_config /\
    marker_set (_sector s_end) = true /\
    body_of (T:=MultiHTT.MQTT_CONFIG) (_sector s_end) = to_bytes sample_config.
Proof.
  split.
  - unfold struct_ok. simpl.
    unfold MultiHTT.config_ok, in_long, LONG_MIN, LONG_MAX. simpl.
    repeat split; lia.
  - apply (saveConfig_marker_then_body_then_commit sample_config blank_flash).
    unfold struct_ok. simpl.
    unfold MultiHTT.config_ok, in_long, LONG_MIN, LONG_MAX. simpl.
    repeat split; lia.
Defined.

(** ** Copying the portal values into the configuration *)

Lemma wrap_long_range (z : Z) : in_long (wrap_long z).
Proof.
  unfold in_long, LONG_MIN, LONG_MAX, wrap_long.
  pose proof (Z.mod_pos_bound (z + 2 ^ 31) (2 ^ 32) ltac:(lia)). lia.
Qed.

Lemma atoi_range (s : list byte) : in_long (atoi s).
Proof.
  unfold atoi. destruct (atoi_skip (cstr s)) as [| c r].
  - apply wrap_long_range.
  - destruct c; apply wrap_long_range.
Qed.

Lemma cstr_app_NUL (a r : list byte) : cstr (cstr a ++ NUL :: r) = cstr a.
Proof.
  induction a as [| c a IH]; simpl.
  - reflexivity.
  - destruct (Byte.eqb c NUL) eqn:E; simpl.
    + reflexivity.
    + rewrite E. now rewrite IH.
Qed.

Lemma strcpy_fits (dst src : list byte) :
  fits (length dst) src ->
  exists d, strcpy dst src = Some d /\ length d = length dst /\
            cstr d = cstr src.
Proof.
  unfold fits, strlen, strcpy. intros Hf.
  destruct (Nat.leb_spec (length (cstr src) + 1) (length dst)) as [Hle | Hgt];
    [| lia].
  eexists. split; [reflexivity |]. split.
  - rewrite length_app. simpl. rewrite length_skipn. lia.
  - apply cstr_app_NUL.
Qed.

Lemma strcpy_overflow (dst src : list byte) :
  ~ fits (length dst) src -> strcpy dst src = None.
Proof.
  unfold fits, strlen, strcpy. intros Hf.
  destruct (Nat.leb_spec (length (cstr src) + 1) (length dst)) as [Hle | Hgt];
    [lia | reflexivity].
Qed.

Module Multi001Facts.
Import Multi001.

Lemma length_user_configuration_bytes (c : USER_CONFIGURATION) :
  config_ok c -> length (config_bytes c) = 192%nat.
Proof.
  intros (H1 & _ & H3 & H4 & H5 & _ & _ & H8 & H9).
  unfold config_bytes. rewrite !length_app, !length_bytes_of_int. lia.
Qed.

Lemma user_configuration_of_bytes_bytes (c : USER_CONFIGURATION) :
  config_ok c -> config_of_bytes (config_bytes c) = c.
Proof.
  destruct c as [sn sp un pw tp si hi a0 a1].
  intros (H1 & H2 & H3 & H4 & H5 & H6 & H7 & H8 & H9). simpl in *.
  unfold config_of_bytes, config_bytes.
  cbn [servername serverport username password topic softpublicationinterval
       hardpublicationinterval sw0propertyname sw1propertyname].
  f_equal.
  - rewrite skipn_O. now rewrite firstn_exact_app.
  - change 40%nat with (40 + 0)%nat. read_field.
    now apply int_of_bytes_of_int.
  - change 44%nat with (40 + (4 + 0))%nat. read_field.
  - change 64%nat with (40 + (4 + (20 + 0)))%nat. read_field.
  - change 84%nat with (40 + (4 + (20 + (20 + 0))))%nat. read_field.
  - change 144%nat with (40 + (4 + (20 + (20 + (60 + 0)))))%nat. read_field.
    now apply int_of_bytes_of_int.
  - change 148%nat with (40 + (4 + (20 + (20 + (60 + (4 + 0))))))%nat.
    read_field. now apply int_of_bytes_of_int.
  - change 152%nat with (40 + (4 + (20 + (20 + (60 + (4 + (4 + 0)))))))%nat.
    read_field.
  - change 172%nat
      with (40 + (4 + (20 + (20 + (60 + (4 + (4 + (20 + 0))))))))%nat.
    read_field.
Qed.

End Multi001Facts.

#[global] Instance USER_CONFIGURATION_storable_ok
  : StorableOk Multi001.USER_CONFIGURATION.
Proof.
  split.
  - exact Multi001Facts.length_user_configuration_bytes.
  - exact Multi001Facts.user_configuration_of_bytes_bytes.
  - simpl. lia.
Qed.

(** Run one [strcpy] of [setup] whose source fits. *)
Ltac copy_field Hlen Hfit d Hd :=
  let Hs := fresh "Hs" in
  let Hl := fresh "Hl" in
  rewrite <- Hlen in Hfit;
  destruct (strcpy_fits _ _ Hfit) as (d & Hs & Hl & Hd);
  rewrite Hs; rewrite Hlen in Hl.

Lemma setup_save_submitted_HTT
  (p : MultiHTT.portal) (c : MultiHTT.MQTT_CONFIG) (e : EEPROMClass) :
  MultiHTT.shouldSaveConfig p = true ->
  MultiHTT.portal_fits p ->
  MultiHTT.config_ok c ->
  exists c',
    MultiHTT.setup_save p c e = Some (c', saveConfig c' e) /\
    MultiHTT.config_ok c' /\
    cstr (MultiHTT.servername c') = cstr (MultiHTT.custom_mqtt_servername p) /\
    MultiHTT.serverport c' = atoi (MultiHTT.custom_mqtt_serverport p) /\
    cstr (MultiHTT.username c') = cstr (MultiHTT.custom_mqtt_username p) /\
    cstr (MultiHTT.password c') = cstr (MultiHTT.custom_mqtt_password p) /\
    cstr (MultiHTT.topic c') = cstr (MultiHTT.custom_mqtt_topic p).
Proof.
  intros Hsave (F1 & F2 & F3 & F4 & F5 & F6 & F7 & F8)
         (H1 & H2 & H3 & H4 & H5 & H6 & H7 & H8 & H9).
  unfold MultiHTT.setup_save. rewrite Hsave.
  copy_field H1 F1 sn Hsn. copy_field H3 F2 un Hun.
  copy_field H4 F3 pw Hpw. copy_field H5 F4 tp Htp.
  copy_field H6 F5 p0 Hp0. copy_field H7 F6 p1 Hp1.
  copy_field H8 F7 p2 Hp2. copy_field H9 F8 p3 Hp3.
  eexists. split; [reflexivity |]. cbn.
  pose proof (atoi_range (MultiHTT.custom_mqtt_serverport p)).
  unfold MultiHTT.config_ok. cbn. tauto.
Qed.

Lemma setup_save_submitted_001
  (p : Multi001.portal) (c : Multi001.USER_CONFIGURATION) (e : EEPROMClass) :
  Multi001.shouldSaveConfig p = true ->
  Multi001.portal_fits p ->
  Multi001.config_ok c ->
  exists c',
    Multi001.setup_save p c e = Some (c', saveConfig c' e) /\
    Multi001.config_ok c' /\
    cstr (Multi001.servername c') = cstr (Multi001.custom_mqtt_servername p) /\
    Multi001.serverport c' = atoi (Multi001.custom_mqtt_serverport p) /\
    cstr (Multi001.username c') = cstr (Multi001.custom_mqtt_username p) /\
    cstr (Multi001.password c') = cstr (Multi001.custom_mqtt_password p) /\
    cstr (Multi001.topic c') = cstr (Multi001.custom_mqtt_topic p).
Proof.
  intros Hsave (F1 & F2 & F3 & F4 & F5 & F6)
         (H1 & H2 & H3 & H4 & H5 & H6 & H7 & H8 & H9).
  unfold Multi001.setup_save. rewrite Hsave.
  copy_field H1 F1 sn Hsn. copy_field H3 F2 un Hun.
  copy_field H4 F3 pw Hpw. copy_field H5 F4 tp Htp.
  copy_field H8 F5 a0 Ha0. copy_field H9 F6 a1 Ha1.
  eexists. split; [reflexivity |]. cbn.
  pose proof (atoi_range (Multi001.custom_mqtt_serverport p)).
  pose proof (atoi_range (Multi001.custom_mqtt_softinterval p)).
  pose proof (atoi_range (Multi001.custom_mqtt_hardinterval p)).
  unfold Multi001.config_ok. cbn. tauto.
Qed.

Lemma marker_after_save {T : Type} `{StorableOk T} (config : T) (e : EEPROMClass) :
  struct_ok config -> marker_set (_sector (saveConfig config e)) = true.
Proof.
  intros Hok. rewrite saveConfig_unfold by exact Hok. cbn [_sector].
  rewrite marker_set_overlay.
  - rewrite saved_image_marker. apply byte_eqb_refl.
  - rewrite length_saved_image by exact Hok. unfold EEPROM_SIZE. lia.
Qed.

Lemma zero_config_ok : MultiHTT.config_ok zero_config.
Proof.
  unfold MultiHTT.config_ok, in_long, LONG_MIN, LONG_MAX. simpl.
  repeat split; lia.
Qed.

Lemma empty_host_submission_fits : MultiHTT.portal_fits empty_host_submission.
Proof.
  unfold MultiHTT.portal_fits, fits, strlen. simpl. repeat split; lia.
Qed.

(** C7, counterexample.  A portal submission whose broker host is the empty
    string is copied into the configuration and saved: afterwards the
    marker is set in flash and [loadConfig] returns [true] with a record
    whose server name is empty. *)
Lemma empty_host_is_persisted :
  exists c' e',
    MultiHTT.setup_save empty_host_submission zero_config blank_flash
      = Some (c', e') /\
    strlen (MultiHTT.custom_mqtt_servername empty_host_submission) = 0%nat /\
    strlen (MultiHTT.servername c') = 0%nat /\
    marker_set (_sector e') = true /\
    exists e'', loadConfig zero_config e' = (true, c', e'').
Proof.
  destruct (setup_save_submitted_HTT empty_host_submission zero_config
              blank_flash eq_refl empty_host_submission_fits zero_config_ok)
    as (c' & Heq & Hok & Hsn & _).
  exists c', (saveConfig c' blank_flash).
  split; [exact Heq |]. split; [reflexivity |]. split.
  - unfold strlen. rewrite Hsn. reflexivity.
  - split.
    + apply marker_after_save. exact Hok.
    + eexists. apply loadConfig_after_save. exact Hok.
Qed.

(** C7 (as the code has it).  When the portal reports a saved configuration,
    [setup] copies every submitted value into [mqttConfig] and calls
    [saveConfig] on the result without testing any field: whatever the
    submitted broker host is, empty or not, it is the host of the record
    that a later [loadConfig] returns.  This holds in the four-switch sketch
    and in the sketch with configured intervals, for submissions whose
    texts fit the arrays they are copied to. *)
Theorem setup_saves_submission_unvalidated
  (p : MultiHTT.portal) (c c0 : MultiHTT.MQTT_CONFIG)
  (q : Multi001.portal) (u u0 : Multi001.USER_CONFIGURATION)
  (e : EEPROMClass) :
  MultiHTT.shouldSaveConfig p = true ->
  MultiHTT.portal_fits p ->
  MultiHTT.config_ok c ->
  Multi001.shouldSaveConfig q = true ->
  Multi001.portal_fits q ->
  Multi001.config_ok u ->
  (exists c' e',
     MultiHTT.setup_save p c e = Some (c', saveConfig c' e) /\
     cstr (MultiHTT.servername c') = cstr (MultiHTT.custom_mqtt_servername p) /\
     marker_set (_sector (saveConfig c' e)) = true /\
     loadConfig c0 (saveConfig c' e) = (true, c', e')) /\
  (exists u' e',
     Multi001.setup_save q u e = Some (u', saveConfig u' e) /\
     cstr (Multi001.servername u') = cstr (Multi001.custom_mqtt_servername q) /\
     marker_set (_sector (saveConfig u' e)) = true /\
     loadConfig u0 (saveConfig u' e) = (true, u', e')).
Proof.
  intros Hp Fp Hc Hq Fq Hu. split.
  - destruct (setup_save_submitted_HTT p c e Hp Fp Hc)
      as (c' & Heq & Hok & Hsn & _).
    exists c'. eexists. split; [exact Heq |]. split; [exact Hsn |]. split.
    + apply marker_after_save. exact Hok.
    + apply loadConfig_after_save. exact Hok.
  - destruct (setup_save_submitted_001 q u e Hq Fq Hu)
      as (u' & Heq & Hok & Hsn & _).
    exists u'. eexists. split; [exact Heq |]. split; [exact Hsn |]. split.
    + apply marker_after_save. exact Hok.
    + apply loadConfig_after_save. exact Hok.
Qed.

Lemma setup_saves_submission_unvalidated_witness :
  MultiHTT.shouldSaveConfig empty_host_submission = true /\
  MultiHTT.portal_fits empty_host_submission /\
  MultiHTT.config_ok zero_config /\
  Multi001.shouldSaveConfig empty_host_submission_001 = true /\
  Multi001.portal_fits empty_host_submission_001 /\
  Multi001.config_ok zero_user_configuration /\
  (exists c' e',
     MultiHTT.setup_save empty_host_submission zero_config blank_flash
       = Some (c', saveConfig c' blank_flash) /\
     cstr (MultiHTT.servername c')
       = cstr (MultiHTT.custom_mqtt_servername empty_host_submission) /\
     marker_set (_sector (saveConfig c' blank_flash)) = true /\
     loadConfig zero_config (saveConfig c' blank_flash) = (true, c', e')) /\
  (exists u' e',
     Multi001.setup_save empty_host_submission_001 zero_user_configuration
       blank_flash = Some (u', saveConfig u' blank_flash) /\
     cstr (Multi001.servername u')
       = cstr (Multi001.custom_mqtt_servername empty_host_submission_001) /\
     marker_set (_sector (saveConfig u' blank_flash)) = true /\
     loadConfig zero_user_configuration (saveConfig u' blank_flash)
       = (true, u', e')).
Proof.
  assert (F1 : MultiHTT.portal_fits empty_host_submission)
    by (unfold MultiHTT.portal_fits, fits, strlen; simpl; repeat split; lia).
  assert (O1 : MultiHTT.config_ok zero_config)
    by (unfold MultiHTT.config_ok, in_long, LONG_MIN, LONG_MAX; simpl;
        repeat split; lia).
  assert (F2 : Multi001.portal_fits empty_host_submission_001)
    by (unfold Multi001.portal_fits, fits, strlen; simpl; repeat split; lia).
  assert (O2 : Multi001.config_ok zero_user_configuration)
    by (unfold Multi001.config_ok, in_long, LONG_MIN, LONG_MAX; simpl;
        repeat split; lia).
  split; [reflexivity |]. split; [exact F1 |]. split; [exact O1 |].
  split; [reflexivity |]. split; [exact F2 |]. split; [exact O2 |].
  exact (setup_saves_submission_unvalidated
           empty_host_submission zero_config zero_config
           empty_host_submission_001 zero_user_configuration
           zero_user_configuration blank_flash
           eq_refl F1 O1 eq_refl F2 O2).
Defined.

(** ** The deadlines of the two-timer scheduler *)

Lemma loop_deadlines_HTT (w : world) (s : MultiHTT.sketch) :
  millis w > MultiHTT.mqttPublishSoftDeadline s ->
  let r := MultiHTT.loop w s in
  MultiHTT.mqttPublishSoftDeadline (MultiHTT.after r)
    = long_add (millis w) MultiHTT.MQTT_PUBLISH_SOFT_INTERVAL /\
  (MultiHTT.published r <> None ->
   MultiHTT.mqttPublishHardDeadline (MultiHTT.after r)
     = long_add (millis w) MultiHTT.MQTT_PUBLISH_HARD_INTERVAL) /\
  (MultiHTT.published r = None ->
   MultiHTT.mqttPublishHardDeadline (MultiHTT.after r)
     = MultiHTT.mqttPublishHardDeadline s).
Proof.
  intros Hgate. unfold MultiHTT.loop.
  destruct (Z.gtb_spec (millis w) (MultiHTT.mqttPublishSoftDeadline s));
    [| lia].
  destruct (dirty (MultiHTT.poll_all w s)
            || (millis w >? MultiHTT.mqttPublishHardDeadline s)); cbn.
  - split; [reflexivity |]. split; [reflexivity | discriminate].
  - split; [reflexivity |]. split; [congruence | reflexivity].
Qed.

Lemma loop_deadlines_001 (w : world) (s : Multi001.sketch) :
  millis w > Multi001.mqttPublishSoftDeadline s ->
  let r := Multi001.loop w s in
  let c := Multi001.mqttConfig s in
  Multi001.mqttPublishSoftDeadline (Multi001.after r)
    = long_add (millis w) (Multi001.hardpublicationinterval c) /\
  (Multi001.published r <> None ->
   Multi001.mqttPublishHardDeadline (Multi001.after r)
     = long_add (millis w) (Multi001.softpublicationinterval c)).
Proof.
  intros Hgate. unfold Multi001.loop.
  destruct (Z.gtb_spec (millis w) (Multi001.mqttPublishSoftDeadline s));
    [| lia].
  destruct (dirty (Multi001.poll_all w s)
            || (millis w >? Multi001.mqttPublishHardDeadline s)); cbn.
  - split; reflexivity.
  - split; [reflexivity | congruence].
Qed.

(** C1, the defect.  In the sketch with configured intervals (soft 3000 ms,
    hard 30000 ms), the first pass of [loop] at 1000 ms publishes, and
    leaves the hard deadline at 1000 + 3000 and the soft deadline at
    1000 + 30000: the two intervals are exchanged. *)
Theorem configured_intervals_are_exchanged :
  let c := sample_user_configuration in
  let r := Multi001.loop (steady 1000) (Multi001.boot c) in
  Multi001.softpublicationinterval c = 3000 /\
  Multi001.hardpublicationinterval c = 30000 /\
  Multi001.published r <> None /\
  Multi001.mqttPublishHardDeadline (Multi001.after r) = 1000 + 3000 /\
  Multi001.mqttPublishSoftDeadline (Multi001.after r) = 1000 + 30000 /\
  Multi001.mqttPublishHardDeadline (Multi001.after r) <> 1000 + 30000 /\
  Multi001.mqttPublishSoftDeadline (Multi001.after r) <> 1000 + 3000.
Proof.
  cbv zeta. repeat apply conj; try reflexivity; vm_compute; discriminate.
Qed.

(** ** The value returned by [mqttClient.publish] *)





(** ** The motion input *)



(** ** The heartbeat *)

(** C2, counterexample.  The four-switch sketch runs one pass of [loop] per
    millisecond from 1 ms to 30011 ms over sensors that never change.  It
    publishes at 1 ms and next at 30011 ms: the whole hard interval that
    follows the first publish, 2 ms to 30001 ms, goes by without one. *)
Lemma heartbeat_later_than_hard_interval :
  let times := publish_times (every_millisecond 1 30011)
                 (MultiHTT.boot sample_config 0) in
  times = [1; 30011] /\
  forall t, 1 < t <= 1 + MultiHTT.MQTT_PUBLISH_HARD_INTERVAL -> ~ In t times.
Proof.
  cbv zeta.
  assert (Ht : publish_times (every_millisecond 1 30011)
                 (MultiHTT.boot sample_config 0) = [1; 30011])
    by (vm_compute; reflexivity).
  rewrite Ht. split; [reflexivity |].
  unfold MultiHTT.MQTT_PUBLISH_HARD_INTERVAL. intros t Hr [H1 | [H2 | []]]; lia.
Qed.

(** C2 (as the code has it).  A pass of [loop] whose time is past both the
    soft deadline and the hard deadline publishes the document just polled,
    whether or not any reading changed; this holds in both two-timer
    sketches. *)
Theorem pass_beyond_both_deadlines_publishes
  (w : world) (s : MultiHTT.sketch) (s' : Multi001.sketch) :
  millis w > MultiHTT.mqttPublishSoftDeadline s ->
  millis w > MultiHTT.mqttPublishHardDeadline s ->
  millis w > Multi001.mqttPublishSoftDeadline s' ->
  millis w > Multi001.mqttPublishHardDeadline s' ->
  (exists pub, MultiHTT.published (MultiHTT.loop w s) = Some pub /\
               pub_message pub = doc (MultiHTT.poll_all w s)) /\
  (exists pub, Multi001.published (Multi001.loop w s') = Some pub /\
               pub_message pub = doc (Multi001.poll_all w s')).
Proof.
  intros Hs Hh Hs' Hh'. split.
  - unfold MultiHTT.loop.
    destruct (Z.gtb_spec (millis w) (MultiHTT.mqttPublishSoftDeadline s));
      [| lia].
    destruct (Z.gtb_spec (millis w) (MultiHTT.mqttPublishHardDeadline s));
      [| lia].
    rewrite orb_true_r. eexists. split; reflexivity.
  - unfold Multi001.loop.
    destruct (Z.gtb_spec (millis w) (Multi001.mqttPublishSoftDeadline s'));
      [| lia].
    destruct (Z.gtb_spec (millis w) (Multi001.mqttPublishHardDeadline s'));
      [| lia].
    rewrite orb_true_r. eexists. split; reflexivity.
Qed.

Lemma pass_beyond_both_deadlines_publishes_witness :
  let s := MultiHTT.after
             (MultiHTT.loop (steady 1000) (MultiHTT.boot sample_config 0)) in
  let s' := Multi001.after
              (Multi001.loop (steady 1000)
                 (Multi001.boot sample_user_configuration)) in
  millis (steady 40000) > MultiHTT.mqttPublishSoftDeadline s /\
  millis (steady 40000) > MultiHTT.mqttPublishHardDeadline s /\
  millis (steady 40000) > Multi001.mqttPublishSoftDeadline s' /\
  millis (steady 40000) > Multi001.mqttPublishHardDeadline s' /\
  dirty (MultiHTT.poll_all (steady 40000) s) = false /\
  (exists pub, MultiHTT.published (MultiHTT.loop (steady 40000) s) = Some pub /\
               pub_message pub = doc (MultiHTT.poll_all (steady 40000) s)) /\
  (exists pub, Multi001.published (Multi001.loop (steady 40000) s') = Some pub /\
               pub_message pub = doc (Multi001.poll_all (steady 40000) s')).
Proof.
  cbv zeta.
  split; [vm_compute; reflexivity |]. split; [vm_compute; reflexivity |].
  split; [vm_compute; reflexivity |]. split; [vm_compute; reflexivity |].
  split; [vm_compute; reflexivity |].
  apply pass_beyond_both_deadlines_publishes; vm_compute; reflexivity.
Defined.

(** ** The JSON document and the polling blocks *)

Lemma json_get_set_same (d : JsonDocument) (k : string) (v : Z) :
  json_get (json_set d k v) k = Some v.
Proof.
  induction d as [| [k' x] r IH]; simpl.
  - now rewrite String.eqb_refl.
  - destruct (String.eqb k' k) eqn:E; simpl; rewrite E; [reflexivity | exact IH].
Qed.

Lemma json_get_set_other (d : JsonDocument) (k k' : string) (v : Z) :
  k' <> k -> json_get (json_set d k v) k' = json_get d k'.
Proof.
  intros Hne. induction d as [| [k0 x] r IH]; simpl.
  - destruct (String.eqb_spec k k'); [congruence | reflexivity].
  - destruct (String.eqb_spec k0 k) as [-> | Hk]; simpl.
    + destruct (String.eqb_spec k k'); [congruence | reflexivity].
    + destruct (String.eqb_spec k0 k'); [reflexivity | exact IH].
Qed.

Lemma json_keys_set (d : JsonDocument) (k k' : string) (v : Z) :
  In k' (json_keys (json_set d k v)) -> k' = k \/ In k' (json_keys d).
Proof.
  unfold json_keys. induction d as [| [k0 x] r IH]; simpl.
  - intros [<- | []]. now left.
  - destruct (String.eqb k0 k); simpl.
    + intros [<- | Hin]; right; [now left | now right].
    + intros [<- | Hin]; [right; now left |].
      destruct (IH Hin) as [-> | Hr]; [now left | right; now right].
Qed.

Lemma json_as_int_get (d : JsonDocument) (k : string) (v : Z) :
  json_as_int d k = v -> v <> 0 -> json_get d k = Some v.
Proof.
  unfold json_as_int. destruct (json_get d k); intros <- Hv; congruence.
Qed.

(** *** [update_int] *)

Lemma update_int_reads (k : string) (v : Z) (p : polling) :
  reads (update_int k v p) = reads p.
Proof. unfold update_int. now destruct (negb _). Qed.

Lemma update_int_keys (k k' : string) (v : Z) (p : polling) :
  In k' (json_keys (doc (update_int k v p))) ->
  k' = k \/ In k' (json_keys (doc p)).
Proof.
  unfold update_int. destruct (negb _); simpl.
  - apply json_keys_set.
  - now right.
Qed.

Lemma update_int_other (k k' : string) (v : Z) (p : polling) :
  k' <> k -> json_get (doc (update_int k v p)) k' = json_get (doc p) k'.
Proof.
  intros Hne. unfold update_int. destruct (negb _); simpl.
  - now apply json_get_set_other.
  - reflexivity.
Qed.

Lemma update_int_same (k : string) (v : Z) (p : polling) :
  v <> 0 -> json_get (doc (update_int k v p)) k = Some v.
Proof.
  intros Hv. unfold update_int.
  destruct (Z.eqb_spec (json_as_int (doc p) k) v) as [He | Hd]; simpl.
  - now apply json_as_int_get.
  - apply json_get_set_same.
Qed.

(** *** [update_switch] and [poll_switch] *)

Lemma update_switch_reads (w : world) (k : string) (pin x : Z) (p : polling) :
  In x (reads (update_switch w k pin p)) -> x = pin \/ In x (reads p).
Proof.
  unfold update_switch. destruct (json_differs _ _ _); simpl;
    rewrite in_app_iff; simpl; intuition.
Qed.

Lemma update_switch_keys (w : world) (k k' : string) (pin : Z) (p : polling) :
  In k' (json_keys (doc (update_switch w k pin p))) ->
  k' = k \/ In k' (json_keys (doc p)).
Proof.
  unfold update_switch. destruct (json_differs _ _ _); simpl.
  - apply json_keys_set.
  - now right.
Qed.

Lemma update_switch_other (w : world) (k k' : string) (pin : Z) (p : polling) :
  k' <> k -> json_get (doc (update_switch w k pin p)) k' = json_get (doc p) k'.
Proof.
  intros Hne. unfold update_switch. destruct (json_differs _ _ _); simpl.
  - now apply json_get_set_other.
  - reflexivity.
Qed.

Lemma poll_switch_reads (w : world) (name : list byte) (pin x : Z)
  (p : polling) :
  In x (reads (MultiHTT.poll_switch w name pin p)) ->
  (x = pin /\ (0 < strlen name)%nat) \/ In x (reads p).
Proof.
  unfold MultiHTT.poll_switch.
  destruct (Nat.ltb_spec 0 (strlen name)) as [Hpos | Hz].
  - intros Hin. destruct (update_switch_reads _ _ _ _ _ Hin); intuition.
  - now right.
Qed.

Lemma poll_switch_keys (w : world) (name : list byte) (pin : Z) (k' : string)
  (p : polling) :
  In k' (json_keys (doc (MultiHTT.poll_switch w name pin p))) ->
  (k' = key_of name /\ (0 < strlen name)%nat) \/ In k' (json_keys (doc p)).
Proof.
  unfold MultiHTT.poll_switch.
  destruct (Nat.ltb_spec 0 (strlen name)) as [Hpos | Hz].
  - intros Hin. destruct (update_switch_keys _ _ _ _ _ Hin); intuition.
  - now right.
Qed.

Lemma poll_switch_other (w : world) (name : list byte) (pin : Z) (k' : string)
  (p : polling) :
  k' <> key_of name ->
  json_get (doc (MultiHTT.poll_switch w name pin p)) k' = json_get (doc p) k'.
Proof.
  intros Hne. unfold MultiHTT.poll_switch.
  destruct (0 <? strlen name)%nat; [| reflexivity].
  now apply update_switch_other.
Qed.

(** *** The AM2322 block *)

Lemma poll_am2322_reads (w : world) (p : polling) :
  reads (poll_am2322 w p) = reads p.
Proof.
  unfold poll_am2322. destruct (am_connected w); [| reflexivity].
  destruct (am_read_ok w); now rewrite !update_int_reads.
Qed.

Lemma poll_am2322_keys (w : world) (k' : string) (p : polling) :
  In k' (json_keys (doc (poll_am2322 w p))) ->
  k' = "humidity"%string \/ k' = "temperature"%string \/
  In k' (json_keys (doc p)).
Proof.
  unfold poll_am2322. destruct (am_connected w); [| intuition].
  destruct (am_read_ok w); intros Hin;
    apply update_int_keys in Hin; destruct Hin as [-> | Hin]; auto;
    apply update_int_keys in Hin; destruct Hin as [-> | Hin]; auto.
Qed.

Lemma poll_am2322_disconnected (w : world) (p : polling) :
  am_connected w = false -> poll_am2322 w p = p.
Proof. intros Hc. unfold poll_am2322. now rewrite Hc. Qed.

Lemma poll_am2322_unreadable (w : world) (p : polling) :
  am_connected w = true -> am_read_ok w = false ->
  json_get (doc (poll_am2322 w p)) "humidity" = Some SENSOR_UNDEFINED_VALUE /\
  json_get (doc (poll_am2322 w p)) "temperature" = Some SENSOR_UNDEFINED_VALUE.
Proof.
  intros Hc Hr. unfold poll_am2322. rewrite Hc, Hr. split.
  - rewrite update_int_other by discriminate.
    apply update_int_same. discriminate.
  - apply update_int_same. discriminate.
Qed.

(** *** The DS18B20 loop *)

Lemma dallas_name_not_empty (addr : list byte) :
  MultiHTT.dallas_name addr <> ""%string.
Proof. unfold MultiHTT.dallas_name. simpl. discriminate. Qed.

Lemma poll_dallas_device_reads (w : world) (p : polling) (i : nat) :
  reads (MultiHTT.poll_dallas_device w p i) = reads p.
Proof.
  unfold MultiHTT.poll_dallas_device.
  destruct (dallas w i) as [[addr t] |]; [apply update_int_reads | reflexivity].
Qed.

Lemma poll_dallas_device_keys (w : world) (p : polling) (i : nat) (k' : string) :
  In k' (json_keys (doc (MultiHTT.poll_dallas_device w p i))) ->
  (exists addr, k' = MultiHTT.dallas_name addr) \/ In k' (json_keys (doc p)).
Proof.
  unfold MultiHTT.poll_dallas_device.
  destruct (dallas w i) as [[addr t] |]; [| now right].
  intros Hin. apply update_int_keys in Hin. destruct Hin as [-> | Hin].
  - left. now exists addr.
  - now right.
Qed.

Lemma fold_dallas_reads (w : world) (l : list nat) (p : polling) :
  reads (fold_left (MultiHTT.poll_dallas_device w) l p) = reads p.
Proof.
  revert p. induction l as [| i l IH]; intros p; simpl.
  - reflexivity.
  - rewrite IH. apply poll_dallas_device_reads.
Qed.

Lemma fold_dallas_keys (w : world) (l : list nat) (p : polling) (k' : string) :
  In k' (json_keys (doc (fold_left (MultiHTT.poll_dallas_device w) l p))) ->
  (exists addr, k' = MultiHTT.dallas_name addr) \/ In k' (json_keys (doc p)).
Proof.
  revert p. induction l as [| i l IH]; intros p; simpl.
  - now right.
  - intros Hin. destruct (IH _ Hin) as [Hd | Hin']; [now left |].
    now apply poll_dallas_device_keys in Hin'.
Qed.

Lemma poll_dallas_reads (w : world) (count : nat) (p : polling) :
  reads (MultiHTT.poll_dallas w count p) = reads p.
Proof.
  unfold MultiHTT.poll_dallas. destruct (0 <? count)%nat;
    [apply fold_dallas_reads | reflexivity].
Qed.

Lemma poll_dallas_keys (w : world) (count : nat) (p : polling) (k' : string) :
  In k' (json_keys (doc (MultiHTT.poll_dallas w count p))) ->
  (exists addr, k' = MultiHTT.dallas_name addr) \/ In k' (json_keys (doc p)).
Proof.
  unfold MultiHTT.poll_dallas. destruct (0 <? count)%nat;
    [apply fold_dallas_keys | now right].
Qed.

(** ** Switches without a property name *)

Lemma key_of_named (name : list byte) :
  (0 < strlen name)%nat -> key_of name <> ""%string.
Proof.
  unfold strlen, key_of. destruct (cstr name) as [| c r]; simpl.
  - lia.
  - discriminate.
Qed.

Lemma key_of_unnamed (name : list byte) :
  strlen name = 0%nat -> key_of name = ""%string.
Proof.
  unfold strlen, key_of. destruct (cstr name) as [| c r]; simpl.
  - reflexivity.
  - discriminate.
Qed.

Lemma poll_all_reads (w : world) (s : MultiHTT.sketch) (x : Z) :
  In x (reads (MultiHTT.poll_all w s)) ->
  exists name, In (name, x) (switches (MultiHTT.mqttConfig s)) /\
               (0 < strlen name)%nat.
Proof.
  unfold MultiHTT.poll_all, switches. intros Hin.
  apply poll_switch_reads in Hin. destruct Hin as [[-> Hn] | Hin];
    [eexists; split; [right; right; right; left; reflexivity | exact Hn] |].
  apply poll_switch_reads in Hin. destruct Hin as [[-> Hn] | Hin];
    [eexists; split; [right; right; left; reflexivity | exact Hn] |].
  apply poll_switch_reads in Hin. destruct Hin as [[-> Hn] | Hin];
    [eexists; split; [right; left; reflexivity | exact Hn] |].
  apply poll_switch_reads in Hin. destruct Hin as [[-> Hn] | Hin];
    [eexists; split; [left; reflexivity | exact Hn] |].
  rewrite poll_am2322_reads, poll_dallas_reads in Hin. destruct Hin.
Qed.

Lemma poll_all_no_empty_key (w : world) (s : MultiHTT.sketch) :
  ~ In ""%string (json_keys (MultiHTT.jsonBuffer s)) ->
  ~ In ""%string (json_keys (doc (MultiHTT.poll_all w s))).
Proof.
  intros Hs Hin. unfold MultiHTT.poll_all in Hin.
  repeat (apply poll_switch_keys in Hin;
          destruct Hin as [[He Hn] | Hin];
          [symmetry in He; exact (key_of_named _ Hn He) |]).
  apply poll_am2322_keys in Hin. destruct Hin as [He | [He | Hin]];
    [discriminate He | discriminate He |].
  apply poll_dallas_keys in Hin. destruct Hin as [[addr He] | Hin].
  - symmetry in He. exact (dallas_name_not_empty _ He).
  - exact (Hs Hin).
Qed.

Lemma switch_pins_distinct (c : MultiHTT.MQTT_CONFIG) (n1 n2 : list byte)
  (pin : Z) :
  In (n1, pin) (switches c) -> In (n2, pin) (switches c) -> n1 = n2.
Proof.
  unfold switches, MultiHTT.GPIO_SW0, MultiHTT.GPIO_SW1, MultiHTT.GPIO_SW2,
    MultiHTT.GPIO_SW3. simpl.
  intros [H1 | [H1 | [H1 | [H1 | []]]]] [H2 | [H2 | [H2 | [H2 | []]]]];
    inversion H1; inversion H2; subst; try reflexivity; try discriminate.
Qed.

(** What one pass keeps and does when a switch has no property name. *)
Lemma loop_unnamed_switch (w : world) (s : MultiHTT.sketch)
  (name : list byte) (pin : Z) :
  ~ In ""%string (json_keys (MultiHTT.jsonBuffer s)) ->
  In (name, pin) (switches (MultiHTT.mqttConfig s)) ->
  strlen name = 0%nat ->
  let r := MultiHTT.loop w s in
  ~ In pin (MultiHTT.polled r) /\
  (forall pub, MultiHTT.published r = Some pub ->
               ~ In (key_of name) (json_keys (pub_message pub))) /\
  ~ In ""%string (json_keys (MultiHTT.jsonBuffer (MultiHTT.after r))) /\
  MultiHTT.mqttConfig (MultiHTT.after r) = MultiHTT.mqttConfig s /\
  MultiHTT.dallasDeviceCount (MultiHTT.after r) = MultiHTT.dallasDeviceCount s.
Proof.
  intros Hs Hsw Hz. cbv zeta.
  assert (Hreads : ~ In pin (reads (MultiHTT.poll_all w s))).
  { intros Hin. apply poll_all_reads in Hin. destruct Hin as (n' & Hin' & Hpos).
    rewrite (switch_pins_distinct _ _ _ _ Hin' Hsw) in Hpos. lia. }
  pose proof (poll_all_no_empty_key w s Hs) as Hkeys.
  rewrite (key_of_unnamed name Hz).
  unfold MultiHTT.loop.
  destruct (millis w >? MultiHTT.mqttPublishSoftDeadline s).
  - destruct (dirty (MultiHTT.poll_all w s)
              || (millis w >? MultiHTT.mqttPublishHardDeadline s)); cbn.
    + repeat apply conj; auto. intros pub [= <-]. exact Hkeys.
    + repeat apply conj; auto. discriminate.
  - cbn. repeat apply conj; auto. discriminate.
Qed.

Lemma run_unnamed_switch (ws : list world) (s : MultiHTT.sketch)
  (name : list byte) (pin : Z) (p : MultiHTT.pass) :
  ~ In ""%string (json_keys (MultiHTT.jsonBuffer s)) ->
  In (name, pin) (switches (MultiHTT.mqttConfig s)) ->
  strlen name = 0%nat ->
  In p (MultiHTT.run ws s) ->
  ~ In pin (MultiHTT.polled p) /\
  forall pub, MultiHTT.published p = Some pub ->
              ~ In (key_of name) (json_keys (pub_message pub)).
Proof.
  revert s. induction ws as [| w ws IH]; intros s Hs Hsw Hz Hin.
  - destruct Hin.
  - destruct (loop_unnamed_switch w s name pin Hs Hsw Hz)
      as (Hp & Hk & Hs' & Hc & _).
    simpl in Hin. destruct Hin as [<- | Hin].
    + split; assumption.
    + apply (IH (MultiHTT.after (MultiHTT.loop w s))); try assumption.
      rewrite Hc. exact Hsw.
Qed.

(** C8, counterexample.  In the sketch with configured intervals the first
    switch has an empty property name; the first pass of [loop] reads its
    pin all the same and the published document has a member for it, under
    the empty key. *)
Lemma unnamed_switch_is_polled_and_published :
  let c := unnamed_switch_configuration in
  let r := Multi001.loop (steady 1000) (Multi001.boot c) in
  strlen (Multi001.sw0propertyname c) = 0%nat /\
  In Multi001.GPIO_SW0 (Multi001.polled r) /\
  exists pub, Multi001.published r = Some pub /\
              In (key_of (Multi001.sw0propertyname c))
                 (json_keys (pub_message pub)) /\
              json_get (pub_message pub) "" = Some 1.
Proof.
  cbv zeta. split; [reflexivity |]. split.
  - vm_compute. left. reflexivity.
  - eexists. split; [vm_compute; reflexivity |]. split.
    + vm_compute. right. right. left. reflexivity.
    + reflexivity.
Qed.

(** C8 (as the code has it).  In every run of the four-switch sketch from
    boot, a switch whose configured property name is empty is never read
    and no published document has a member under its (empty) key. *)
Theorem unnamed_switch_neither_polled_nor_published
  (ws : list world) (c : MultiHTT.MQTT_CONFIG) (count : nat)
  (name : list byte) (pin : Z) (p : MultiHTT.pass) :
  In (name, pin) (switches c) ->
  strlen name = 0%nat ->
  In p (MultiHTT.run ws (MultiHTT.boot c count)) ->
  ~ In pin (MultiHTT.polled p) /\
  forall pub, MultiHTT.published p = Some pub ->
              ~ In (key_of name) (json_keys (pub_message pub)).
Proof.
  intros Hsw Hz Hin.
  apply (run_unnamed_switch ws (MultiHTT.boot c count) name pin p);
    try assumption.
  simpl. tauto.
Qed.

Lemma unnamed_switch_neither_polled_nor_published_witness :
  let p := MultiHTT.loop (steady 1000) (MultiHTT.boot sample_config 0) in
  In (MultiHTT.sw1propertyname sample_config, MultiHTT.GPIO_SW1)
     (switches sample_config) /\
  strlen (MultiHTT.sw1propertyname sample_config) = 0%nat /\
  In p (MultiHTT.run [steady 1000] (MultiHTT.boot sample_config 0)) /\
  MultiHTT.published p <> None /\
  ~ In MultiHTT.GPIO_SW1 (MultiHTT.polled p) /\
  forall pub, MultiHTT.published p = Some pub ->
              ~ In (key_of (MultiHTT.sw1propertyname sample_config))
                   (json_keys (pub_message pub)).
Proof.
  cbv zeta.
  assert (Hsw : In (MultiHTT.sw1propertyname sample_config, MultiHTT.GPIO_SW1)
                   (switches sample_config))
    by (right; left; reflexivity).
  assert (Hin : In (MultiHTT.loop (steady 1000) (MultiHTT.boot sample_config 0))
                   (MultiHTT.run [steady 1000] (MultiHTT.boot sample_config 0)))
    by (left; reflexivity).
  split; [exact Hsw |]. split; [reflexivity |]. split; [exact Hin |].
  split; [vm_compute; discriminate |].
  exact (unnamed_switch_neither_polled_nor_published
           [steady 1000] sample_config 0
           (MultiHTT.sw1propertyname sample_config) MultiHTT.GPIO_SW1
           _ Hsw eq_refl Hin).
Defined.

(** ** The sentinel for a failed AM2322 read *)

Lemma poll_all_am2322_key (w : world) (s : MultiHTT.sketch) (k : string) :
  no_alias_is (MultiHTT.mqttConfig s) k ->
  json_get (doc (MultiHTT.poll_all w s)) k
  = json_get
      (doc (poll_am2322 w
              (MultiHTT.poll_dallas w (MultiHTT.dallasDeviceCount s)
                 (mkPolling (MultiHTT.jsonBuffer s) false [])))) k.
Proof.
  intros Hfree. unfold MultiHTT.poll_all.
  assert (H0 : k <> key_of (MultiHTT.sw0propertyname (MultiHTT.mqttConfig s)))
    by (intros He; eapply Hfree; [left; reflexivity | now symmetry]).
  assert (H1 : k <> key_of (MultiHTT.sw1propertyname (MultiHTT.mqttConfig s)))
    by (intros He; eapply Hfree; [right; left; reflexivity | now symmetry]).
  assert (H2 : k <> key_of (MultiHTT.sw2propertyname (MultiHTT.mqttConfig s)))
    by (intros He; eapply Hfree;
        [right; right; left; reflexivity | now symmetry]).
  assert (H3 : k <> key_of (MultiHTT.sw3propertyname (MultiHTT.mqttConfig s)))
    by (intros He; eapply Hfree;
        [right; right; right; left; reflexivity | now symmetry]).
  now rewrite !poll_switch_other by assumption.
Qed.

(** C9.  The sketch announces that 999 is published when reading a sensor
    failed for whatever reason, but writes it only inside
    [if (AM2322.isConnected())].  The four-switch sketch has published
    humidity 40 and temperature 21 at 1000 ms.  At 40000 ms the AM2322 is no
    longer connected: the heartbeat publishes humidity 40 and temperature 21
    again, not 999.  On a node whose AM2322 was never connected the
    published document has no humidity member at all. *)
Lemma disconnected_am2322_publishes_stale_values :
  let s0 := MultiHTT.after
              (MultiHTT.loop (steady 1000) (MultiHTT.boot sample_config 0)) in
  (exists pub,
     MultiHTT.published (MultiHTT.loop (disconnected 40000) s0) = Some pub /\
     json_get (pub_message pub) "humidity" = Some 40 /\
     json_get (pub_message pub) "temperature" = Some 21) /\
  (exists pub,
     MultiHTT.published
       (MultiHTT.loop (disconnected 1000) (MultiHTT.boot sample_config 0))
       = Some pub /\
     json_get (pub_message pub) "humidity" = None /\
     json_get (pub_message pub) "temperature" = None).
Proof.
  cbv zeta. split; eexists; (split; [vm_compute; reflexivity |]);
    split; reflexivity.
Qed.

(* ===================================================================== *)
(** * Further properties of the sketches *)
(* ===================================================================== *)

(** ** The configuration store: what a load trusts, what a save touches *)

Lemma begin_body {T : Type} `{StorableOk T} (e : EEPROMClass) :
  EEPROM.get_bytes MQTT_CONFIG_STORAGE_ADDRESS sizeof
    (EEPROM.begin EEPROM_SIZE e)
  = Some (body_of (T:=T) (_sector e)).
Proof.
  pose proof fits_eeprom as Hfit.
  unfold EEPROM.get_bytes. rewrite length_begin.
  destruct (Nat.leb_spec (MQTT_CONFIG_STORAGE_ADDRESS + sizeof) EEPROM_SIZE)
    as [_ | Hc];
    [| unfold MQTT_CONFIG_STORAGE_ADDRESS, EEPROM_SIZE in Hc; lia].
  unfold EEPROM.begin, body_of, MQTT_CONFIG_STORAGE_ADDRESS. cbn [_data].
  rewrite skipn_map, skipn_seq, firstn_map, firstn_seq.
  rewrite Nat.min_l by (unfold EEPROM_SIZE; lia).
  reflexivity.
Qed.

Lemma nth_error_splice_after (addr i : nat) (bs data : list byte) :
  (addr + length bs <= length data)%nat ->
  (addr + length bs <= i)%nat ->
  nth_error (splice addr bs data) i = nth_error data i.
Proof.
  intros Hfit Hi. unfold splice.
  assert (Hl : length (firstn addr data) = addr)
    by (rewrite length_firstn; lia).
  rewrite nth_error_app2 by lia. rewrite Hl.
  rewrite nth_error_app2 by lia.
  rewrite nth_error_skipn. f_equal. lia.
Qed.

(** X1.  The record of the sketch with configured intervals also survives
    [saveConfig] followed by [loadConfig], both integer intervals
    included. *)
Theorem saveConfig_then_loadConfig_user_configuration
  (config config0 : Multi001.USER_CONFIGURATION) (e : EEPROMClass) :
  Multi001.config_ok config ->
  exists e', loadConfig config0 (saveConfig config e) = (true, config, e').
Proof.
  intros Hok. eexists.
  apply (loadConfig_after_save config config0 e). exact Hok.
Qed.

Lemma saveConfig_then_loadConfig_user_configuration_witness :
  Multi001.config_ok sample_user_configuration /\
  exists e', loadConfig zero_user_configuration
               (saveConfig sample_user_configuration blank_flash)
             = (true, sample_user_configuration, e').
Proof.
  assert (Hok : Multi001.config_ok sample_user_configuration)
    by (unfold Multi001.config_ok, in_long, LONG_MIN, LONG_MAX,
          sample_user_configuration,
          Multi001.CF_DEFAULT_MQTT_PUBLISH_SOFT_INTERVAL,
          Multi001.CF_DEFAULT_MQTT_PUBLISH_HARD_INTERVAL; simpl;
        repeat split; lia).
  split; [exact Hok |].
  exact (saveConfig_then_loadConfig_user_configuration
           sample_user_configuration zero_user_configuration blank_flash Hok).
Defined.

(** X2.  When the marker byte of the flash is the token, [loadConfig]
    returns [true] and the record decoded from the bytes behind the marker,
    whatever those bytes are: nothing checks the body.  The flash is left
    as it was. *)
Theorem loadConfig_trusts_marker
  {T : Type} `{StorableOk T} (config : T) (e : EEPROMClass) :
  _sector e EEPROM_IS_CONFIGURED_TOKEN_STORAGE_ADDRESS
    = EEPROM_IS_CONFIGURED_TOKEN_VALUE ->
  exists e',
    loadConfig config e = (true, of_bytes (body_of (T:=T) (_sector e)), e') /\
    forall i, _sector e' i = _sector e i.
Proof.
  intros Hm. eexists. split.
  - unfold loadConfig.
    rewrite read_begin
      by (unfold EEPROM_SIZE, EEPROM_IS_CONFIGURED_TOKEN_STORAGE_ADDRESS; lia).
    rewrite Hm, byte_eqb_refl. unfold EEPROM_get. rewrite begin_body.
    reflexivity.
  - intros i. apply sector_end_begin.
Qed.

(** X3.  Of the 512 bytes that the sketch opens with [EEPROM.begin],
    [saveConfig] changes the marker byte and the [sizeof] bytes behind it
    and nothing else: every byte from the end of the record to address 511
    keeps its value. *)
Theorem saveConfig_touches_only_its_record
  {T : Type} `{StorableOk T} (config : T) (e : EEPROMClass) (i : nat) :
  struct_ok config ->
  (MQTT_CONFIG_STORAGE_ADDRESS + sizeof <= i)%nat ->
  (i < EEPROM_SIZE)%nat ->
  _sector (saveConfig config e) i = _sector e i.
Proof.
  intros Hok Hi Hopen. pose proof fits_eeprom as Hfit.
  rewrite saveConfig_unfold by exact Hok. cbn [_sector].
  assert (Hn : nth_error (saved_image config e) i
               = nth_error (_data (EEPROM.begin EEPROM_SIZE e)) i).
  { unfold saved_image.
    rewrite nth_error_splice_after;
      [| rewrite length_marked, length_to_bytes by exact Hok;
         unfold MQTT_CONFIG_STORAGE_ADDRESS, EEPROM_SIZE; lia
       | rewrite length_to_bytes by exact Hok; exact Hi].
    apply nth_error_splice_after.
    - rewrite length_begin.
      unfold EEPROM_IS_CONFIGURED_TOKEN_STORAGE_ADDRESS, EEPROM_SIZE.
      simpl. lia.
    - unfold EEPROM_IS_CONFIGURED_TOKEN_STORAGE_ADDRESS,
        MQTT_CONFIG_STORAGE_ADDRESS in *. simpl. lia. }
  unfold overlay at 1. rewrite Hn.
  destruct (nth_error (_data (EEPROM.begin EEPROM_SIZE e)) i) as [b |] eqn:E.
  - unfold EEPROM.begin in E. cbn [_data] in E.
    rewrite nth_error_map in E.
    destruct (nth_error (seq 0 EEPROM_SIZE) i) as [j |] eqn:Ej;
      [| discriminate E].
    rewrite nth_error_seq in Ej.
    destruct (i <? EEPROM_SIZE)%nat; [| discriminate Ej].
    injection Ej as <-. simpl in E. congruence.
  - unfold overlay. rewrite Hn. reflexivity.
Qed.

Lemma loadConfig_trusts_marker_witness :
  _sector garbage_flash EEPROM_IS_CONFIGURED_TOKEN_STORAGE_ADDRESS
    = EEPROM_IS_CONFIGURED_TOKEN_VALUE /\
  exists e',
    loadConfig zero_config garbage_flash
      = (true,
         of_bytes (body_of (T:=MultiHTT.MQTT_CONFIG) (_sector garbage_flash)),
         e') /\
    forall i, _sector e' i = _sector garbage_flash i.
Proof.
  split; [reflexivity |].
  exact (loadConfig_trusts_marker zero_config garbage_flash eq_refl).
Defined.

Lemma saveConfig_touches_only_its_record_witness :
  struct_ok sample_config /\
  (MQTT_CONFIG_STORAGE_ADDRESS + sizeof (T:=MultiHTT.MQTT_CONFIG) <= 300)%nat /\
  (300 < EEPROM_SIZE)%nat /\
  _sector (saveConfig sample_config garbage_flash) 300 = _sector garbage_flash 300.
Proof.
  assert (Hok : struct_ok sample_config).
  { unfold struct_ok. simpl.
    unfold MultiHTT.config_ok, in_long, LONG_MIN, LONG_MAX. simpl.
    repeat split; lia. }
  assert (Hi : (MQTT_CONFIG_STORAGE_ADDRESS + sizeof (T:=MultiHTT.MQTT_CONFIG)
                <= 300)%nat)
    by (unfold MQTT_CONFIG_STORAGE_ADDRESS; simpl; lia).
  assert (Hopen : (300 < EEPROM_SIZE)%nat) by (unfold EEPROM_SIZE; lia).
  split; [exact Hok |]. split; [exact Hi |]. split; [exact Hopen |].
  exact (saveConfig_touches_only_its_record sample_config garbage_flash 300
           Hok Hi Hopen).
Defined.

(** ** [setup]: from the portal to the next boot *)




Lemma loadConfig_flash {T : Type} `{Storable T} (c0 : T) (e : EEPROMClass)
  (i : nat) :
  _sector (snd (loadConfig c0 e)) i = _sector e i.
Proof.
  unfold loadConfig. destruct (Byte.eqb _ _); cbn [snd];
    apply sector_end_begin.
Qed.

(** All nine fields of a submission reach the saved record. *)
Lemma setup_save_copies
  (p : MultiHTT.portal) (c : MultiHTT.MQTT_CONFIG) (e : EEPROMClass) :
  MultiHTT.shouldSaveConfig p = true ->
  MultiHTT.portal_fits p ->
  MultiHTT.config_ok c ->
  exists c',
    MultiHTT.setup_save p c e = Some (c', saveConfig c' e) /\
    MultiHTT.config_ok c' /\
    cstr (MultiHTT.servername c') = cstr (MultiHTT.custom_mqtt_servername p) /\
    MultiHTT.serverport c' = atoi (MultiHTT.custom_mqtt_serverport p) /\
    cstr (MultiHTT.username c') = cstr (MultiHTT.custom_mqtt_username p) /\
    cstr (MultiHTT.password c') = cstr (MultiHTT.custom_mqtt_password p) /\
    cstr (MultiHTT.topic c') = cstr (MultiHTT.custom_mqtt_topic p) /\
    cstr (MultiHTT.sw0propertyname c')
      = cstr (MultiHTT.custom_mqtt_property_name_0 p) /\
    cstr (MultiHTT.sw1propertyname c')
      = cstr (MultiHTT.custom_mqtt_property_name_1 p) /\
    cstr (MultiHTT.sw2propertyname c')
      = cstr (MultiHTT.custom_mqtt_property_name_2 p) /\
    cstr (MultiHTT.sw3propertyname c')
      = cstr (MultiHTT.custom_mqtt_property_name_3 p).
Proof.
  intros Hsave (F1 & F2 & F3 & F4 & F5 & F6 & F7 & F8)
         (H1 & H2 & H3 & H4 & H5 & H6 & H7 & H8 & H9).
  unfold MultiHTT.setup_save. rewrite Hsave.
  copy_field H1 F1 sn Hsn. copy_field H3 F2 un Hun.
  copy_field H4 F3 pw Hpw. copy_field H5 F4 tp Htp.
  copy_field H6 F5 p0 Hp0. copy_field H7 F6 p1 Hp1.
  copy_field H8 F7 p2 Hp2. copy_field H9 F8 p3 Hp3.
  eexists. split; [reflexivity |]. cbn.
  pose proof (atoi_range (MultiHTT.custom_mqtt_serverport p)).
  unfold MultiHTT.config_ok. cbn. tauto.
Qed.

(** [setup] on a flash that holds a saved record, with nothing submitted
    and the network joined, goes to production with that record. *)
Lemma setup_with_stored_config
  (p : MultiHTT.portal) (n : nat) (c : MultiHTT.MQTT_CONFIG)
  (e : EEPROMClass) :
  MultiHTT.config_ok c ->
  MultiHTT.shouldSaveConfig p = false ->
  MultiHTT.res p = true ->
  exists inputs e',
    MultiHTTBoot.setup p n (saveConfig c e)
    = Some (MultiHTTBoot.Production (MultiHTT.mkSketch c n [] 0 0) inputs e').
Proof.
  intros Hok Hs Hr. unfold MultiHTTBoot.setup.
  rewrite (loadConfig_after_save c zero_config e) by exact Hok.
  unfold MultiHTT.setup_save. rewrite Hs, Hr. cbn [negb].
  do 2 eexists. reflexivity.
Qed.



(** X5.  A boot that finds no configuration (marker unset) and whose portal
    session ends without a submission and without a network restarts the
    device and leaves the flash as it was, so the next boot finds no
    configuration either. *)
Theorem unprovisioned_boot_restarts_unchanged
  (p : MultiHTT.portal) (n : nat) (c : MultiHTT.MQTT_CONFIG)
  (e : EEPROMClass) :
  _sector e EEPROM_IS_CONFIGURED_TOKEN_STORAGE_ADDRESS
    <> EEPROM_IS_CONFIGURED_TOKEN_VALUE ->
  MultiHTT.shouldSaveConfig p = false ->
  MultiHTT.res p = false ->
  exists e',
    MultiHTTBoot.setup p n e = Some (MultiHTTBoot.Restart e') /\
    (forall i, _sector e' i = _sector e i) /\
    fst (fst (loadConfig c e')) = false.
Proof.
  intros Hm Hs Hr. unfold MultiHTTBoot.setup.
  rewrite (loadConfig_unset zero_config e Hm).
  unfold MultiHTT.setup_save. rewrite Hs, Hr. cbn [negb].
  eexists. split; [reflexivity |]. split.
  - intros i. apply sector_end_begin.
  - rewrite loadConfig_unset; [reflexivity |].
    rewrite sector_end_begin. exact Hm.
Qed.

Lemma unprovisioned_boot_restarts_unchanged_witness :
  _sector blank_flash EEPROM_IS_CONFIGURED_TOKEN_STORAGE_ADDRESS
    <> EEPROM_IS_CONFIGURED_TOKEN_VALUE /\
  MultiHTT.shouldSaveConfig (quiet_portal false) = false /\
  MultiHTT.res (quiet_portal false) = false /\
  exists e',
    MultiHTTBoot.setup (quiet_portal false) 0 blank_flash
      = Some (MultiHTTBoot.Restart e') /\
    (forall i, _sector e' i = _sector blank_flash i) /\
    fst (fst (loadConfig zero_config e')) = false.
Proof.
  assert (Hm : _sector blank_flash EEPROM_IS_CONFIGURED_TOKEN_STORAGE_ADDRESS
               <> EEPROM_IS_CONFIGURED_TOKEN_VALUE)
    by (simpl; discriminate).
  split; [exact Hm |]. split; [reflexivity |]. split; [reflexivity |].
  exact (unprovisioned_boot_restarts_unchanged
           (quiet_portal false) 0 zero_config blank_flash Hm eq_refl eq_refl).
Defined.

(** ** [loop] against what [setup] prepared *)

Lemma loop_keeps_config (w : world) (s : MultiHTT.sketch) :
  MultiHTT.mqttConfig (MultiHTT.after (MultiHTT.loop w s))
    = MultiHTT.mqttConfig s /\
  MultiHTT.dallasDeviceCount (MultiHTT.after (MultiHTT.loop w s))
    = MultiHTT.dallasDeviceCount s.
Proof.
  unfold MultiHTT.loop.
  destruct (millis w >? MultiHTT.mqttPublishSoftDeadline s);
    [| split; reflexivity].
  destruct (dirty (MultiHTT.poll_all w s)
            || (millis w >? MultiHTT.mqttPublishHardDeadline s));
    split; reflexivity.
Qed.

Lemma loop_polled (w : world) (s : MultiHTT.sketch) (x : Z) :
  In x (MultiHTT.polled (MultiHTT.loop w s)) ->
  In x (reads (MultiHTT.poll_all w s)).
Proof.
  unfold MultiHTT.loop.
  destruct (millis w >? MultiHTT.mqttPublishSoftDeadline s);
    [| intros []].
  destruct (dirty (MultiHTT.poll_all w s)
            || (millis w >? MultiHTT.mqttPublishHardDeadline s));
    intros Hin; exact Hin.
Qed.

Lemma run_polled (ws : list world) (s : MultiHTT.sketch) (p : MultiHTT.pass)
  (x : Z) :
  In p (MultiHTT.run ws s) -> In x (MultiHTT.polled p) ->
  exists name, In (name, x) (switches (MultiHTT.mqttConfig s)) /\
               (0 < strlen name)%nat.
Proof.
  revert s. induction ws as [| w ws IH]; intros s Hin Hx.
  - destruct Hin.
  - simpl in Hin. destruct Hin as [<- | Hin].
    + apply loop_polled in Hx. now apply poll_all_reads in Hx.
    + destruct (loop_keeps_config w s) as [Hc _]. rewrite <- Hc.
      now apply (IH _ Hin).
Qed.

Lemma detect_switch_In (name : list byte) (pin x : Z) (l : list Z) :
  In x (MultiHTTBoot.detect_switch name pin l) <->
  (x = pin /\ (0 < strlen name)%nat) \/ In x l.
Proof.
  unfold MultiHTTBoot.detect_switch.
  destruct (Nat.ltb_spec 0 (strlen name)) as [Hp | Hz].
  - rewrite in_app_iff. simpl. intuition.
  - intuition. lia.
Qed.

(** X6.  [loop] only ever reads switch pins that [setup] has configured as
    inputs: in every run that follows a [setup] ending in production, each
    pin read by [digitalRead] is among the pins given to [pinMode]. *)
Theorem loop_reads_only_configured_inputs
  (p : MultiHTT.portal) (n : nat) (e e' : EEPROMClass)
  (s : MultiHTT.sketch) (inputs : list Z)
  (ws : list world) (r : MultiHTT.pass) (pin : Z) :
  MultiHTTBoot.setup p n e = Some (MultiHTTBoot.Production s inputs e') ->
  In r (MultiHTT.run ws s) ->
  In pin (MultiHTT.polled r) ->
  In pin inputs.
Proof.
  intros Hsetup Hr Hpin.
  destruct (run_polled ws s r pin Hr Hpin) as (name & Hsw & Hpos).
  unfold MultiHTTBoot.setup in Hsetup.
  destruct (loadConfig zero_config e) as [[b c0] e0].
  destruct (MultiHTT.setup_save p c0 e0) as [[c1 e1] |]; [| discriminate].
  destruct (negb (MultiHTT.res p)); [discriminate |].
  injection Hsetup as <- <- _. cbn [MultiHTT.mqttConfig] in Hsw.
  rewrite !detect_switch_In.
  unfold switches in Hsw. simpl in Hsw.
  destruct Hsw as [H | [H | [H | [H | []]]]]; injection H as <- <-; tauto.
Qed.

Lemma loop_reads_only_configured_inputs_witness :
  exists s inputs e',
    MultiHTTBoot.setup (quiet_portal true) 0
      (saveConfig sample_config blank_flash)
      = Some (MultiHTTBoot.Production s inputs e') /\
    In (MultiHTT.loop (steady 1000) s) (MultiHTT.run [steady 1000] s) /\
    In MultiHTT.GPIO_SW0 (MultiHTT.polled (MultiHTT.loop (steady 1000) s)) /\
    In MultiHTT.GPIO_SW0 inputs.
Proof.
  assert (Hok : MultiHTT.config_ok sample_config)
    by (unfold MultiHTT.config_ok, in_long, LONG_MIN, LONG_MAX; simpl;
        repeat split; lia).
  destruct (setup_with_stored_config (quiet_portal true) 0 sample_config
              blank_flash Hok eq_refl eq_refl) as (inputs & e' & Hboot).
  exists (MultiHTT.mkSketch sample_config 0 [] 0 0), inputs, e'.
  assert (Hin : In (MultiHTT.loop (steady 1000)
                      (MultiHTT.mkSketch sample_config 0 [] 0 0))
                   (MultiHTT.run [steady 1000]
                      (MultiHTT.mkSketch sample_config 0 [] 0 0)))
    by (left; reflexivity).
  assert (Hpin : In MultiHTT.GPIO_SW0
                   (MultiHTT.polled
                      (MultiHTT.loop (steady 1000)
                         (MultiHTT.mkSketch sample_config 0 [] 0 0))))
    by (vm_compute; left; reflexivity).
  split; [exact Hboot |]. split; [exact Hin |]. split; [exact Hpin |].
  exact (loop_reads_only_configured_inputs (quiet_portal true) 0
           (saveConfig sample_config blank_flash) e'
           (MultiHTT.mkSketch sample_config 0 [] 0 0) inputs
           [steady 1000] _ MultiHTT.GPIO_SW0 Hboot Hin Hpin).
Defined.

(** ** Runs of the two-timer scheduler *)

Lemma long_add_soft (w : world) :
  no_overflow w ->
  long_add (millis w) MultiHTT.MQTT_PUBLISH_SOFT_INTERVAL
  = millis w + MultiHTT.MQTT_PUBLISH_SOFT_INTERVAL.
Proof.
  unfold no_overflow, long_add, MultiHTT.MQTT_PUBLISH_HARD_INTERVAL,
    MultiHTT.MQTT_PUBLISH_SOFT_INTERVAL. intros [Hl Hh].
  apply wrap_long_id. unfold in_long, LONG_MIN, LONG_MAX in *. lia.
Qed.

Lemma long_add_hard (w : world) :
  no_overflow w ->
  long_add (millis w) MultiHTT.MQTT_PUBLISH_HARD_INTERVAL
  = millis w + MultiHTT.MQTT_PUBLISH_HARD_INTERVAL.
Proof.
  unfold no_overflow, long_add, MultiHTT.MQTT_PUBLISH_HARD_INTERVAL.
  intros [Hl Hh].
  apply wrap_long_id. unfold in_long, LONG_MIN, LONG_MAX in *. lia.
Qed.

(** The three ways a pass of [loop] can go. *)
Lemma loop_cases (w : world) (s : MultiHTT.sketch) :
  (millis w <= MultiHTT.mqttPublishSoftDeadline s /\
   MultiHTT.loop w s = MultiHTT.mkPass s [] None) \/
  (millis w > MultiHTT.mqttPublishSoftDeadline s /\
   (dirty (MultiHTT.poll_all w s) = true \/
    millis w > MultiHTT.mqttPublishHardDeadline s) /\
   exists pub,
     MultiHTT.published (MultiHTT.loop w s) = Some pub /\
     pub_message pub = doc (MultiHTT.poll_all w s) /\
     MultiHTT.jsonBuffer (MultiHTT.after (MultiHTT.loop w s))
       = doc (MultiHTT.poll_all w s) /\
     MultiHTT.mqttPublishSoftDeadline (MultiHTT.after (MultiHTT.loop w s))
       = long_add (millis w) MultiHTT.MQTT_PUBLISH_SOFT_INTERVAL /\
     MultiHTT.mqttPublishHardDeadline (MultiHTT.after (MultiHTT.loop w s))
       = long_add (millis w) MultiHTT.MQTT_PUBLISH_HARD_INTERVAL) \/
  (millis w > MultiHTT.mqttPublishSoftDeadline s /\
   dirty (MultiHTT.poll_all w s) = false /\
   millis w <= MultiHTT.mqttPublishHardDeadline s /\
   MultiHTT.published (MultiHTT.loop w s) = None /\
   MultiHTT.jsonBuffer (MultiHTT.after (MultiHTT.loop w s))
     = doc (MultiHTT.poll_all w s) /\
   MultiHTT.mqttPublishSoftDeadline (MultiHTT.after (MultiHTT.loop w s))
     = long_add (millis w) MultiHTT.MQTT_PUBLISH_SOFT_INTERVAL /\
   MultiHTT.mqttPublishHardDeadline (MultiHTT.after (MultiHTT.loop w s))
     = MultiHTT.mqttPublishHardDeadline s).
Proof.
  unfold MultiHTT.loop.
  destruct (Z.gtb_spec (millis w) (MultiHTT.mqttPublishSoftDeadline s))
    as [Hg | Hg]; [| left; split; [lia | reflexivity]].
  right.
  destruct (dirty (MultiHTT.poll_all w s)) eqn:Ed; cbn [orb].
  - left. split; [lia |]. split; [now left |].
    eexists. cbn. repeat split.
  - destruct (Z.gtb_spec (millis w) (MultiHTT.mqttPublishHardDeadline s))
      as [Hh | Hh].
    + left. split; [lia |]. split; [right; lia |].
      eexists. cbn. repeat split.
    + right. cbn. repeat split; auto; lia.
Qed.

Lemma spaced_after (d t0 : Z) (ws : list world) (s : MultiHTT.sketch) :
  d = MultiHTT.MQTT_PUBLISH_SOFT_INTERVAL ->
  Forall no_overflow ws ->
  t0 + d <= MultiHTT.mqttPublishSoftDeadline s ->
  spaced d (t0 :: publish_times ws s).
Proof.
  intros ->. revert s t0. induction ws as [| w ws IH]; intros s t0 Hws Ht.
  - exact I.
  - inversion Hws as [| ? ? Hw Hws']; subst.
    cbn [publish_times].
    destruct (loop_cases w s)
      as [[Hg Heq] | [(Hg & _ & pub & Hp & _ & _ & Hsoft & _)
                     | (Hg & _ & _ & Hp & _ & Hsoft & _)]].
    + rewrite Heq. cbn. apply IH; assumption.
    + rewrite Hp. rewrite long_add_soft in Hsoft by exact Hw.
      cbn [spaced]. split; [lia |]. apply IH; [assumption | lia].
    + rewrite Hp. rewrite long_add_soft in Hsoft by exact Hw.
      apply IH; [assumption |].
      unfold MultiHTT.MQTT_PUBLISH_SOFT_INTERVAL in *. lia.
Qed.

(** X7.  The rate limit, as the code keeps it.  In every run of the
    four-switch sketch, from any state, the clock readings [now] of two
    successive passes that publish are more than the soft interval
    (3000 ms) apart, as long as the clock stays clear of the overflow of
    [long].  The bound is on [now], which a pass reads before
    [connect_to_mqtt]; it is no bound on the distance of the calls of
    [publish], which come later by the time the pass spends reconnecting. *)
Theorem publishes_are_spaced_by_soft_interval
  (ws : list world) (s : MultiHTT.sketch) :
  Forall no_overflow ws ->
  spaced MultiHTT.MQTT_PUBLISH_SOFT_INTERVAL (publish_times ws s).
Proof.
  revert s. induction ws as [| w ws IH]; intros s Hws.
  - exact I.
  - inversion Hws as [| ? ? Hw Hws']; subst.
    cbn [publish_times].
    destruct (loop_cases w s)
      as [[Hg Heq] | [(Hg & _ & pub & Hp & _ & _ & Hsoft & _)
                     | (Hg & _ & _ & Hp & _ & _)]].
    + rewrite Heq. cbn. apply IH; assumption.
    + rewrite Hp. rewrite long_add_soft in Hsoft by exact Hw.
      apply spaced_after; [reflexivity | assumption | lia].
    + rewrite Hp. apply IH; assumption.
Qed.

Lemma heartbeat_kept_from (ws : list world) (s : MultiHTT.sketch)
  (last : option Z) :
  Forall no_overflow ws ->
  match last with
  | Some t => MultiHTT.mqttPublishHardDeadline s
              = t + MultiHTT.MQTT_PUBLISH_HARD_INTERVAL
  | None => MultiHTT.mqttPublishHardDeadline s
            <= MultiHTT.mqttPublishSoftDeadline s
  end ->
  heartbeat_kept ws s last.
Proof.
  revert s last. induction ws as [| w ws IH]; intros s last Hws Hinv.
  - exact I.
  - inversion Hws as [| ? ? Hw Hws']; subst.
    cbn [heartbeat_kept]. cbv zeta.
    destruct (loop_cases w s)
      as [[Hg Heq] | [(Hg & _ & pub & Hp & _ & _ & _ & Hhard)
                     | (Hg & _ & Hle & Hp & _ & Hsoft & Hhard)]].
    + rewrite Heq. cbn. split; [lia |]. apply IH; assumption.
    + rewrite Hp. apply IH; [assumption |].
      rewrite Hhard. now apply long_add_hard.
    + rewrite Hp. split.
      * intros _. destruct last as [t |].
        -- exists t. split; [reflexivity | lia].
        -- lia.
      * apply IH; [assumption |]. rewrite Hhard.
        destruct last as [t |]; [exact Hinv | lia].
Qed.

(** X8.  The heartbeat, as the code keeps it.  In every run of the
    four-switch sketch from boot, a pass that gets past the soft gate
    without publishing comes at most the hard interval (30000 ms) after the
    latest publish, and never before the first publish; so once the hard
    interval has gone by, the next pass past the soft gate publishes. *)
Theorem heartbeat_on_next_poll_after_hard_interval
  (ws : list world) (c : MultiHTT.MQTT_CONFIG) (n : nat) :
  Forall no_overflow ws ->
  heartbeat_kept ws (MultiHTT.boot c n) None.
Proof.
  intros Hws. apply heartbeat_kept_from; [exact Hws |]. simpl. lia.
Qed.

Lemma publishes_are_spaced_by_soft_interval_witness :
  Forall no_overflow changing_run /\
  publish_times changing_run (MultiHTT.boot sample_config 0) = [1000; 4500] /\
  spaced MultiHTT.MQTT_PUBLISH_SOFT_INTERVAL
    (publish_times changing_run (MultiHTT.boot sample_config 0)).
Proof.
  assert (Hws : Forall no_overflow changing_run).
  { unfold changing_run.
    repeat constructor;
      unfold no_overflow, LONG_MIN, LONG_MAX,
        MultiHTT.MQTT_PUBLISH_HARD_INTERVAL; simpl; lia. }
  split; [exact Hws |]. split; [vm_compute; reflexivity |].
  exact (publishes_are_spaced_by_soft_interval changing_run
           (MultiHTT.boot sample_config 0) Hws).
Defined.

Lemma heartbeat_on_next_poll_after_hard_interval_witness :
  Forall no_overflow changing_run /\
  heartbeat_kept changing_run (MultiHTT.boot sample_config 0) None.
Proof.
  assert (Hws : Forall no_overflow changing_run).
  { unfold changing_run.
    repeat constructor;
      unfold no_overflow, LONG_MIN, LONG_MAX,
        MultiHTT.MQTT_PUBLISH_HARD_INTERVAL; simpl; lia. }
  split; [exact Hws |].
  exact (heartbeat_on_next_poll_after_hard_interval changing_run
           sample_config 0 Hws).
Defined.

(** ** The document and the [dirty] flag *)

Lemma update_int_clean (k : string) (v : Z) (p : polling) :
  dirty (update_int k v p) = false ->
  doc (update_int k v p) = doc p /\ dirty p = false.
Proof.
  unfold update_int. destruct (negb _); simpl; [discriminate | auto].
Qed.

Lemma update_switch_clean (w : world) (k : string) (pin : Z) (p : polling) :
  dirty (update_switch w k pin p) = false ->
  doc (update_switch w k pin p) = doc p /\ dirty p = false.
Proof.
  unfold update_switch. destruct (json_differs _ _ _); simpl;
    [discriminate | auto].
Qed.

Lemma apply_action_clean (w : world) (p : polling) (a : action) :
  dirty (apply_action w p a) = false ->
  doc (apply_action w p a) = doc p /\ dirty p = false.
Proof.
  destruct a; [apply update_int_clean | apply update_switch_clean].
Qed.

Lemma fold_actions_clean (w : world) (l : list action) (p : polling) :
  dirty (fold_left (apply_action w) l p) = false ->
  doc (fold_left (apply_action w) l p) = doc p /\ dirty p = false.
Proof.
  revert p. induction l as [| a l IH]; intros p Hd; simpl in *.
  - auto.
  - destruct (IH _ Hd) as [Hdoc Hdirty].
    destruct (apply_action_clean w p a Hdirty) as [Hdoc' Hdirty'].
    split; [congruence | exact Hdirty'].
Qed.

(** The polling block of [loop] is the fold of its member updates. *)
Lemma fold_dallas_actions (w : world) (l : list nat) (p : polling) :
  fold_left (MultiHTT.poll_dallas_device w) l p
  = fold_left (apply_action w) (flat_map (dallas_action w) l) p.
Proof.
  revert p. induction l as [| i l IH]; intros p; simpl.
  - reflexivity.
  - rewrite fold_left_app, IH. f_equal.
    unfold MultiHTT.poll_dallas_device, dallas_action.
    destruct (dallas w i) as [[addr t] |]; reflexivity.
Qed.

Lemma poll_dallas_actions (w : world) (n : nat) (p : polling) :
  MultiHTT.poll_dallas w n p
  = fold_left (apply_action w) (flat_map (dallas_action w) (seq 0 n)) p.
Proof.
  unfold MultiHTT.poll_dallas. destruct n as [| n].
  - reflexivity.
  - cbn [Nat.ltb Nat.leb]. apply fold_dallas_actions.
Qed.

Lemma poll_am2322_actions (w : world) (p : polling) :
  poll_am2322 w p = fold_left (apply_action w) (am2322_actions w) p.
Proof.
  unfold poll_am2322, am2322_actions.
  destruct (am_connected w); [| reflexivity].
  destruct (am_read_ok w); reflexivity.
Qed.

Lemma poll_switch_actions (w : world) (name : list byte) (pin : Z)
  (p : polling) :
  MultiHTT.poll_switch w name pin p
  = fold_left (apply_action w) (switch_action name pin) p.
Proof.
  unfold MultiHTT.poll_switch, switch_action.
  destruct (0 <? strlen name)%nat; reflexivity.
Qed.

Lemma poll_all_actions (w : world) (s : MultiHTT.sketch) :
  MultiHTT.poll_all w s
  = fold_left (apply_action w) (actions w s)
      (mkPolling (MultiHTT.jsonBuffer s) false []).
Proof.
  unfold MultiHTT.poll_all, actions.
  rewrite !fold_left_app.
  rewrite <- poll_dallas_actions, <- poll_am2322_actions,
    <- !poll_switch_actions.
  reflexivity.
Qed.

Lemma poll_all_clean (w : world) (s : MultiHTT.sketch) :
  dirty (MultiHTT.poll_all w s) = false ->
  doc (MultiHTT.poll_all w s) = MultiHTT.jsonBuffer s.
Proof.
  rewrite poll_all_actions. intros Hd.
  now destruct (fold_actions_clean w _ _ Hd) as [Hdoc _].
Qed.

(** X9.  The document that [loop] compares the readings with is always the
    message it last handed to the broker: a pass that does not publish
    leaves the document as it was, and a pass that publishes leaves it
    equal to the message.  So every change that polling makes to the
    document is published on that very pass. *)
Theorem document_is_last_message (w : world) (s : MultiHTT.sketch) :
  MultiHTT.jsonBuffer (MultiHTT.after (MultiHTT.loop w s))
  = match MultiHTT.published (MultiHTT.loop w s) with
    | Some pub => pub_message pub
    | None => MultiHTT.jsonBuffer s
    end.
Proof.
  destruct (loop_cases w s)
    as [[Hg Heq] | [(Hg & _ & pub & Hp & Hm & Hdoc & _)
                   | (Hg & Hd & _ & Hp & Hdoc & _)]].
  - rewrite Heq. reflexivity.
  - rewrite Hp, Hdoc, Hm. reflexivity.
  - rewrite Hp, Hdoc. now apply poll_all_clean.
Qed.

(** ** A reading that changes, a reading that stays *)

Lemma update_int_clean_value (k : string) (v : Z) (p : polling) :
  dirty (update_int k v p) = false -> json_as_int (doc p) k = v.
Proof.
  unfold update_int.
  destruct (Z.eqb_spec (json_as_int (doc p) k) v); simpl;
    [auto | discriminate].
Qed.

Lemma update_int_changed (k : string) (v : Z) (p : polling) :
  json_as_int (doc p) k <> v ->
  json_get (doc (update_int k v p)) k = Some v.
Proof.
  intros Hne. unfold update_int.
  destruct (Z.eqb_spec (json_as_int (doc p) k) v); simpl;
    [contradiction | apply json_get_set_same].
Qed.

Lemma poll_switch_clean (w : world) (name : list byte) (pin : Z)
  (p : polling) :
  dirty (MultiHTT.poll_switch w name pin p) = false -> dirty p = false.
Proof.
  rewrite poll_switch_actions. intros Hd.
  now destruct (fold_actions_clean w _ _ Hd).
Qed.

Lemma fold_dallas_other (w : world) (l : list nat) (p : polling) (k : string) :
  (forall addr, MultiHTT.dallas_name addr <> k) ->
  json_get (doc (fold_left (MultiHTT.poll_dallas_device w) l p)) k
  = json_get (doc p) k.
Proof.
  intros Hk. revert p. induction l as [| i l IH]; intros p; simpl.
  - reflexivity.
  - rewrite IH. unfold MultiHTT.poll_dallas_device.
    destruct (dallas w i) as [[addr t] |]; [| reflexivity].
    apply update_int_other. intros He. now apply (Hk addr).
Qed.

Lemma poll_dallas_other (w : world) (n : nat) (p : polling) (k : string) :
  (forall addr, MultiHTT.dallas_name addr <> k) ->
  json_get (doc (MultiHTT.poll_dallas w n p)) k = json_get (doc p) k.
Proof.
  intros Hk. unfold MultiHTT.poll_dallas.
  destruct (0 <? n)%nat; [now apply fold_dallas_other | reflexivity].
Qed.

Lemma dallas_name_not_humidity (addr : list byte) :
  MultiHTT.dallas_name addr <> "humidity"%string.
Proof. unfold MultiHTT.dallas_name. simpl. discriminate. Qed.

(** X10.  A changed humidity is published at once.  On a pass past the soft
    gate with the AM2322 connected and readable, a humidity that differs
    from the one in the document makes the pass publish, and the message
    carries the new humidity (no switch being named humidity). *)
Theorem changed_humidity_is_published_at_once
  (w : world) (s : MultiHTT.sketch) :
  millis w > MultiHTT.mqttPublishSoftDeadline s ->
  am_connected w = true ->
  am_read_ok w = true ->
  json_as_int (MultiHTT.jsonBuffer s) "humidity" <> humidity w ->
  no_alias_is (MultiHTT.mqttConfig s) "humidity" ->
  exists pub,
    MultiHTT.published (MultiHTT.loop w s) = Some pub /\
    json_get (pub_message pub) "humidity" = Some (humidity w).
Proof.
  intros Hg Hc Hr Hne Hfree.
  set (pd := MultiHTT.poll_dallas w (MultiHTT.dallasDeviceCount s)
               (mkPolling (MultiHTT.jsonBuffer s) false [])).
  assert (Hpd : json_as_int (doc pd) "humidity" <> humidity w).
  { unfold json_as_int, pd.
    rewrite poll_dallas_other by apply dallas_name_not_humidity. exact Hne. }
  assert (Hdoc : json_get (doc (MultiHTT.poll_all w s)) "humidity"
                 = Some (humidity w)).
  { rewrite poll_all_am2322_key by exact Hfree. fold pd.
    unfold poll_am2322. rewrite Hc, Hr.
    rewrite update_int_other by discriminate.
    now apply update_int_changed. }
  assert (Hdirty : dirty (MultiHTT.poll_all w s) = true).
  { destruct (dirty (MultiHTT.poll_all w s)) eqn:Ed; [reflexivity |].
    exfalso. unfold MultiHTT.poll_all in Ed. fold pd in Ed.
    do 4 apply poll_switch_clean in Ed.
    unfold poll_am2322 in Ed. rewrite Hc, Hr in Ed.
    apply update_int_clean in Ed. destruct Ed as [_ Ed].
    apply update_int_clean_value in Ed. contradiction. }
  destruct (loop_cases w s)
    as [[Hle _] | [(_ & _ & pub & Hp & Hm & _) | (_ & Hd & _)]].
  - lia.
  - exists pub. split; [exact Hp |]. rewrite Hm. exact Hdoc.
  - congruence.
Qed.

Lemma changed_humidity_is_published_at_once_witness :
  let s := MultiHTT.after
             (MultiHTT.loop (steady 1000) (MultiHTT.boot sample_config 0)) in
  millis (refused 55 4500) > MultiHTT.mqttPublishSoftDeadline s /\
  millis (refused 55 4500) <= MultiHTT.mqttPublishHardDeadline s /\
  am_connected (refused 55 4500) = true /\
  am_read_ok (refused 55 4500) = true /\
  json_as_int (MultiHTT.jsonBuffer s) "humidity" <> humidity (refused 55 4500) /\
  no_alias_is (MultiHTT.mqttConfig s) "humidity" /\
  exists pub,
    MultiHTT.published (MultiHTT.loop (refused 55 4500) s) = Some pub /\
    json_get (pub_message pub) "humidity" = Some (humidity (refused 55 4500)).
Proof.
  cbv zeta.
  assert (Hh : no_alias_is
                 (MultiHTT.mqttConfig
                    (MultiHTT.after
                       (MultiHTT.loop (steady 1000)
                          (MultiHTT.boot sample_config 0)))) "humidity").
  { intros name pin [H | [H | [H | [H | []]]]];
      injection H as <- <-; vm_compute; discriminate. }
  assert (Hne : json_as_int
                  (MultiHTT.jsonBuffer
                     (MultiHTT.after
                        (MultiHTT.loop (steady 1000)
                           (MultiHTT.boot sample_config 0)))) "humidity"
                <> humidity (refused 55 4500))
    by (vm_compute; discriminate).
  split; [vm_compute; reflexivity |]. split; [vm_compute; discriminate |].
  split; [reflexivity |]. split; [reflexivity |].
  split; [exact Hne |]. split; [exact Hh |].
  apply changed_humidity_is_published_at_once;
    try reflexivity; assumption.
Defined.

Lemma apply_action_settles (w : world) (p : polling) (a : action) :
  settled w (doc (apply_action w p a)) a.
Proof.
  destruct a as [k v | k pin]; simpl.
  - unfold update_int.
    destruct (Z.eqb_spec (json_as_int (doc p) k) v) as [He | Hne]; simpl.
    + exact He.
    + unfold json_as_int. now rewrite json_get_set_same.
  - unfold update_switch, json_differs.
    destruct (json_get (doc p) k) as [x |] eqn:E; simpl.
    + destruct (Z.eqb_spec x (digitalRead w pin)) as [-> | Hne]; simpl.
      * exact E.
      * apply json_get_set_same.
    + apply json_get_set_same.
Qed.

Lemma apply_action_other (w : world) (p : polling) (b : action) (k : string) :
  k <> action_key b ->
  json_get (doc (apply_action w p b)) k = json_get (doc p) k.
Proof.
  intros Hne. destruct b; simpl in *.
  - now apply update_int_other.
  - now apply update_switch_other.
Qed.

Lemma settled_ext (w : world) (d d' : JsonDocument) (a : action) :
  json_get d' (action_key a) = json_get d (action_key a) ->
  settled w d a -> settled w d' a.
Proof.
  destruct a; simpl; unfold json_as_int; intros ->; auto.
Qed.

Lemma fold_preserves_settled (w : world) (l : list action) (p : polling)
  (a : action) :
  ~ In (action_key a) (map action_key l) ->
  settled w (doc p) a ->
  settled w (doc (fold_left (apply_action w) l p)) a.
Proof.
  revert p. induction l as [| b l IH]; intros p Hnin Hs; simpl in *.
  - exact Hs.
  - apply IH; [tauto |].
    apply (settled_ext w (doc p)); [| exact Hs].
    apply apply_action_other. intros He. apply Hnin. left. now symmetry.
Qed.

Lemma fold_settles (w : world) (l : list action) (p : polling) (a : action) :
  NoDup (map action_key l) -> In a l ->
  settled w (doc (fold_left (apply_action w) l p)) a.
Proof.
  revert p. induction l as [| b l IH]; intros p Hnd Hin; simpl in *.
  - destruct Hin.
  - inversion Hnd as [| ? ? Hnin Hnd']; subst.
    destruct Hin as [-> | Hin].
    + apply fold_preserves_settled; [exact Hnin | apply apply_action_settles].
    + now apply IH.
Qed.

Lemma apply_action_settled (w : world) (p : polling) (a : action) :
  settled w (doc p) a ->
  doc (apply_action w p a) = doc p /\ dirty (apply_action w p a) = dirty p.
Proof.
  destruct a as [k v | k pin]; simpl; intros Hs.
  - unfold update_int. rewrite Hs, Z.eqb_refl. simpl. auto.
  - unfold update_switch, json_differs. rewrite Hs, Z.eqb_refl. simpl. auto.
Qed.

Lemma fold_settled (w : world) (l : list action) (p : polling) :
  (forall a, In a l -> settled w (doc p) a) ->
  doc (fold_left (apply_action w) l p) = doc p /\
  dirty (fold_left (apply_action w) l p) = dirty p.
Proof.
  revert p. induction l as [| b l IH]; intros p Hall; simpl.
  - auto.
  - destruct (apply_action_settled w p b (Hall b (or_introl eq_refl)))
      as [Hd Hf].
    destruct (IH (apply_action w p b)) as [Hd' Hf'].
    + intros a Ha. rewrite Hd. apply Hall. now right.
    + split; congruence.
Qed.

(** X11.  Readings that stay are not sent again.  After a pass that got
    past the soft gate, a later pass over the same readings, no later than
    the hard deadline, publishes nothing and leaves the document as it is,
    provided the member names polled on the pass are pairwise distinct. *)
Theorem unchanged_readings_are_not_republished
  (w : world) (t : Z) (s : MultiHTT.sketch) :
  millis w > MultiHTT.mqttPublishSoftDeadline s ->
  NoDup (map action_key (actions w s)) ->
  let s' := MultiHTT.after (MultiHTT.loop w s) in
  t <= MultiHTT.mqttPublishHardDeadline s' ->
  MultiHTT.published (MultiHTT.loop (at_time t w) s') = None /\
  MultiHTT.jsonBuffer (MultiHTT.after (MultiHTT.loop (at_time t w) s'))
    = MultiHTT.jsonBuffer s'.
Proof.
  intros Hg Hnd s' Ht.
  assert (Hbuf : MultiHTT.jsonBuffer s' = doc (MultiHTT.poll_all w s)).
  { subst s'.
    destruct (loop_cases w s)
      as [[Hle _] | [(_ & _ & pub & _ & _ & Hdoc & _)
                    | (_ & _ & _ & _ & Hdoc & _)]];
      [lia | exact Hdoc | exact Hdoc]. }
  destruct (loop_keeps_config w s) as [Hc Hn]. fold s' in Hc, Hn.
  assert (Hact : actions (at_time t w) s' = actions w s)
    by (unfold actions; rewrite Hc, Hn; reflexivity).
  assert (Hpoll : doc (MultiHTT.poll_all (at_time t w) s')
                  = MultiHTT.jsonBuffer s' /\
                  dirty (MultiHTT.poll_all (at_time t w) s') = false).
  { rewrite poll_all_actions, Hact.
    change (apply_action (at_time t w)) with (apply_action w).
    apply (fold_settled w (actions w s)
             (mkPolling (MultiHTT.jsonBuffer s') false [])).
    intros a Ha. cbn [doc]. rewrite Hbuf, poll_all_actions.
    now apply fold_settles. }
  destruct Hpoll as [Hdoc Hdirty].
  destruct (loop_cases (at_time t w) s')
    as [[_ Heq] | [(_ & [Hd | Hh] & _) | (_ & _ & _ & Hp & Hd & _)]].
  - rewrite Heq. split; reflexivity.
  - congruence.
  - cbn [millis at_time] in Hh. lia.
  - split; [exact Hp |]. rewrite Hd. exact Hdoc.
Qed.

Lemma unchanged_readings_are_not_republished_witness :
  let s := MultiHTT.boot sample_config 0 in
  let s' := MultiHTT.after (MultiHTT.loop (steady 1000) s) in
  millis (steady 1000) > MultiHTT.mqttPublishSoftDeadline s /\
  NoDup (map action_key (actions (steady 1000) s)) /\
  9000 <= MultiHTT.mqttPublishHardDeadline s' /\
  9000 > MultiHTT.mqttPublishSoftDeadline s' /\
  MultiHTT.published (MultiHTT.loop (at_time 9000 (steady 1000)) s') = None /\
  MultiHTT.jsonBuffer
    (MultiHTT.after (MultiHTT.loop (at_time 9000 (steady 1000)) s'))
    = MultiHTT.jsonBuffer s'.
Proof.
  cbv zeta.
  assert (Hnd : NoDup (map action_key
                         (actions (steady 1000) (MultiHTT.boot sample_config 0)))).
  { vm_compute. repeat constructor; simpl; intuition discriminate. }
  assert (Hg : millis (steady 1000)
               > MultiHTT.mqttPublishSoftDeadline (MultiHTT.boot sample_config 0))
    by (vm_compute; reflexivity).
  assert (Ht : 9000 <= MultiHTT.mqttPublishHardDeadline
                         (MultiHTT.after
                            (MultiHTT.loop (steady 1000)
                               (MultiHTT.boot sample_config 0))))
    by (vm_compute; discriminate).
  split; [exact Hg |]. split; [exact Hnd |]. split; [exact Ht |].
  split; [vm_compute; reflexivity |].
  exact (unchanged_readings_are_not_republished (steady 1000) 9000
           (MultiHTT.boot sample_config 0) Hg Hnd Ht).
Defined.

(** ** Members are never removed *)

Lemma json_keys_set_keep (d : JsonDocument) (k k' : string) (v : Z) :
  In k (json_keys d) -> In k (json_keys (json_set d k' v)).
Proof.
  unfold json_keys. induction d as [| [k0 x] r IH]; simpl.
  - intros [].
  - destruct (String.eqb k0 k'); simpl; intuition.
Qed.

Lemma apply_action_keeps_keys (w : world) (p : polling) (a : action)
  (k : string) :
  In k (json_keys (doc p)) -> In k (json_keys (doc (apply_action w p a))).
Proof.
  intros Hin. destruct a as [k' v | k' pin]; simpl.
  - unfold update_int. destruct (negb _); simpl;
      [now apply json_keys_set_keep | exact Hin].
  - unfold update_switch. destruct (json_differs _ _ _); simpl;
      [now apply json_keys_set_keep | exact Hin].
Qed.

Lemma fold_actions_keeps_keys (w : world) (l : list action) (p : polling)
  (k : string) :
  In k (json_keys (doc p)) ->
  In k (json_keys (doc (fold_left (apply_action w) l p))).
Proof.
  revert p. induction l as [| a l IH]; intros p Hin; simpl.
  - exact Hin.
  - apply IH. now apply apply_action_keeps_keys.
Qed.

Lemma loop_keeps_keys (w : world) (s : MultiHTT.sketch) (k : string) :
  In k (json_keys (MultiHTT.jsonBuffer s)) ->
  In k (json_keys (MultiHTT.jsonBuffer (MultiHTT.after (MultiHTT.loop w s)))).
Proof.
  intros Hin.
  assert (Hp : In k (json_keys (doc (MultiHTT.poll_all w s))))
    by (rewrite poll_all_actions; now apply fold_actions_keeps_keys).
  destruct (loop_cases w s)
    as [[_ Heq] | [(_ & _ & pub & _ & _ & Hdoc & _)
                  | (_ & _ & _ & _ & Hdoc & _)]].
  - rewrite Heq. exact Hin.
  - rewrite Hdoc. exact Hp.
  - rewrite Hdoc. exact Hp.
Qed.

(** X12.  [loop] never removes a member from the document: a member that
    has once been stored (a sensor that answered, a switch that was named)
    stays in the document, and so in every later message, for the rest of
    the run, whatever happens to the sensor. *)
Theorem members_are_never_removed
  (ws : list world) (s : MultiHTT.sketch) (r : MultiHTT.pass) (k : string) :
  In k (json_keys (MultiHTT.jsonBuffer s)) ->
  In r (MultiHTT.run ws s) ->
  In k (json_keys (MultiHTT.jsonBuffer (MultiHTT.after r))) /\
  forall pub, MultiHTT.published r = Some pub ->
              In k (json_keys (pub_message pub)).
Proof.
  revert s. induction ws as [| w ws IH]; intros s Hk Hr.
  - destruct Hr.
  - simpl in Hr. destruct Hr as [<- | Hr].
    + split; [now apply loop_keeps_keys |].
      intros pub Hp. pose proof (loop_keeps_keys w s k Hk) as Hd.
      destruct (loop_cases w s)
        as [[_ Heq] | [(_ & _ & pub' & Hp' & Hm & Hdoc & _)
                      | (_ & _ & _ & Hp' & _)]].
      * rewrite Heq in Hp. discriminate Hp.
      * rewrite Hp' in Hp. injection Hp as <-.
        rewrite Hm, <- Hdoc. exact Hd.
      * rewrite Hp' in Hp. discriminate Hp.
    + apply (IH (MultiHTT.after (MultiHTT.loop w s)));
        [now apply loop_keeps_keys | exact Hr].
Qed.

Lemma members_are_never_removed_witness :
  let s := MultiHTT.after
             (MultiHTT.loop (steady 1000) (MultiHTT.boot sample_config 0)) in
  let r := MultiHTT.loop (disconnected 40000) s in
  In "humidity"%string (json_keys (MultiHTT.jsonBuffer s)) /\
  In r (MultiHTT.run [disconnected 40000] s) /\
  MultiHTT.published r <> None /\
  In "humidity"%string (json_keys (MultiHTT.jsonBuffer (MultiHTT.after r))) /\
  forall pub, MultiHTT.published r = Some pub ->
              In "humidity"%string (json_keys (pub_message pub)).
Proof.
  cbv zeta.
  assert (Hk : In "humidity"%string
                 (json_keys
                    (MultiHTT.jsonBuffer
                       (MultiHTT.after
                          (MultiHTT.loop (steady 1000)
                             (MultiHTT.boot sample_config 0))))))
    by (vm_compute; left; reflexivity).
  assert (Hr : In (MultiHTT.loop (disconnected 40000)
                     (MultiHTT.after
                        (MultiHTT.loop (steady 1000)
                           (MultiHTT.boot sample_config 0))))
                  (MultiHTT.run [disconnected 40000]
                     (MultiHTT.after
                        (MultiHTT.loop (steady 1000)
                           (MultiHTT.boot sample_config 0)))))
    by (left; reflexivity).
  split; [exact Hk |]. split; [exact Hr |].
  split; [vm_compute; discriminate |].
  exact (members_are_never_removed [disconnected 40000] _ _ "humidity" Hk Hr).
Defined.

(** ** The sketch with configured intervals: every poll publishes *)




(** ** The sketches with a motion input *)

(** X14.  In the sketch gated on [DETECTED_MOTION] there is no rate limit
    while the PIR input is high: when a pass publishes and reads the PIR
    pin as non-zero, the next pass publishes too, whatever the time and
    the deadline. *)
Theorem high_motion_input_publishes_on_every_pass
  (w1 w2 : analog_world LuxNode.message) (s : LuxNode.sketch) :
  LuxNode.published (LuxNode.loop w1 s) <> None ->
  a_digitalRead w1 LuxNode.GPIO_PIR_SENSOR <> 0 ->
  LuxNode.published (LuxNode.loop w2 (LuxNode.after (LuxNode.loop w1 s)))
    <> None.
Proof.
  intros Hp Hm. unfold LuxNode.loop at 2. unfold LuxNode.loop in Hp |- *.
  destruct (negb (LuxNode.DETECTED_MOTION s =? 0)
            || (a_millis w1 >? LuxNode.mqttPublishDeadline s));
    [| contradiction].
  cbn [LuxNode.after LuxNode.DETECTED_MOTION].
  destruct (Z.eqb_spec (a_digitalRead w1 LuxNode.GPIO_PIR_SENSOR) 0)
    as [Hz | _]; [contradiction |].
  cbn. discriminate.
Qed.

Lemma high_motion_input_publishes_on_every_pass_witness :
  LuxNode.published (LuxNode.loop (sample_analog_world 15000) moving_lux_node)
    <> None /\
  a_digitalRead (sample_analog_world (M:=LuxNode.message) 15000)
    LuxNode.GPIO_PIR_SENSOR <> 0 /\
  a_millis (sample_analog_world (M:=LuxNode.message) 15001)
    < LuxNode.mqttPublishDeadline
        (LuxNode.after
           (LuxNode.loop (sample_analog_world 15000) moving_lux_node)) /\
  LuxNode.published
    (LuxNode.loop (sample_analog_world 15001)
       (LuxNode.after
          (LuxNode.loop (sample_analog_world 15000) moving_lux_node)))
    <> None.
Proof.
  assert (Hp : LuxNode.published
                 (LuxNode.loop (sample_analog_world 15000) moving_lux_node)
               <> None)
    by (vm_compute; discriminate).
  assert (Hm : a_digitalRead (sample_analog_world (M:=LuxNode.message) 15000)
                 LuxNode.GPIO_PIR_SENSOR <> 0)
    by (vm_compute; discriminate).
  split; [exact Hp |]. split; [exact Hm |].
  split; [vm_compute; reflexivity |].
  exact (high_motion_input_publishes_on_every_pass
           (sample_analog_world 15000) (sample_analog_world 15001)
           moving_lux_node Hp Hm).
Defined.





(** X17.  The lux value: for a non-negative raw reading the published lux
    lies in 0..1023, and it is 1023 exactly when the raw reading is 379 or
    more, so the upper 63 percent of the converter's range all report the
    maximum. *)
Theorem scaled_lux_saturates (raw : Z) :
  0 <= raw ->
  0 <= LuxNode.scaled_lux raw <= 1023 /\
  (LuxNode.scaled_lux raw = 1023 <-> 379 <= raw).
Proof.
  intros Hr. unfold LuxNode.scaled_lux.
  rewrite Z.quot_div_nonneg by lia.
  pose proof (Z.div_mod (raw * 27) 10 ltac:(lia)) as Hdm.
  pose proof (Z.mod_pos_bound (raw * 27) 10 ltac:(lia)) as Hmb.
  destruct (Z.gtb_spec (raw * 27 / 10) 1023); split; try lia.
Qed.

Lemma scaled_lux_saturates_witness :
  0 <= 379 /\
  0 <= LuxNode.scaled_lux 379 <= 1023 /\
  (LuxNode.scaled_lux 379 = 1023 <-> 379 <= 379).
Proof.
  split; [lia |]. exact (scaled_lux_saturates 379 ltac:(lia)).
Defined.

(** ** The Wemos sketch's store *)

Module WemosFacts.
Import Wemos.

Lemma length_wemos_config_bytes (c : MQTT_CONFIG) :
  config_ok c -> length (config_bytes c) = 84%nat.
Proof.
  intros (H1 & _ & H3 & H4).
  unfold config_bytes. rewrite !length_app, length_bytes_of_int. lia.
Qed.

Lemma wemos_config_of_bytes_bytes (c : MQTT_CONFIG) :
  config_ok c -> config_of_bytes (config_bytes c) = c.
Proof.
  destruct c as [sn sp un pw].
  intros (H1 & H2 & H3 & H4). simpl in *.
  unfold config_of_bytes, config_bytes.
  cbn [serverName serverPort userName password].
  f_equal.
  - rewrite skipn_O. now rewrite firstn_exact_app.
  - change 40%nat with (40 + 0)%nat. read_field.
    now apply int_of_bytes_of_int.
  - change 44%nat with (40 + (4 + 0))%nat. read_field.
  - change 64%nat with (40 + (4 + (20 + 0)))%nat. read_field.
Qed.

End WemosFacts.

#[global] Instance Wemos_MQTT_CONFIG_storable_ok : StorableOk Wemos.MQTT_CONFIG.
Proof.
  split.
  - exact WemosFacts.length_wemos_config_bytes.
  - exact WemosFacts.wemos_config_of_bytes_bytes.
  - simpl. lia.
Qed.

(** X18.  The Wemos sketch never reports an absent configuration: with the
    marker unset its [loadConfig] fills the record with the compiled-in
    broker address 192.168.1.206, port 1883, user name and password, and
    leaves the flash as it was. *)
Theorem wemos_loadConfig_falls_back_to_defaults
  (config : Wemos.MQTT_CONFIG) (e : EEPROMClass) :
  _sector e 0%nat <> EEPROM_IS_CONFIGURED_TOKEN_VALUE ->
  Wemos.config_ok config ->
  exists c' e',
    Wemos.loadConfig config e = Some (c', e') /\
    cstr (Wemos.serverName c') = list_byte_of_string "192.168.1.206" /\
    Wemos.serverPort c' = 1883 /\
    cstr (Wemos.userName c') = list_byte_of_string "preeve9534" /\
    cstr (Wemos.password c') = list_byte_of_string "samsam" /\
    Wemos.config_ok c' /\
    forall i, _sector e' i = _sector e i.
Proof.
  intros Hm (H1 & H2 & H3 & H4). unfold Wemos.loadConfig.
  rewrite read_begin by (unfold EEPROM_SIZE; lia).
  rewrite byte_eqb_false by exact Hm.
  assert (F1 : fits 40 Wemos.MQTT_DEFAULT_SERVER_NAME)
    by (unfold fits, strlen; simpl; lia).
  assert (F2 : fits 20 Wemos.MQTT_DEFAULT_USERNAME)
    by (unfold fits, strlen; simpl; lia).
  assert (F3 : fits 20 Wemos.MQTT_DEFAULT_PASSWORD)
    by (unfold fits, strlen; simpl; lia).
  copy_field H1 F1 sn Hsn. copy_field H3 F2 un Hun. copy_field H4 F3 pw Hpw.
  do 2 eexists. split; [reflexivity |].
  cbn [Wemos.serverName Wemos.serverPort Wemos.userName Wemos.password].
  rewrite Hsn, Hun, Hpw.
  split; [reflexivity |]. split; [reflexivity |].
  split; [reflexivity |]. split; [reflexivity |]. split.
  - unfold Wemos.config_ok.
    cbn [Wemos.serverName Wemos.serverPort Wemos.userName Wemos.password].
    repeat apply conj; try assumption;
      unfold LONG_MIN, LONG_MAX, Wemos.MQTT_DEFAULT_SERVER_PORT; lia.
  - intros i. apply sector_end_begin.
Qed.

Lemma wemos_loadConfig_falls_back_to_defaults_witness :
  _sector blank_flash 0%nat <> EEPROM_IS_CONFIGURED_TOKEN_VALUE /\
  Wemos.config_ok zero_wemos_config /\
  exists c' e',
    Wemos.loadConfig zero_wemos_config blank_flash = Some (c', e') /\
    cstr (Wemos.serverName c') = list_byte_of_string "192.168.1.206" /\
    Wemos.serverPort c' = 1883 /\
    cstr (Wemos.userName c') = list_byte_of_string "preeve9534" /\
    cstr (Wemos.password c') = list_byte_of_string "samsam" /\
    Wemos.config_ok c' /\
    forall i, _sector e' i = _sector blank_flash i.
Proof.
  assert (Hm : _sector blank_flash 0%nat <> EEPROM_IS_CONFIGURED_TOKEN_VALUE)
    by (simpl; discriminate).
  assert (Hok : Wemos.config_ok zero_wemos_config)
    by (unfold Wemos.config_ok, in_long, LONG_MIN, LONG_MAX; simpl;
        repeat split; lia).
  split; [exact Hm |]. split; [exact Hok |].
  exact (wemos_loadConfig_falls_back_to_defaults zero_wemos_config blank_flash
           Hm Hok).
Defined.

Lemma wemos_loadConfig_marked (config : Wemos.MQTT_CONFIG) (e : EEPROMClass) :
  fst (fst (loadConfig config e)) = true ->
  Wemos.loadConfig config e
  = Some (snd (fst (loadConfig config e)), snd (loadConfig config e)).
Proof.
  unfold loadConfig, Wemos.loadConfig.
  change EEPROM_IS_CONFIGURED_TOKEN_STORAGE_ADDRESS with 0%nat.
  destruct (Byte.eqb (EEPROM.read 0 (EEPROM.begin EEPROM_SIZE e))
              EEPROM_IS_CONFIGURED_TOKEN_VALUE); cbn [fst snd].
  - reflexivity.
  - discriminate.
Qed.

(** X19.  In the Wemos sketch, [saveConfig] with texts that fit their
    arrays followed by [loadConfig] gives back the saved host, user name
    and password and the port that [atoi] read from the port text. *)
Theorem wemos_saveConfig_then_loadConfig
  (config config0 : Wemos.MQTT_CONFIG)
  (server port username password : list byte) (e : EEPROMClass) :
  Wemos.config_ok config ->
  fits 40 server -> fits 20 username -> fits 20 password ->
  exists c' e1 e2,
    Wemos.saveConfig config server port username password e = Some (c', e1) /\
    Wemos.loadConfig config0 e1 = Some (c', e2) /\
    cstr (Wemos.serverName c') = cstr server /\
    Wemos.serverPort c' = atoi port /\
    cstr (Wemos.userName c') = cstr username /\
    cstr (Wemos.password c') = cstr password.
Proof.
  intros (H1 & H2 & H3 & H4) F1 F2 F3. unfold Wemos.saveConfig.
  copy_field H1 F1 sn Hsn. copy_field H3 F2 un Hun. copy_field H4 F3 pw Hpw.
  set (c' := Wemos.mkConfig sn (atoi port) un pw).
  assert (Hok : Wemos.config_ok c')
    by (unfold Wemos.config_ok, c';
        cbn [Wemos.serverName Wemos.serverPort Wemos.userName Wemos.password];
        pose proof (atoi_range port); tauto).
  change (fold_left exec (saveConfig_body c') e) with (saveConfig c' e).
  exists c', (saveConfig c' e). eexists. split; [reflexivity |]. split.
  - rewrite wemos_loadConfig_marked;
      rewrite (loadConfig_after_save c' config0 e) by exact Hok;
      reflexivity.
  - unfold c'.
    cbn [Wemos.serverName Wemos.serverPort Wemos.userName Wemos.password].
    tauto.
Qed.

Lemma wemos_saveConfig_then_loadConfig_witness :
  Wemos.config_ok zero_wemos_config /\
  fits 40 (list_byte_of_string "broker.lan") /\
  fits 20 (list_byte_of_string "node") /\
  fits 20 (list_byte_of_string "secret") /\
  exists c' e1 e2,
    Wemos.saveConfig zero_wemos_config
      (list_byte_of_string "broker.lan") (list_byte_of_string "1883")
      (list_byte_of_string "node") (list_byte_of_string "secret") blank_flash
      = Some (c', e1) /\
    Wemos.loadConfig zero_wemos_config e1 = Some (c', e2) /\
    cstr (Wemos.serverName c') = cstr (list_byte_of_string "broker.lan") /\
    Wemos.serverPort c' = atoi (list_byte_of_string "1883") /\
    cstr (Wemos.userName c') = cstr (list_byte_of_string "node") /\
    cstr (Wemos.password c') = cstr (list_byte_of_string "secret").
Proof.
  assert (Hok : Wemos.config_ok zero_wemos_config)
    by (unfold Wemos.config_ok, in_long, LONG_MIN, LONG_MAX; simpl;
        repeat split; lia).
  assert (F1 : fits 40 (list_byte_of_string "broker.lan"))
    by (unfold fits, strlen; simpl; lia).
  assert (F2 : fits 20 (list_byte_of_string "node"))
    by (unfold fits, strlen; simpl; lia).
  assert (F3 : fits 20 (list_byte_of_string "secret"))
    by (unfold fits, strlen; simpl; lia).
  split; [exact Hok |]. split; [exact F1 |]. split; [exact F2 |].
  split; [exact F3 |].
  exact (wemos_saveConfig_then_loadConfig zero_wemos_config zero_wemos_config
           _ (list_byte_of_string "1883") _ _ blank_flash Hok F1 F2 F3).
Defined.

(** ** Names printed from addresses *)

Lemma unhex2_hex2 (b : byte) :
  unhex2 (hex_digit (byte.unsigned b / 16)) (hex_digit (byte.unsigned b mod 16))
  = b.
Proof. destruct b; reflexivity. Qed.

Lemma hex_of_cons (b : byte) (r : list byte) :
  hex_of (b :: r)
  = String (hex_digit (byte.unsigned b / 16))
      (String (hex_digit (byte.unsigned b mod 16)) (hex_of r)).
Proof. reflexivity. Qed.

Lemma hex_of_inj (a b : list byte) : hex_of a = hex_of b -> a = b.
Proof.
  revert b. induction a as [| x a IH]; intros [| y b] He.
  - reflexivity.
  - rewrite hex_of_cons in He. discriminate He.
  - rewrite hex_of_cons in He. discriminate He.
  - rewrite !hex_of_cons in He. injection He as H1 H2 H3.
    f_equal; [| now apply IH].
    rewrite <- (unhex2_hex2 x), <- (unhex2_hex2 y). now rewrite H1, H2.
Qed.

Lemma length_hex_of (a : list byte) :
  String.length (hex_of a) = (2 * length a)%nat.
Proof.
  induction a as [| x a IH].
  - reflexivity.
  - rewrite hex_of_cons. cbn [String.length length]. rewrite IH. lia.
Qed.

(** X20.  The member name of a DS18B20 probe: for an 8-byte address it has
    19 characters, so that with its NUL it fills [dallasAddressString[20]]
    exactly, and two probes have the same name only if they have the same
    address. *)
Theorem dallas_name_fits_and_identifies
  (a b : list byte) :
  length a = 8%nat ->
  MultiHTT.dallas_name a = MultiHTT.dallas_name b ->
  String.length (MultiHTT.dallas_name a) = 19%nat /\ a = b.
Proof.
  intros Hlen He. unfold MultiHTT.dallas_name in *. split.
  - cbn [append String.length]. rewrite length_hex_of, Hlen. reflexivity.
  - cbn [append] in He. injection He as He. now apply hex_of_inj.
Qed.

Lemma dallas_name_fits_and_identifies_witness :
  length sample_probe = 8%nat /\
  MultiHTT.dallas_name sample_probe = "DST28ff4b1c0217049e"%string /\
  String.length (MultiHTT.dallas_name sample_probe) = 19%nat /\
  sample_probe = sample_probe.
Proof.
  split; [reflexivity |]. split; [reflexivity |].
  exact (dallas_name_fits_and_identifies sample_probe sample_probe
           eq_refl eq_refl).
Defined.

(** ** Connecting to the broker *)

Lemma connect_refused (n : nat) (log : connect_log) :
  connect_to_mqtt (repeat false n) false log = None.
Proof.
  revert log. induction n as [| n IH]; intros log; simpl.
  - reflexivity.
  - apply IH.
Qed.

Lemma connect_after_refusals (n : nat) (rest : list bool) (log : connect_log) :
  connect_to_mqtt (repeat false n ++ true :: rest) false log
  = Some (mkConnectLog (attempts log + n + 1)
            (delayed log + MQTT_RETRY_DELAY * Z.of_nat n), rest).
Proof.
  revert log. induction n as [| n IH]; intros log.
  - assert (E : connect_to_mqtt (true :: rest) false log
               = Some (mkConnectLog (S (attempts log)) (delayed log), rest))
      by (destruct rest; reflexivity).
    cbn [repeat app]. rewrite E.
    replace (attempts log + 0 + 1)%nat with (S (attempts log)) by lia.
    replace (delayed log + MQTT_RETRY_DELAY * Z.of_nat 0) with (delayed log)
      by lia.
    reflexivity.
  - cbn [repeat app connect_to_mqtt]. rewrite IH. cbn [attempts delayed].
    replace (S (attempts log) + n + 1)%nat with (attempts log + S n + 1)%nat
      by lia.
    replace (delayed log + MQTT_RETRY_DELAY + MQTT_RETRY_DELAY * Z.of_nat n)
      with (delayed log + MQTT_RETRY_DELAY * Z.of_nat (S n)) by lia.
    reflexivity.
Qed.

(** X21.  [connect_to_mqtt] makes no attempt when the client is connected;
    otherwise it returns right after the first accepted attempt, having
    waited 5000 ms for each refused one, and it is still trying after any
    number of refusals. *)
Theorem connect_to_mqtt_retries_until_connected
  (n : nat) (rest answers : list bool) :
  connect_to_mqtt answers true (mkConnectLog 0 0)
    = Some (mkConnectLog 0 0, answers) /\
  connect_to_mqtt (repeat false n ++ true :: rest) false (mkConnectLog 0 0)
    = Some (mkConnectLog (n + 1) (5000 * Z.of_nat n), rest) /\
  connect_to_mqtt (repeat false n) false (mkConnectLog 0 0) = None.
Proof.
  split; [destruct answers; reflexivity |]. split.
  - rewrite connect_after_refusals. reflexivity.
  - apply connect_refused.
Qed.

(** ** Edge cases of the submitted form *)

Lemma atoi_no_number (s : list byte) : no_number s -> atoi s = 0.
Proof.
  unfold no_number, atoi. destruct (cstr s) as [| c r].
  - intros _. reflexivity.
  - intros (Hs & Hm & Hp & Hd). cbn [atoi_skip]. rewrite Hs.
    destruct c;
      try (exfalso; apply Hm; reflexivity);
      try (exfalso; apply Hp; reflexivity);
      cbn [atoi_digits]; rewrite Hd; reflexivity.
Qed.

(** X22.  [setup] takes the port with [atoi] and checks nothing: a port
    field that is empty or starts with a letter is saved as port 0, and port
    0 is what the next boot loads. *)
Theorem port_without_number_is_saved_as_zero
  (p : MultiHTT.portal) (c c0 : MultiHTT.MQTT_CONFIG) (e : EEPROMClass) :
  MultiHTT.shouldSaveConfig p = true ->
  MultiHTT.portal_fits p ->
  MultiHTT.config_ok c ->
  no_number (MultiHTT.custom_mqtt_serverport p) ->
  exists c' e',
    MultiHTT.setup_save p c e = Some (c', e') /\
    MultiHTT.serverport c' = 0 /\
    MultiHTT.serverport (snd (fst (loadConfig c0 e'))) = 0.
Proof.
  intros Hsave Hfit Hc Hno.
  destruct (setup_save_copies p c e Hsave Hfit Hc)
    as (c' & Heq & Hok & _ & Hport & _).
  rewrite (atoi_no_number _ Hno) in Hport.
  exists c', (saveConfig c' e). split; [exact Heq |]. split; [exact Hport |].
  rewrite (loadConfig_after_save c' c0 e) by exact Hok. exact Hport.
Qed.

Lemma port_without_number_is_saved_as_zero_witness :
  no_number (MultiHTT.custom_mqtt_serverport wordy_port_submission) /\
  exists c' e',
    MultiHTT.setup_save wordy_port_submission zero_config blank_flash
      = Some (c', e') /\
    MultiHTT.serverport c' = 0 /\
    MultiHTT.serverport (snd (fst (loadConfig zero_config e'))) = 0.
Proof.
  assert (Hno : no_number (MultiHTT.custom_mqtt_serverport wordy_port_submission))
    by (unfold no_number; cbn; repeat apply conj;
        try reflexivity; discriminate).
  assert (Hfit : MultiHTT.portal_fits wordy_port_submission)
    by (unfold MultiHTT.portal_fits, fits, strlen; cbn; lia).
  assert (Hc : MultiHTT.config_ok zero_config)
    by (unfold MultiHTT.config_ok, in_long, LONG_MIN, LONG_MAX; cbn;
        repeat apply conj; try reflexivity; lia).
  split; [exact Hno |].
  exact (port_without_number_is_saved_as_zero wordy_port_submission
           zero_config zero_config blank_flash eq_refl Hfit Hc Hno).
Defined.

(** X23.  The host field of the form takes forty characters, the array
    [servername] holds forty bytes, and [setup] copies with [strcpy]: a host
    of forty characters or more is written past the end of [servername]
    (the terminating NUL at least), and nothing is saved by a defined
    execution. *)
Theorem forty_character_host_overruns_servername
  (p : MultiHTT.portal) (c : MultiHTT.MQTT_CONFIG) (e : EEPROMClass) :
  MultiHTT.shouldSaveConfig p = true ->
  length (MultiHTT.servername c) = 40%nat ->
  (40 <= strlen (MultiHTT.custom_mqtt_servername p))%nat ->
  MultiHTT.setup_save p c e = None.
Proof.
  intros Hsave Hlen Hlong. unfold MultiHTT.setup_save. rewrite Hsave.
  rewrite strcpy_overflow; [reflexivity |].
  rewrite Hlen. unfold fits. lia.
Qed.

Lemma forty_character_host_overruns_servername_witness :
  strlen (MultiHTT.custom_mqtt_servername long_host_submission) = 40%nat /\
  MultiHTT.setup_save long_host_submission zero_config blank_flash = None.
Proof.
  split; [reflexivity |].
  apply (forty_character_host_overruns_servername long_host_submission
           zero_config blank_flash eq_refl eq_refl).
  unfold strlen. cbn. lia.
Defined.

(** ** The sentinel of the AM2322 *)

(** X24.  In the four-switch sketch, a pass of [loop] that gets past the
    soft gate while the AM2322 is connected but its read fails leaves
    humidity and temperature at exactly 999, in the document and in whatever
    that pass publishes, provided no switch is configured with the property
    name humidity or temperature. *)
Theorem unreadable_am2322_publishes_sentinel
  (w : world) (s : MultiHTT.sketch) :
  millis w > MultiHTT.mqttPublishSoftDeadline s ->
  am_connected w = true ->
  am_read_ok w = false ->
  no_alias_is (MultiHTT.mqttConfig s) "humidity" ->
  no_alias_is (MultiHTT.mqttConfig s) "temperature" ->
  let r := MultiHTT.loop w s in
  json_get (MultiHTT.jsonBuffer (MultiHTT.after r)) "humidity" = Some 999 /\
  json_get (MultiHTT.jsonBuffer (MultiHTT.after r)) "temperature" = Some 999 /\
  forall pub, MultiHTT.published r = Some pub ->
    json_get (pub_message pub) "humidity" = Some 999 /\
    json_get (pub_message pub) "temperature" = Some 999.
Proof.
  intros Hgate Hc Hr Hh Ht. cbv zeta.
  assert (Hdoc : json_get (doc (MultiHTT.poll_all w s)) "humidity" = Some 999 /\
                 json_get (doc (MultiHTT.poll_all w s)) "temperature" = Some 999).
  { rewrite !poll_all_am2322_key by assumption.
    apply poll_am2322_unreadable; assumption. }
  unfold MultiHTT.loop.
  destruct (Z.gtb_spec (millis w) (MultiHTT.mqttPublishSoftDeadline s));
    [| lia].
  destruct (dirty (MultiHTT.poll_all w s)
            || (millis w >? MultiHTT.mqttPublishHardDeadline s)); cbn.
  - repeat apply conj; try apply Hdoc. intros pub [= <-]. exact Hdoc.
  - repeat apply conj; try apply Hdoc. discriminate.
Qed.

Lemma unreadable_am2322_publishes_sentinel_witness :
  let s := MultiHTT.boot sample_config 0 in
  let r := MultiHTT.loop (unreadable 1000) s in
  millis (unreadable 1000) > MultiHTT.mqttPublishSoftDeadline s /\
  am_connected (unreadable 1000) = true /\
  am_read_ok (unreadable 1000) = false /\
  no_alias_is (MultiHTT.mqttConfig s) "humidity" /\
  no_alias_is (MultiHTT.mqttConfig s) "temperature" /\
  MultiHTT.published r <> None /\
  json_get (MultiHTT.jsonBuffer (MultiHTT.after r)) "humidity" = Some 999 /\
  json_get (MultiHTT.jsonBuffer (MultiHTT.after r)) "temperature" = Some 999 /\
  forall pub, MultiHTT.published r = Some pub ->
    json_get (pub_message pub) "humidity" = Some 999 /\
    json_get (pub_message pub) "temperature" = Some 999.
Proof.
  cbv zeta.
  assert (Hh : no_alias_is (MultiHTT.mqttConfig (MultiHTT.boot sample_config 0))
                 "humidity").
  { intros name pin [H | [H | [H | [H | []]]]];
      injection H as <- <-; vm_compute; discriminate. }
  assert (Ht : no_alias_is (MultiHTT.mqttConfig (MultiHTT.boot sample_config 0))
                 "temperature").
  { intros name pin [H | [H | [H | [H | []]]]];
      injection H as <- <-; vm_compute; discriminate. }
  split; [vm_compute; reflexivity |]. split; [reflexivity |].
  split; [reflexivity |]. split; [exact Hh |]. split; [exact Ht |].
  split; [vm_compute; discriminate |].
  apply (unreadable_am2322_publishes_sentinel
           (unreadable 1000) (MultiHTT.boot sample_config 0));
    try reflexivity; assumption.
Defined.
